(** * Precache manifest build and injection (serwist)

    A shallow embedding of

    - [getFileManifestEntries] (build package, lib/get-file-manifest-entries.ts):
      glob expansion, templated URLs, hand-over to the transform pipeline;
    - [InjectManifest.getManifestEntries] and [InjectManifest.addAssets]
      (webpack-plugin/src/inject-manifest.ts): repeated-invocation warning,
      manifest serialisation and placeholder injection;
    - [InjectManifest.propagateWebpackConfig], [InjectManifest.handleMake]
      with [performChildCompilation] and [addSrcToAssets], and the two taps
      of [InjectManifest.apply];
    - the path helpers [slash], [normalizePath], [isAbsolute] and
      [resolveBasePath].

    JavaScript exceptions are explicit completions, mutable objects are
    threaded as state, and collaborators whose code lives in other files are
    section variables. *)

From stdpp Require Import base option list strings pretty sorting gmap.
From Stdlib Require Import ZArith Ascii String.

Local Open Scope string_scope.
Local Open Scope list_scope.
Local Set Warnings "-register-all".

(** ** JavaScript values used by the code *)

Module Js.

(** A thrown value: an instance of [Error] (with its [name] and [message]),
    or anything else. *)
Inductive Thrown : Type :=
| ErrorObject (name message : string)
| OtherValue (shown : string).

(** The result of running a piece of code that may throw. *)
Inductive Completion (A : Type) : Type :=
| Returned (a : A)
| Threw (e : Thrown).
Global Arguments Returned {A} a.
Global Arguments Threw {A} e.

Definition instanceof_Error (e : Thrown) : bool :=
  match e with ErrorObject _ _ => true | OtherValue _ => false end.

Definition message (e : Thrown) : string :=
  match e with ErrorObject _ m => m | OtherValue _ => "" end.

(** Truthiness of a string: every string but the empty one. *)
Definition truthy (s : string) : bool := negb (String.eqb s "").

(** [new Error(msg)] and the [AssertionError] of node's [assert]. *)
Definition new_Error (msg : string) : Thrown := ErrorObject "Error" msg.
Definition AssertionError (msg : string) : Thrown := ErrorObject "AssertionError" msg.
Definition TypeError (msg : string) : Thrown := ErrorObject "TypeError" msg.

(** [Error.prototype.toString]. *)
Definition Error_toString (e : Thrown) : string :=
  match e with
  | ErrorObject n m =>
      if String.eqb n "" then m
      else if String.eqb m "" then n
      else n +:+ ": " +:+ m
  | OtherValue s => s
  end.

(** [Array.prototype.toString] on an array of strings: joined by commas. *)
Definition Array_toString (l : list string) : string := String.concat "," l.

(** [s.startsWith(p)]. *)
Definition startsWith (p s : string) : bool := String.prefix p s.

(** [s.includes(p)]. *)
Fixpoint includes (p s : string) : bool :=
  startsWith p s ||
  match s with
  | EmptyString => false
  | String _ t => includes p t
  end.

(** Drop the first [n] code units. *)
Fixpoint drop_string (n : nat) (s : string) : string :=
  match n, s with
  | O, _ => s
  | S k, EmptyString => EmptyString
  | S k, String _ t => drop_string k t
  end.

(** The expansion of the replacement text of [String.prototype.replace]
    when the pattern is a string (no capture groups): dollar-dollar,
    dollar-ampersand, dollar-backquote and dollar-quote; any other dollar
    stands for itself. *)
Fixpoint GetSubstitution (matched before after replacement : string) : string :=
  match replacement with
  | EmptyString => EmptyString
  | String "$" (String "$" r) => String "$" (GetSubstitution matched before after r)
  | String "$" (String "&" r) => matched +:+ GetSubstitution matched before after r
  | String "$" (String "`" r) => before +:+ GetSubstitution matched before after r
  | String "$" (String "'" r) => after +:+ GetSubstitution matched before after r
  | String c r => String c (GetSubstitution matched before after r)
  end.

(** [s.replace(pattern, replacement)] with a string pattern: only the first
    occurrence is replaced.  [before] accumulates, reversed, what precedes
    the current position. *)
Fixpoint replace_from (before : string) (pattern replacement s : string) : string :=
  if startsWith pattern s then
    String.rev before +:+
    GetSubstitution pattern (String.rev before)
      (drop_string (String.length pattern) s) replacement +:+
    drop_string (String.length pattern) s
  else
    match s with
    | EmptyString => String.rev before
    | String c t => replace_from (String c before) pattern replacement t
    end.

Definition replace (s pattern replacement : string) : string :=
  replace_from "" pattern replacement s.

(** The global replacement of every double quote (code unit 34) by a
    single quote. *)
Fixpoint replace_all_double_quotes (s : string) : string :=
  match s with
  | EmptyString => EmptyString
  | String c t =>
      String (if Ascii.eqb c "034"%char then "'"%char else c) (replace_all_double_quotes t)
  end.

(** [text.match(new RegExp(escapeRegExp(token), 'g'))]: the escaped token
    matches itself literally; a global match scans left to right, resumes
    after the end of each match, and steps one code unit past an empty
    match.  [skip] counts the code units still covered by the last match. *)
Fixpoint match_scan (token text : string) (skip : nat) {struct text} : list string :=
  match text with
  | EmptyString =>
      match skip with
      | O => if startsWith token EmptyString then [token] else []
      | S _ => []
      end
  | String _ rest =>
      match skip with
      | S k => match_scan token rest k
      | O =>
          if startsWith token text
          then token :: match_scan token rest (Nat.pred (String.length token))
          else match_scan token rest 0
      end
  end.

(** [null] when nothing matches, else the array of matches. *)
Definition match_global (token text : string) : option (list string) :=
  match match_scan token text 0 with
  | [] => None
  | ms => Some ms
  end.

End Js.

(** ** The build package: [getFileManifestEntries] *)

Module Build.
Import Js.

(** [FileDetails] of types.ts: one resolved asset. *)
Module FileDetails.
Record t : Type := mk { file : string; hash : string; size : Z }.
End FileDetails.

(** [ManifestEntry] of types.ts. *)
Module ManifestEntry.
Record t : Type := mk {
  url : string;
  revision : option string;
  integrity : option string
}.
End ManifestEntry.

(** What [getFileDetails] returns: the matched files, in match order, and a
    warning text, empty when there is none. *)
Module GlobbedFiles.
Record t : Type := mk {
  globbedFileDetails : list FileDetails.t;
  warning : string
}.
End GlobbedFiles.

(** [GetManifestResult] of types.ts. *)
Module GetManifestResult.
Record t : Type := mk {
  count : Z;
  manifestEntries : option (list ManifestEntry.t);
  size : Z;
  warnings : list string
}.
End GetManifestResult.

(** The value of one key of [templatedURLs]: a list of glob patterns or a
    literal revision string. *)
Inductive Dependencies : Type :=
| DependencyPatterns (patterns : list string)
| DependencyString (revision : string).

(** The [Map<string, FileDetails>] named [allFileDetails].  A JavaScript
    [Map] iterates in insertion order, and [set] on a key that is already
    there keeps its position: an association list with unique keys. *)
Module FileMap.
Definition t : Type := list (string * FileDetails.t).

Definition empty : t := [].

Definition has (m : t) (key : string) : bool :=
  existsb (fun kv => String.eqb kv.1 key) m.

Definition get (m : t) (key : string) : option FileDetails.t :=
  snd <$> List.find (fun kv => String.eqb kv.1 key) m.

Fixpoint set (m : t) (key : string) (value : FileDetails.t) : t :=
  match m with
  | [] => [(key, value)]
  | kv :: rest =>
      if String.eqb kv.1 key then (key, value) :: rest
      else kv :: set rest key value
  end.

Definition keys (m : t) : list string := m.*1.
Definition values (m : t) : list FileDetails.t := m.*2.

(** Lines 50-52: [set] under the guard [!allFileDetails.has(details.file)]. *)
Definition register (m : t) (details : FileDetails.t) : t :=
  if negb (has m (FileDetails.file details))
  then set m (FileDetails.file details) details
  else m.
End FileMap.

(** The calls made to the collaborators, in the order they are made. *)
Inductive Call : Type :=
| CallGetFileDetails (globPattern : string)
| CallGetCompositeDetails (url : string) (details : list FileDetails.t)
| CallGetStringDetails (url : string) (revision : string)
| CallTransformManifest (fileDetails : list FileDetails.t).

(** The mutable locals of [getFileManifestEntries], and the call log. *)
Module State.
Record t : Type := mk {
  warnings : list string;
  allFileDetails : FileMap.t;
  calls : list Call
}.
Definition init : t := mk [] FileMap.empty [].
Definition push_warning (w : string) (st : t) : t :=
  mk (warnings st ++ [w]) (allFileDetails st) (calls st).
Definition set_details (key : string) (d : FileDetails.t) (st : t) : t :=
  mk (warnings st) (FileMap.set (allFileDetails st) key d) (calls st).
Definition log (c : Call) (st : t) : t :=
  mk (warnings st) (allFileDetails st) (calls st ++ [c]).
End State.

(** Whether a logged call is the hand-over to the transform pipeline. *)
Definition isTransformCall (c : Call) : bool :=
  match c with CallTransformManifest _ => true | _ => false end.

(** Two states that differ at most in the call log. *)
Definition same_data (st st' : State.t) : Prop :=
  State.warnings st = State.warnings st' /\
  State.allFileDetails st = State.allFileDetails st'.

Section GetFileManifestEntries.
(** Types of option values that are only passed along. *)
Context {RegExp ManifestTransform : Type}.

(** The options of glob expansion, the same for every pattern. *)
Record GlobOptions : Type := {
  globDirectory : string;
  globFollow : bool;
  globIgnores : list string;
  globStrict : bool
}.

(** The options handed over to [transformManifest] untouched. *)
Record TransformOptions : Type := {
  additionalPrecacheEntries : option (list (string + ManifestEntry.t));
  dontCacheBustURLsMatching : option RegExp;
  manifestTransforms : option (list ManifestTransform);
  maximumFileSizeToCacheInBytes : option Z;
  modifyURLPrefix : option (list (string * string))
}.

(** [GetManifestOptions].  [templatedURLs] lists the object's own keys
    in the order of [Object.keys]. *)
Record GetManifestOptions : Type := {
  globOptions : GlobOptions;
  globPatterns : option (list string);
  transformOptions : TransformOptions;
  templatedURLs : option (list (string * Dependencies));
  disablePrecacheManifest : bool
}.

(** Collaborators and tables of the build package that live in other
    files (lib/get-file-details.ts, lib/get-composite-details.ts,
    lib/get-string-details.ts, lib/transform-manifest.ts, lib/errors.ts),
    and the host's [JSON.stringify] applied to the one-key object
    [debugObj]. *)
Variable getFileDetails : GlobOptions -> string -> Completion GlobbedFiles.t.
Variable getCompositeDetails : string -> list FileDetails.t -> FileDetails.t.
Variable getStringDetails : string -> string -> FileDetails.t.
Variable transformManifest :
  TransformOptions -> list FileDetails.t -> bool -> Completion GetManifestResult.t.
Variable errors_templated_url_matches_glob : string.
Variable errors_bad_template_urls_asset : string.
Variable JSON_stringify_debugObj : string -> list string -> string.

Variable options : GetManifestOptions.

(** The same options with another list of glob patterns. *)
Definition with_globPatterns (patterns : list string) : GetManifestOptions :=
  {| globOptions := globOptions options;
     globPatterns := Some patterns;
     transformOptions := transformOptions options;
     templatedURLs := templatedURLs options;
     disablePrecacheManifest := disablePrecacheManifest options |}.

(** Lines 49-53: the body of the loop over the details of one pattern.
    The elements are [FileDetails] objects, for which the test [details &&]
    holds. *)
Definition registerDetails (st : State.t) (details : FileDetails.t) : State.t :=
  State.mk (State.warnings st)
           (FileMap.register (State.allFileDetails st) details)
           (State.calls st).

(** Lines 36-54: the loop over [globPatterns].  The second component is
    the value thrown out of the loop, if any; the state is the one
    reached when it was thrown. *)
Fixpoint globLoop (patterns : list string) (st : State.t) : State.t * option Thrown :=
  match patterns with
  | [] => (st, None)
  | globPattern :: rest =>
      let st := State.log (CallGetFileDetails globPattern) st in
      match getFileDetails (globOptions options) globPattern with
      | Threw error => (st, Some error)
      | Returned r =>
          let st :=
            if truthy (GlobbedFiles.warning r)
            then State.push_warning (GlobbedFiles.warning r) st
            else st in
          let st := fold_left registerDetails (GlobbedFiles.globbedFileDetails r) st in
          globLoop rest st
      end
  end.

(** The file details the loop registers, in the order it meets them:
    pattern after pattern, each in match order, up to the first pattern
    whose expansion throws. *)
Fixpoint registeredDetails (patterns : list string) : list FileDetails.t :=
  match patterns with
  | [] => []
  | globPattern :: rest =>
      match getFileDetails (globOptions options) globPattern with
      | Threw _ => []
      | Returned r => GlobbedFiles.globbedFileDetails r ++ registeredDetails rest
      end
  end.

(** The expansion of a pattern returns, rather than throws. *)
Definition expands (globPattern : string) : Prop :=
  exists r, getFileDetails (globOptions options) globPattern = Returned r.

(** The expansion of a pattern gives no file details: it throws, or it
    returns the empty list. *)
Definition resolvesNothing (globPattern : string) : Prop :=
  match getFileDetails (globOptions options) globPattern with
  | Threw _ => True
  | Returned r => GlobbedFiles.globbedFileDetails r = []
  end.

(** Lines 35-61: the loop inside its [try], and the [catch] that turns an
    [Error] with a non-empty message into a warning. *)
Definition globPhase (st : State.t) : State.t :=
  match globLoop (default [] (globPatterns options)) st with
  | (st, None) => st
  | (st, Some error) =>
      if instanceof_Error error && truthy (message error)
      then State.push_warning (message error) st
      else st
  end.

(** Lines 69-93: [dependencies.reduce] with its callback. *)
Fixpoint reduceDependencies (url : string) (dependencies : list string)
    (remaining : list string) (previous : list FileDetails.t) (st : State.t)
    : State.t * Completion (list FileDetails.t) :=
  match remaining with
  | [] => (st, Returned previous)
  | globPattern :: rest =>
      let st := State.log (CallGetFileDetails globPattern) st in
      match getFileDetails (globOptions options) globPattern with
      | Returned r =>
          let st :=
            if truthy (GlobbedFiles.warning r)
            then State.push_warning (GlobbedFiles.warning r) st
            else st in
          reduceDependencies url dependencies rest
            (previous ++ GlobbedFiles.globbedFileDetails r) st
      | Threw error =>
          (st, Threw (new_Error (
             errors_bad_template_urls_asset +:+ " " +:+
             "'" +:+ globPattern +:+ "' from '" +:+
             JSON_stringify_debugObj url dependencies +:+ "':" +:+
             String "010"%char "" +:+
             (if instanceof_Error error then Error_toString error else ""))))
      end
  end.

(** Lines 65-100: the body of the loop over the templated URLs. *)
Definition templatedURL (st : State.t) (url : string) (dependencies : Dependencies)
    : State.t * option Thrown :=
  if FileMap.has (State.allFileDetails st) url
  then (st, Some (AssertionError errors_templated_url_matches_glob))
  else
    match dependencies with
    | DependencyPatterns patterns =>
        match reduceDependencies url patterns patterns [] st with
        | (st, Threw error) => (st, Some error)
        | (st, Returned details) =>
            if (List.length details =? 0)%nat
            then (st, Some (new_Error (
                    errors_bad_template_urls_asset +:+ " The glob " +:+
                    "pattern '" +:+ Array_toString patterns +:+
                    "' did not match anything.")))
            else
              let st := State.log (CallGetCompositeDetails url details) st in
              (State.set_details url (getCompositeDetails url details) st, None)
        end
    | DependencyString revision =>
        let st := State.log (CallGetStringDetails url revision) st in
        (State.set_details url (getStringDetails url revision) st, None)
    end.

(** Lines 64-101: the loop over [Object.keys(templatedURLs)]. *)
Fixpoint templatedLoop (entries : list (string * Dependencies)) (st : State.t)
    : State.t * option Thrown :=
  match entries with
  | [] => (st, None)
  | (url, dependencies) :: rest =>
      match templatedURL st url dependencies with
      | (st, Some error) => (st, Some error)
      | (st, None) => templatedLoop rest st
      end
  end.

(** Lines 63-102. *)
Definition templatedPhase (st : State.t) : State.t * option Thrown :=
  match templatedURLs options with
  | Some entries => templatedLoop entries st
  | None => (st, None)
  end.

(** Lines 32-102: everything before the transform pipeline. *)
Definition collectFileDetails : State.t * option Thrown :=
  templatedPhase (globPhase State.init).

(** [getFileManifestEntries]: the completion of the call, and the calls
    it made to its collaborators. *)
Definition getFileManifestEntries : Completion GetManifestResult.t * list Call :=
  match collectFileDetails with
  | (st, Some error) => (Threw error, State.calls st)
  | (st, None) =>
      let fileDetails := FileMap.values (State.allFileDetails st) in
      let st := State.log (CallTransformManifest fileDetails) st in
      match transformManifest (transformOptions options) fileDetails
              (disablePrecacheManifest options) with
      | Threw error => (Threw error, State.calls st)
      | Returned transformedManifest =>
          (Returned (GetManifestResult.mk
             (GetManifestResult.count transformedManifest)
             (GetManifestResult.manifestEntries transformedManifest)
             (GetManifestResult.size transformedManifest)
             (GetManifestResult.warnings transformedManifest ++ State.warnings st)),
           State.calls st)
      end
  end.

End GetFileManifestEntries.

(** Modelled from the spec: [transformManifest] (lib/transform-manifest.ts
    is not among the sources).  By 4.3 of the spec, with
    [disablePrecacheManifest] set the pipeline short-circuits and returns
    an empty, undefined manifest; otherwise its ordered stages run, here
    the parameter [stages]. *)
Definition transformManifest_spec {TransformOptions : Type}
    (stages : TransformOptions -> list FileDetails.t -> Completion GetManifestResult.t)
    (opts : TransformOptions) (fileDetails : list FileDetails.t)
    (disablePrecacheManifest : bool) : Completion GetManifestResult.t :=
  if disablePrecacheManifest
  then Returned (GetManifestResult.mk 0 None 0 [])
  else stages opts fileDetails.

End Build.

(** ** The serializer: fast-json-stable-stringify *)

(** Modelled from the spec: the serializer [stringify] is the package
    fast-json-stable-stringify, whose code is not among the sources.  The
    spec (4.4) asks for a text that is stable whatever the insertion order
    of object keys, the keys being canonicalized before stringification;
    the definitions follow the algorithm of the package: the keys of an
    object are sorted, members whose value is undefined are left out, and
    an undefined array item is written as null. *)
Module StableStringify.
Import Js.

(** The values the serializer meets.  An object lists its own enumerable
    properties in insertion order; its keys are pairwise distinct.  Numbers
    are the integers (sizes and counts). *)
Inductive Json : Type :=
| JUndefined
| JNull
| JBoolean (b : bool)
| JNumber (n : Z)
| JString (s : string)
| JArray (items : list Json)
| JObject (fields : list (string * Json)).

Definition quote : string := String "034"%char "".
Definition backslash : string := String "092"%char "".

Definition hex_digit (n : N) : ascii :=
  match n with
  | 10 => "a" | 11 => "b" | 12 => "c" | 13 => "d" | 14 => "e" | 15 => "f"
  | _ => pretty_N_char n
  end%N%char.

(** How [JSON.stringify] writes one code unit inside a string literal. *)
Definition escape_code_unit (c : ascii) : string :=
  let n := N_of_ascii c in
  if (n =? 34)%N then backslash +:+ quote
  else if (n =? 92)%N then backslash +:+ backslash
  else if (n =? 8)%N then backslash +:+ "b"
  else if (n =? 9)%N then backslash +:+ "t"
  else if (n =? 10)%N then backslash +:+ "n"
  else if (n =? 12)%N then backslash +:+ "f"
  else if (n =? 13)%N then backslash +:+ "r"
  else if (n <? 32)%N
       then backslash +:+ "u00" +:+
            String (hex_digit (n / 16)) (String (hex_digit (n mod 16)) "")
  else String c "".

Fixpoint escape_string (s : string) : string :=
  match s with
  | EmptyString => EmptyString
  | String c t => escape_code_unit c +:+ escape_string t
  end.

(** [JSON.stringify] of a string. *)
Definition JSON_stringify_string (s : string) : string :=
  quote +:+ escape_string s +:+ quote.

(** [node[key]]. *)
Definition property {A : Type} (fields : list (string * A)) (key : string) : option A :=
  snd <$> List.find (fun kv => String.eqb kv.1 key) fields.

(** [Object.keys(node).sort()]: the default order of [sort] on strings is
    the order of their code units; on pairwise distinct keys every sorting
    algorithm gives the same list. *)
Definition sorted_keys {A : Type} (fields : list (string * A)) : list string :=
  merge_sort String.le (fields.*1).

(** One turn of the loop over the sorted keys; [rendered] holds
    [stringify(node[key])] for every key. *)
Definition object_step (rendered : list (string * option string))
    (out : string) (key : string) : string :=
  match mjoin (property rendered key) with
  | None => out
  | Some value =>
      if truthy value
      then (if truthy out then out +:+ "," else out) +:+
           JSON_stringify_string key +:+ ":" +:+ value
      else out
  end.

(** [stringify(node[i]) || 'null']. *)
Definition or_null (value : option string) : string :=
  match value with
  | Some s => if truthy s then s else "null"
  | None => "null"
  end.

(** The inner function [stringify]; [None] is [undefined]. *)
Fixpoint stringify (node : Json) : option string :=
  match node with
  | JUndefined => None
  | JNumber n => Some (pretty n)
  | JBoolean b => Some (if b then "true" else "false")
  | JString s => Some (JSON_stringify_string s)
  | JArray items =>
      Some ("[" +:+ String.concat "," (List.map (fun item => or_null (stringify item)) items) +:+ "]")
  | JNull => Some "null"
  | JObject fields =>
      let rendered := List.map (fun kv => (kv.1, stringify kv.2)) fields in
      Some ("{" +:+ fold_left (object_step rendered) (sorted_keys fields) "" +:+ "}")
  end.

(** Two values are the same logical value when they differ at most in the
    insertion order of the keys of their objects. *)
Inductive same_value : Json -> Json -> Prop :=
| same_undefined : same_value JUndefined JUndefined
| same_null : same_value JNull JNull
| same_boolean b : same_value (JBoolean b) (JBoolean b)
| same_number n : same_value (JNumber n) (JNumber n)
| same_string s : same_value (JString s) (JString s)
| same_array l1 l2 :
    Forall2 same_value l1 l2 -> same_value (JArray l1) (JArray l2)
| same_object f1 f2 :
    NoDup (f1.*1) -> NoDup (f2.*1) ->
    (forall k, k ∈ f1.*1 <-> k ∈ f2.*1) ->
    (forall k v1 v2, property f1 k = Some v1 -> property f2 k = Some v2 ->
                     same_value v1 v2) ->
    same_value (JObject f1) (JObject f2).

End StableStringify.

(** ** The webpack plugin: [InjectManifest] *)

Module Webpack.
Import Js StableStringify.

(** The part of a webpack [Compilation] the plugin reads and writes.
    Asset sources are their text; warnings and errors are the objects
    pushed onto the two arrays. *)
Module Compilation.
Record t : Type := mk {
  assets : gmap string string;
  warnings : list Thrown;
  errors : list Thrown;
  fileDependencies : gset string;
  devtool : option string;
  minimize : bool;
  hasLogger : bool;
  logged : list string
}.

Definition getAsset (c : t) (name : string) : option string := assets c !! name.

Definition set_assets (a : gmap string string) (c : t) : t :=
  mk a (warnings c) (errors c) (fileDependencies c) (devtool c) (minimize c)
     (hasLogger c) (logged c).

Definition push_warnings (ws : list Thrown) (c : t) : t :=
  mk (assets c) (warnings c ++ ws) (errors c) (fileDependencies c) (devtool c)
     (minimize c) (hasLogger c) (logged c).

Definition push_error (e : Thrown) (c : t) : t :=
  mk (assets c) (warnings c) (errors c ++ [e]) (fileDependencies c) (devtool c)
     (minimize c) (hasLogger c) (logged c).

Definition add_fileDependency (f : string) (c : t) : t :=
  mk (assets c) (warnings c) (errors c) ({[f]} ∪ fileDependencies c) (devtool c)
     (minimize c) (hasLogger c) (logged c).

Definition logger_info (line : string) (c : t) : t :=
  mk (assets c) (warnings c) (errors c) (fileDependencies c) (devtool c)
     (minimize c) (hasLogger c) (logged c ++ [line]).

(** [compilation.updateAsset]: webpack refuses a name that has no asset. *)
Definition updateAsset (name : string) (source : string) (c : t) : Completion t :=
  match assets c !! name with
  | Some _ => Returned (set_assets (<[name := source]> (assets c)) c)
  | None =>
      Threw (new_Error ("Called Compilation.updateAsset for not existing filename "
                        +:+ name))
  end.
End Compilation.

Section InjectManifest.
(** The user's exclude conditions and the options that are only passed
    along to [getManifestEntriesFromCompilation]. *)
Context {UserCondition OtherOptions : Type}.

(** A member of [config.exclude]: one of the user's, or the closure
    pushed by [getManifestEntries], which consults the module-level set
    [_generatedAssetNames]. *)
Inductive Condition : Type :=
| ConditionOfUser (c : UserCondition)
| ConditionGeneratedAssetNames.

(** [WebpackInjectManifestOptions], after validation. *)
Record WebpackInjectManifestOptions : Type := {
  swSrc : string;
  swDest : string;
  injectionPoint : string;
  compileSrc : bool;
  disablePrecacheManifest : bool;
  exclude : list Condition;
  otherOptions : OtherOptions
}.

Definition push_exclude (c : Condition) (config : WebpackInjectManifestOptions)
    : WebpackInjectManifestOptions :=
  {| swSrc := swSrc config; swDest := swDest config;
     injectionPoint := injectionPoint config; compileSrc := compileSrc config;
     disablePrecacheManifest := disablePrecacheManifest config;
     exclude := exclude config ++ [c]; otherOptions := otherOptions config |}.

(** The fields of an [InjectManifest] instance. *)
Record InjectManifest : Type := {
  config : WebpackInjectManifestOptions;
  alreadyCalled : bool
}.

(** [new InjectManifest(config)]. *)
Definition constructor (config : WebpackInjectManifestOptions) : InjectManifest :=
  {| config := config; alreadyCalled := false |}.

(** What one call works on: the instance, the compilation it is handed,
    and the module-level set [_generatedAssetNames]. *)
Record World : Type := {
  this : InjectManifest;
  compilation : Compilation.t;
  _generatedAssetNames : gset string
}.

Definition with_compilation (c : Compilation.t) (w : World) : World :=
  {| this := this w; compilation := c;
     _generatedAssetNames := _generatedAssetNames w |}.

(** What [getManifestEntries] resolves to. *)
Record ManifestEntries : Type := {
  size : Z;
  sortedEntries : option (list Json);
  manifestString : option string
}.

(** Collaborators that live in other files or packages.
    [getManifestEntriesFromCompilation] (lib/) gives [size] and
    [sortedEntries], or rejects, and reports its warnings by pushing
    them onto [compilation.warnings]: the second component. *)
Variable getManifestEntriesFromCompilation :
  gset string -> Compilation.t -> WebpackInjectManifestOptions ->
  Completion (Z * option (list Json)) * list Thrown.
Variable getSourcemapAssetName : Compilation.t -> string -> string -> option string.
Variable SourceMap : Type.
Variable JSON_parse : string -> Completion SourceMap.
Variable replaceAndUpdateSourceMap :
  string -> SourceMap -> string -> string -> string -> Completion (string * string).
Variable upath_resolve : string -> string.
Variable prettyBytes : Z -> string.

(** [this.constructor.name]. *)
Definition constructor_name : string := "InjectManifest".

(** Lines 93-98. *)
Definition warningMessage : string :=
  constructor_name +:+ " has been called " +:+
  "multiple times, perhaps due to running webpack in --watch mode. The " +:+
  "precache manifest generated after the first call may be inaccurate! " +:+
  "Please see https://github.com/GoogleChrome/workbox/issues/1790 for " +:+
  "more information.".

(** The callback of [compilation.warnings.some] on line 100. *)
Definition isWarningMessage (warning : Thrown) : bool :=
  instanceof_Error warning && String.eqb (message warning) warningMessage.

(** Lines 92-105: the check of [this.alreadyCalled]. *)
Definition checkAlreadyCalled (w : World) : World :=
  if alreadyCalled (this w) then
    if negb (existsb isWarningMessage (Compilation.warnings (compilation w)))
    then with_compilation
           (Compilation.push_warnings [new_Error warningMessage] (compilation w)) w
    else w
  else
    {| this := {| config := config (this w); alreadyCalled := true |};
       compilation := compilation w;
       _generatedAssetNames := _generatedAssetNames w |}.

(** Line 110: [config] is a shallow copy of [this.config], so the array
    [exclude] is shared and the push shows in both. *)
Definition pushExclude (w : World) : World :=
  {| this := {| config := push_exclude ConditionGeneratedAssetNames (config (this w));
                alreadyCalled := alreadyCalled (this w) |};
     compilation := compilation w;
     _generatedAssetNames := _generatedAssetNames w |}.

(** Lines 115-119: whether the double quotes are replaced. *)
Definition replacesQuotes (w : World) : bool :=
  compileSrc (config (this w)) &&
  negb (bool_decide (Compilation.devtool (compilation w) = Some "eval-cheap-source-map")
        && Compilation.minimize (compilation w)).

(** Lines 114-122: from [sortedEntries] to [manifestString]. *)
Definition serialize (replaceQuotes : bool) (sortedEntries : option (list Json))
    : Completion (option string) :=
  let manifestString :=
    stringify (match sortedEntries with Some l => JArray l | None => JUndefined end) in
  if replaceQuotes then
    match manifestString with
    | Some s => Returned (Some (replace_all_double_quotes s))
    | None => Threw (TypeError "Cannot read properties of undefined (reading 'replace')")
    end
  else Returned manifestString.

(** [getManifestEntries(compilation, config)], where [config] is the
    shallow copy made by [addAssets]. *)
Definition getManifestEntries (w : World) (config : WebpackInjectManifestOptions)
    : Completion ManifestEntries * World :=
  if disablePrecacheManifest config then
    (Returned {| size := 0; sortedEntries := None;
                 manifestString := Some "undefined" |}, w)
  else
    let w := checkAlreadyCalled w in
    let w := pushExclude w in
    let config := push_exclude ConditionGeneratedAssetNames config in
    let '(outcome, pushed) :=
      getManifestEntriesFromCompilation (_generatedAssetNames w) (compilation w) config in
    let w := with_compilation (Compilation.push_warnings pushed (compilation w)) w in
    match outcome with
    | Threw error => (Threw error, w)
    | Returned (size, sortedEntries) =>
        match serialize (replacesQuotes w) sortedEntries with
        | Threw error => (Threw error, w)
        | Returned manifestString =>
            (Returned {| size := size; sortedEntries := sortedEntries;
                         manifestString := manifestString |}, w)
        end
    end.

(** The warnings that [getManifestEntriesFromCompilation] pushes when
    [getManifestEntries] calls it. *)
Definition warningsOfCollaborator (w : World) (config : WebpackInjectManifestOptions)
    : list Thrown :=
  (getManifestEntriesFromCompilation
     (_generatedAssetNames w)
     (compilation (checkAlreadyCalled w))
     (push_exclude ConditionGeneratedAssetNames config)).2.

(** Successive calls of [getManifestEntries] by one instance, each on
    the compilation it is handed and with the copy of [this.config] that
    [addAssets] makes; for every call, the world before and after. *)
Fixpoint invocations (w : World) (compilations : list Compilation.t)
    : list (World * World) :=
  match compilations with
  | [] => []
  | c :: rest =>
      let before := with_compilation c w in
      let after := (getManifestEntries before (config (this before))).2 in
      (before, after) :: invocations after rest
  end.

(** A string spliced into a template or used as replacement text. *)
Definition String_of (s : option string) : string := default "undefined" s.

(** Lines 260-272: the check of the injection point. *)
Definition checkInjectionPoint (injectionPoint swAssetString : string)
    : Completion unit :=
  match match_global injectionPoint swAssetString with
  | None =>
      Threw (new_Error ("Can't find " +:+ injectionPoint +:+ " in your SW source."))
  | Some injectionResults =>
      if negb (List.length injectionResults =? 1)%nat then
        Threw (new_Error (
          "Multiple instances of " +:+ injectionPoint +:+ " were " +:+
          "found in your SW source. Include it only once. For more info, see " +:+
          "https://github.com/GoogleChrome/workbox/issues/2681"))
      else Returned tt
  end.

(** Lines 296-299. *)
Definition logPrecache (config : WebpackInjectManifestOptions) (m : ManifestEntries)
    (c : Compilation.t) : Compilation.t :=
  if Compilation.hasLogger c then
    Compilation.logger_info
      ("The service worker at " +:+ swDest config +:+ " will precache " +:+
       pretty (from_option List.length 0%nat (sortedEntries m)) +:+
       " URLs, totaling " +:+ prettyBytes (size m) +:+ ".") c
  else c.

(** Lines 277-289: the replacement when the service worker has a source
    map. *)
Definition injectWithSourcemap (config : WebpackInjectManifestOptions)
    (m : ManifestEntries) (swAssetString sourcemapAssetName : string) (w : World)
    : Completion unit * World :=
  let w := {| this := this w; compilation := compilation w;
              _generatedAssetNames :=
                {[sourcemapAssetName]} ∪ _generatedAssetNames w |} in
  match Compilation.getAsset (compilation w) sourcemapAssetName with
  | None =>
      (Threw (TypeError "Cannot read properties of undefined (reading 'source')"), w)
  | Some sourcemapText =>
      match JSON_parse sourcemapText with
      | Threw error => (Threw error, w)
      | Returned originalMap =>
          match replaceAndUpdateSourceMap (swDest config) originalMap
                  swAssetString (String_of (manifestString m))
                  (injectionPoint config) with
          | Threw error => (Threw error, w)
          | Returned (source, map) =>
              match Compilation.updateAsset sourcemapAssetName map (compilation w) with
              | Threw error => (Threw error, w)
              | Returned c =>
                  match Compilation.updateAsset (swDest config) source c with
                  | Threw error => (Threw error, with_compilation c w)
                  | Returned c => (Returned tt, with_compilation c w)
                  end
              end
          end
      end
  end.

(** Line 293: the replacement by a plain string substitution. *)
Definition injectWithoutSourcemap (config : WebpackInjectManifestOptions)
    (m : ManifestEntries) (swAssetString : string) (w : World)
    : Completion unit * World :=
  match Compilation.updateAsset (swDest config)
          (replace swAssetString (injectionPoint config)
             (String_of (manifestString m))) (compilation w) with
  | Threw error => (Threw error, w)
  | Returned c => (Returned tt, with_compilation c w)
  end.

(** Lines 274-294: the replacement, with a source map when
    [getSourcemapAssetName] gives a non-empty name. *)
Definition inject (config : WebpackInjectManifestOptions) (m : ManifestEntries)
    (swAssetString : string) (w : World) : Completion unit * World :=
  match getSourcemapAssetName (compilation w) swAssetString (swDest config) with
  | Some sourcemapAssetName =>
      if truthy sourcemapAssetName
      then injectWithSourcemap config m swAssetString sourcemapAssetName w
      else injectWithoutSourcemap config m swAssetString w
  | None => injectWithoutSourcemap config m swAssetString w
  end.

(** [addAssets(compilation)]. *)
Definition addAssets (w : World) : Completion unit * World :=
  let config := config (this w) in
  match getManifestEntries w config with
  | (Threw error, w) => (Threw error, w)
  | (Returned m, w) =>
      let absoluteSwSrc := upath_resolve (swSrc config) in
      let w := with_compilation
                 (Compilation.add_fileDependency absoluteSwSrc (compilation w)) w in
      match Compilation.getAsset (compilation w) (swDest config) with
      | None =>
          (Threw (TypeError "Cannot read properties of undefined (reading 'source')"), w)
      | Some swAssetString =>
          match checkInjectionPoint (injectionPoint config) swAssetString with
          | Threw error => (Threw error, w)
          | Returned _ =>
              match inject config m swAssetString w with
              | (Threw error, w) => (Threw error, w)
              | (Returned _, w) =>
                  (Returned tt, with_compilation (logPrecache config m (compilation w)) w)
              end
          end
      end
  end.

(** The [processAssets] tap of [apply]: a rejection of [addAssets] is
    pushed onto [compilation.errors]. *)
Definition processAssets (w : World) : World :=
  match addAssets w with
  | (Threw error, w) => with_compilation (Compilation.push_error error (compilation w)) w
  | (Returned _, w) => w
  end.

End InjectManifest.
End Webpack.

(** ** A small project to run the build on *)

Module BuildExamples.
Import Js Build.

Definition index_html : FileDetails.t :=
  FileDetails.mk "index.html" "0cc175b9c0f1b6a831c399e269772661" 10.
Definition app_js : FileDetails.t :=
  FileDetails.mk "app.js" "92eb5ffee6ae2fec3ad71c777531578f" 20.
(** [index.html] as a later expansion finds it, rewritten in between. *)
Definition index_html_rewritten : FileDetails.t :=
  FileDetails.mk "index.html" "4a8a08f09d37b73795649038408b5f33" 11.

(** The directory holds [index.html] and [app.js]; [partials/] is empty;
    two patterns cannot be expanded. *)
Definition getFileDetails (_ : GlobOptions) (globPattern : string)
    : Completion GlobbedFiles.t :=
  if String.eqb globPattern "**/*"
  then Returned (GlobbedFiles.mk [index_html; app_js] "")
  else if String.eqb globPattern "*.html"
  then Returned (GlobbedFiles.mk [index_html_rewritten] "")
  else if String.eqb globPattern "**/*.js"
  then Returned (GlobbedFiles.mk [app_js] "")
  else if String.eqb globPattern "{unreadable"
  then Threw (new_Error "Unable to glob files: EACCES")
  else if String.eqb globPattern "{silent"
  then Threw (OtherValue "EACCES")
  else Returned (GlobbedFiles.mk [] ("No files matched " +:+ globPattern)).

Definition getCompositeDetails (url : string) (details : list FileDetails.t)
    : FileDetails.t :=
  FileDetails.mk url (String.concat "" (FileDetails.hash <$> details))
                 (foldr Z.add 0%Z (FileDetails.size <$> details)).

Definition getStringDetails (url revision : string) : FileDetails.t :=
  FileDetails.mk url revision (Z.of_nat (String.length revision)).

(** The stages of a pipeline without transforms: one entry per file. *)
Definition stages (_ : @TransformOptions unit unit) (fileDetails : list FileDetails.t)
    : Completion GetManifestResult.t :=
  Returned (GetManifestResult.mk
    (Z.of_nat (List.length fileDetails))
    (Some ((fun d => ManifestEntry.mk (FileDetails.file d) (Some (FileDetails.hash d)) None)
             <$> fileDetails))
    (foldr Z.add 0%Z (FileDetails.size <$> fileDetails))
    []).

Definition errors_templated_url_matches_glob : string :=
  "One of the templatedURLs URLs is already being tracked via globPatterns: ".
Definition errors_bad_template_urls_asset : string :=
  "There was an issue using one of the provided templatedURLs.".

Definition JSON_stringify_debugObj (url : string) (dependencies : list string) : string :=
  "{" +:+ url +:+ ":[" +:+ Array_toString dependencies +:+ "]}".

Definition options (patterns : list string)
    (templated : option (list (string * Dependencies))) (disable : bool)
    : @GetManifestOptions unit unit :=
  {| globOptions := {| globDirectory := "build"; globFollow := true;
                       globIgnores := ["**/node_modules/**/*"]; globStrict := true |};
     globPatterns := Some patterns;
     transformOptions := {| additionalPrecacheEntries := None;
                            dontCacheBustURLsMatching := None;
                            manifestTransforms := None;
                            maximumFileSizeToCacheInBytes := None;
                            modifyURLPrefix := None |};
     templatedURLs := templated;
     disablePrecacheManifest := disable |}.

(** The call on this project. *)
Definition run (o : @GetManifestOptions unit unit)
    : Completion GetManifestResult.t * list Call :=
  getFileManifestEntries getFileDetails getCompositeDetails getStringDetails
    (transformManifest_spec stages) errors_templated_url_matches_glob
    errors_bad_template_urls_asset JSON_stringify_debugObj o.

End BuildExamples.

(** ** A small compilation to run the plugin on *)

Module WebpackExamples.
Import Js StableStringify Webpack.

(** The entries of the manifest, and the same entries built with their
    keys in another order. *)
Definition entries : list Json :=
  [JObject [("revision", JString "92eb5ffee6ae2fec3ad71c777531578f"); ("url", JString "app.js")];
   JObject [("revision", JNull); ("url", JString "index.0cc175b9.html")]].
Definition entries_reordered : list Json :=
  [JObject [("url", JString "app.js"); ("revision", JString "92eb5ffee6ae2fec3ad71c777531578f")];
   JObject [("url", JString "index.0cc175b9.html"); ("revision", JNull)]].

(** The collaborator's double: it finds the entries it is told to find
    and warns about one asset that is too large. *)
Definition getManifestEntriesFromCompilation (_ : gset string) (_ : Compilation.t)
    (config : @WebpackInjectManifestOptions unit (list Json))
    : Completion (Z * option (list Json)) * list Thrown :=
  (Returned (30%Z, Some (otherOptions config)),
   [new_Error "vendor.js is 4 MB, and won't be precached."]).

Definition getSourcemapAssetName (c : Compilation.t) (swAssetString swDest : string)
    : option string :=
  if includes "sourceMappingURL" swAssetString then Some (swDest +:+ ".map") else None.

Definition JSON_parse (text : string) : Completion string := Returned text.

Definition replaceAndUpdateSourceMap (jsFilename originalMap originalSource
    replaceString searchString : string) : Completion (string * string) :=
  Returned (replace originalSource searchString replaceString, originalMap).

Definition upath_resolve (path : string) : string := "/project/" +:+ path.
Definition prettyBytes (n : Z) : string := pretty n +:+ " B".

Definition config (found : list Json) (disable : bool)
    : @WebpackInjectManifestOptions unit (list Json) :=
  {| swSrc := "src/sw.js"; swDest := "sw.js";
     injectionPoint := "self.__SW_MANIFEST";
     compileSrc := true; disablePrecacheManifest := disable;
     exclude := []; otherOptions := found |}.

Definition compilationOf (swText : string) (warnings : list Thrown) : Compilation.t :=
  Compilation.mk {[ "sw.js" := swText; "main.js" := "console.log(1)" ]}
                 warnings [] ∅ (Some "source-map") true true [].

(** A fresh instance, about to work on a service worker with the text
    [swText]. *)
Definition world (swText : string) (found : list Json) (disable : bool)
    : @World unit (list Json) :=
  {| this := constructor (config found disable);
     compilation := compilationOf swText [];
     _generatedAssetNames := {[ "sw.js" ]} |}.

Definition once : string := "precacheAndRoute(self.__SW_MANIFEST);".
Definition never : string := "precacheAndRoute([]);".
Definition twice : string :=
  "precacheAndRoute(self.__SW_MANIFEST); warm(self.__SW_MANIFEST);".
Definition thrice : string :=
  "precacheAndRoute(self.__SW_MANIFEST); warm(self.__SW_MANIFEST); log(self.__SW_MANIFEST);".

Definition run_getManifestEntries (w : @World unit (list Json)) :=
  getManifestEntries getManifestEntriesFromCompilation w (Webpack.config (this w)).

Definition run_addAssets (w : @World unit (list Json)) :=
  addAssets getManifestEntriesFromCompilation getSourcemapAssetName string JSON_parse
    replaceAndUpdateSourceMap upath_resolve prettyBytes w.

End WebpackExamples.


(** ** Path helpers: [slash], [resolveBasePath], [isAbsolute], [normalizePath] *)

Module Paths.
Import Js.

(** The regular expressions of the file, and how they are matched: by
    backtracking, the alternatives tried in the order of the language
    (a group before its absence, one more repetition before the end of
    the repetitions).  The continuation is given what is left of the
    input; [fuel] bounds the number of repetitions. *)
Inductive Regex : Type :=
| Class (accepts : ascii -> bool)
| Seq (first second : Regex)
| Opt (group : Regex)
| Plus (repeated : Regex).

Definition Lit (c : ascii) : Regex := Class (Ascii.eqb c).

Fixpoint exec (r : Regex) (fuel : nat) (s : string) (k : string -> option string)
    : option string :=
  match r with
  | Class accepts =>
      match s with
      | String c rest => if accepts c then k rest else None
      | EmptyString => None
      end
  | Seq first second => exec first fuel s (fun s1 => exec second fuel s1 k)
  | Opt group =>
      match exec group fuel s k with
      | Some remaining => Some remaining
      | None => k s
      end
  | Plus repeated =>
      (fix repeat (n : nat) (s : string) (mandatory : bool) : option string :=
         match n with
         | O => None
         | S n' =>
             exec repeated fuel s (fun s1 =>
               if negb mandatory && (String.length s1 =? String.length s)%nat
               then None
               else match repeat n' s1 false with
                    | Some remaining => Some remaining
                    | None => k s1
                    end)
         end) fuel s true
  end.

(** A match anchored at the start of the input: the text matched. *)
Definition match_at_start (r : Regex) (s : string) : option string :=
  match exec r (S (String.length s)) s Some with
  | Some remaining =>
      Some (String.substring 0 (String.length s - String.length remaining) s)
  | None => None
  end.

(** What the class of a to z accepts when case is ignored: the letters of
    ASCII. *)
Definition isLetter (c : ascii) : bool :=
  let n := N_of_ascii c in
  ((97 <=? n) && (n <=? 122) || (65 <=? n) && (n <=? 90))%N.

Fixpoint all_letters (s : string) : bool :=
  match s with
  | EmptyString => true
  | String c rest => isLetter c && all_letters rest
  end.

(** The expression of [isAbsolute]: at the start, an optional group of
    one or more letters and a colon, then two slashes. *)
Definition absolutePattern : Regex :=
  Seq (Opt (Seq (Plus (Class isLetter)) (Lit ":"))) (Seq (Lit "/") (Lit "/")).

(** [isAbsolute(url)]: the match, or [null]. *)
Definition isAbsolute (url : string) : option string :=
  match_at_start absolutePattern url.

(** The global replacement of every backslash (code unit 92) by a slash. *)
Fixpoint replace_all_backslashes (s : string) : string :=
  match s with
  | EmptyString => EmptyString
  | String c rest =>
      String (if Ascii.eqb c "092"%char then "/"%char else c) (replace_all_backslashes rest)
  end.

Definition slash (str : string) : string := replace_all_backslashes str.

Definition normalizePath (path : string) : string := replace_all_backslashes path.

(** [resolveBasePath(base)]; a match is truthy, [null] is not. *)
Definition resolveBasePath (base : string) : string :=
  if bool_decide (is_Some (isAbsolute base)) then base
  else if negb (startsWith "/" base) && negb (startsWith "./" base)
       then "/" +:+ base
       else base.

(** A base that [resolveBasePath] has nothing to add to. *)
Definition rooted (base : string) : bool :=
  bool_decide (is_Some (isAbsolute base)) || startsWith "/" base || startsWith "./" base.

(** What one or more characters of a class followed by [k] come to: the
    longest run first, then shorter ones. *)
Fixpoint plus_class (accepts : ascii -> bool) (k : string -> option string)
    (s : string) : option string :=
  match s with
  | EmptyString => None
  | String c rest =>
      if accepts c
      then match plus_class accepts k rest with
           | Some remaining => Some remaining
           | None => k rest
           end
      else None
  end.

End Paths.

(** ** The warnings of the glob patterns *)

Module BuildWarnings.
Import Js Build.

Section Warnings.
Context {RegExp ManifestTransform : Type}.
Variable getFileDetails : GlobOptions -> string -> Completion GlobbedFiles.t.
Variable options : @GetManifestOptions RegExp ManifestTransform.

(** The warnings that the expansion of a list of patterns gives, in the
    order of the patterns, up to the first pattern whose expansion
    throws; a pattern without warning gives the empty text. *)
Fixpoint expansionWarnings (patterns : list string) : list string :=
  match patterns with
  | [] => []
  | globPattern :: rest =>
      match getFileDetails (globOptions options) globPattern with
      | Threw _ => []
      | Returned r =>
          (if truthy (GlobbedFiles.warning r) then [GlobbedFiles.warning r] else [])
          ++ expansionWarnings rest
      end
  end.

(** The warnings of the patterns of the templated URLs, URL after URL. *)
Definition templatedWarnings (entries : list (string * Dependencies)) : list string :=
  flat_map (fun entry =>
              match entry.2 with
              | DependencyPatterns patterns => expansionWarnings patterns
              | DependencyString _ => []
              end) entries.
End Warnings.
End BuildWarnings.

(** ** What a step leaves alone *)

Module Frame.
Import Webpack.

(** Two compilations that differ at most in their assets. *)
Definition same_but_assets (c c' : Compilation.t) : Prop :=
  Compilation.warnings c' = Compilation.warnings c /\
  Compilation.errors c' = Compilation.errors c /\
  Compilation.fileDependencies c' = Compilation.fileDependencies c /\
  Compilation.devtool c' = Compilation.devtool c /\
  Compilation.minimize c' = Compilation.minimize c /\
  Compilation.hasLogger c' = Compilation.hasLogger c /\
  Compilation.logged c' = Compilation.logged c.
End Frame.

(** ** The webpack plugin: the options and the make hook *)

Module Lifecycle.
Import Js StableStringify Webpack.

(** *** [propagateWebpackConfig] *)

Section PropagateWebpackConfig.
(** The values of the properties of the options object, which at this
    point has not been validated: any property may be absent or hold
    any value. *)
Context {Value : Type}.

(** A string as a value. *)
Variable string_value : string -> Value.

(** [upath.parse(v).name], for the value [v] read from a property
    ([None] when the property is absent); the package throws when it
    is handed something that is not a string. *)
Variable upath_parse_name : option Value -> Completion string.

(** An object as a finite map from its own property names. *)
Local Abbreviation Object := (gmap string Value).

(** [Object.assign(target, source)]: the properties of [source] are
    written over those of [target]. *)
Definition Object_assign (target source : Object) : Object := source ∪ target.

(** Lines 63-75; [mode] is [compiler.options.mode].  The result is
    the new value of [this.config]. *)
Definition propagateWebpackConfig (mode : Value) (config : Object)
    : Completion Object :=
  match upath_parse_name (config !! "swSrc") with
  | Threw error => Threw error
  | Returned name =>
      Returned (Object_assign
                  {[ "mode" := mode; "swDest" := string_value (name +:+ ".js") ]}
                  config)
  end.
End PropagateWebpackConfig.

(** *** [handleMake] and the make tap *)

(** What [handleMake] reads of the compilation of the child compiler. *)
Record ChildCompilation : Type := {
  childWarnings : list Thrown;
  childErrors : list Thrown
}.

Section HandleMake.
Context {UserCondition OtherOptions Plugin : Type}.

Local Abbreviation Options := (@WebpackInjectManifestOptions UserCondition OtherOptions).
Local Abbreviation World := (@World UserCondition OtherOptions).

(** Collaborators: the validation of the build package, the helper
    lib/relative-to-output-path.ts, the option
    [webpackCompilationPlugins] ([Some] when it is an array), the
    input file system of the parent compiler, and webpack's
    [emitAsset]. *)
Variable validateWebpackInjectManifestOptions : Options -> Completion Options.
Variable relativeToOutputPath : Compilation.t -> string -> string.
Variable webpackCompilationPlugins : Options -> option (list Plugin).
Variable readFileSync : string -> Completion string.
Variable emitAsset : string -> string -> Compilation.t -> Compilation.t.

(** Lines 167-186, the part that webpack carries out: the child
    compiler is created, given the plugins and the entry, and run.
    The result is the parent compilation as the run leaves it, and
    what the callback of [runAsChild] is handed: an error, or the
    child compilation, which may be undefined.  A throw while the
    child compiler is set up rejects in the same way as an error. *)
Variable runAsChild :
  Options -> Compilation.t -> Compilation.t * Completion (option ChildCompilation).

Definition set_config (config : Options) (w : World) : World :=
  {| this := {| config := config; alreadyCalled := alreadyCalled (this w) |};
     compilation := compilation w;
     _generatedAssetNames := _generatedAssetNames w |}.

Definition set_swDest (path : string) (config : Options) : Options :=
  {| swSrc := swSrc config; swDest := path;
     injectionPoint := injectionPoint config; compileSrc := compileSrc config;
     disablePrecacheManifest := disablePrecacheManifest config;
     exclude := exclude config; otherOptions := otherOptions config |}.

Definition add_generatedAssetName (name : string) (w : World) : World :=
  {| this := this w; compilation := compilation w;
     _generatedAssetNames := {[name]} ∪ _generatedAssetNames w |}.

(** Lines 190-191: the two arrays are replaced by their
    concatenation with those of the child. *)
Definition concat_child (child : option ChildCompilation) (c : Compilation.t)
    : Compilation.t :=
  Compilation.mk (Compilation.assets c)
    (Compilation.warnings c ++ from_option childWarnings [] child)
    (Compilation.errors c ++ from_option childErrors [] child)
    (Compilation.fileDependencies c) (Compilation.devtool c)
    (Compilation.minimize c) (Compilation.hasLogger c) (Compilation.logged c).

(** [performChildCompilation(compilation, parentCompiler)]. *)
Definition performChildCompilation (w : World) : Completion unit * World :=
  let '(c, outcome) := runAsChild (config (this w)) (compilation w) in
  match outcome with
  | Threw error => (Threw error, with_compilation c w)
  | Returned child => (Returned tt, with_compilation (concat_child child c) w)
  end.

(** [addSrcToAssets(compilation, parentCompiler)]. *)
Definition addSrcToAssets (w : World) : Completion unit * World :=
  match readFileSync (swSrc (config (this w))) with
  | Threw error => (Threw error, w)
  | Returned source =>
      (Returned tt,
       with_compilation
         (emitAsset (swDest (config (this w))) source (compilation w)) w)
  end.

(** Lines 222: the message of the rejection for invalid options. *)
Definition invalidOptionsMessage (error : Thrown) : string :=
  "Please check your " +:+ constructor_name +:+ " plugin " +:+
  "configuration:" +:+ String "010"%char "" +:+ message error.

(** Line 237. *)
Definition ignoredPluginsWarning : Thrown :=
  new_Error ("compileSrc is false, so the " +:+
             "webpackCompilationPlugins option will be ignored.").

(** Lines 226-240: what follows the validation. *)
Definition afterValidation (w : World) : Completion unit * World :=
  let path := relativeToOutputPath (compilation w) (swDest (config (this w))) in
  let w := set_config (set_swDest path (config (this w))) w in
  let w := add_generatedAssetName path w in
  if compileSrc (config (this w)) then performChildCompilation w
  else
    match addSrcToAssets w with
    | (Threw error, w) => (Threw error, w)
    | (Returned _, w) =>
        match webpackCompilationPlugins (config (this w)) with
        | Some (_ :: _) =>
            (Returned tt,
             with_compilation
               (Compilation.push_warnings [ignoredPluginsWarning] (compilation w)) w)
        | _ => (Returned tt, w)
        end
    end.

(** [handleMake(compilation, parentCompiler)]. *)
Definition handleMake (w : World) : Completion unit * World :=
  match validateWebpackInjectManifestOptions (config (this w)) with
  | Returned config => afterValidation (set_config config w)
  | Threw error =>
      if instanceof_Error error
      then (Threw (new_Error (invalidOptionsMessage error)), w)
      else afterValidation w
  end.

(** The make tap of [apply]: a rejection of [handleMake] is pushed
    onto [compilation.errors]. *)
Definition makeTap (w : World) : World :=
  match handleMake w with
  | (Threw error, w) => with_compilation (Compilation.push_error error (compilation w)) w
  | (Returned _, w) => w
  end.
End HandleMake.
End Lifecycle.

(** ** A small project to run the make hook on *)

Module LifecycleExamples.
Import Js StableStringify Webpack WebpackExamples Lifecycle.

(** The options object of a user who has set the mode but no
    destination; the values are strings. *)
Definition userOptions : gmap string string :=
  {[ "swSrc" := "src/sw.ts"; "mode" := "production" ]}.

Definition upath_parse_name (path : option string) : Completion string :=
  match path with
  | Some "src/sw.ts" => Returned "sw"
  | Some other => Returned other
  | None => Threw (TypeError "The path argument must be of type string")
  end.

(** The options of an instance, with the destination as an absolute
    path. *)
Definition options (compile : bool) (point : string)
    : @WebpackInjectManifestOptions unit (list Json) :=
  {| swSrc := "src/sw.js"; swDest := "/project/dist/sw.js";
     injectionPoint := point; compileSrc := compile;
     disablePrecacheManifest := false; exclude := [];
     otherOptions := entries |}.

(** The validation refuses an empty injection point with an [Error]
    and a question mark with a thrown string. *)
Definition validate (config : @WebpackInjectManifestOptions unit (list Json))
    : Completion (@WebpackInjectManifestOptions unit (list Json)) :=
  if String.eqb (injectionPoint config) ""
  then Threw (new_Error "injectionPoint must not be empty")
  else if String.eqb (injectionPoint config) "?"
  then Threw (OtherValue "invalid injectionPoint")
  else Returned config.

Definition relativeToOutputPath (_ : Compilation.t) (path : string) : string :=
  if startsWith "/project/dist/" path then drop_string 14 path else path.

Definition webpackCompilationPlugins
    (_ : @WebpackInjectManifestOptions unit (list Json)) : option (list unit) :=
  Some [tt].

Definition readFileSync (path : string) : Completion string :=
  if String.eqb path "src/sw.js" then Returned once
  else Threw (new_Error ("ENOENT: no such file or directory, open " +:+ path)).

Definition emitAsset (name text : string) (c : Compilation.t) : Compilation.t :=
  Compilation.set_assets (<[name := text]> (Compilation.assets c)) c.

(** The child compiler emits the service worker and warns once. *)
Definition runAsChild (config : @WebpackInjectManifestOptions unit (list Json))
    (c : Compilation.t) : Compilation.t * Completion (option ChildCompilation) :=
  (emitAsset (swDest config) once c,
   Returned (Some {| childWarnings := [new_Error "sw.js exceeds the recommended size."];
                     childErrors := [] |})).

(** A fresh instance and a compilation that holds the main bundle. *)
Definition fresh (config : @WebpackInjectManifestOptions unit (list Json))
    : @World unit (list Json) :=
  {| this := constructor config;
     compilation :=
       Compilation.mk {[ "main.js" := "console.log(1)" ]} [] [] ∅
                      (Some "source-map") true true [];
     _generatedAssetNames := ∅ |}.

Definition run_makeTap (w : @World unit (list Json)) : @World unit (list Json) :=
  makeTap validate relativeToOutputPath webpackCompilationPlugins readFileSync
    emitAsset runAsChild w.

Definition run_handleMake (w : @World unit (list Json)) :=
  handleMake validate relativeToOutputPath webpackCompilationPlugins readFileSync
    emitAsset runAsChild w.

Definition run_processAssets (w : @World unit (list Json)) : @World unit (list Json) :=
  processAssets getManifestEntriesFromCompilation getSourcemapAssetName string JSON_parse
    replaceAndUpdateSourceMap upath_resolve prettyBytes w.
End LifecycleExamples.

(** ** The model at work *)

Module Scenarios.
Import Js StableStringify.

(** A global match resumes after the end of each match. *)
Example match_global_resumes_after_match :
  match_global "aa" "aaaaa" = Some ["aa"; "aa"] /\
  match_global "ab" "xyz" = None /\
  match_global "" "ab" = Some [""; ""; ""].
Proof. repeat split. Qed.

(** Only the first occurrence is replaced, and a dollar sign followed by
    an ampersand in the replacement stands for the match. *)
Example replace_first_occurrence :
  replace "a-b-c" "-" "+" = "a+b-c" /\
  replace "f(x)" "x" "[$&]" = "f([x])" /\
  replace "f(x)" "y" "z" = "f(x)".
Proof. repeat split. Qed.

(** The keys of an object are written in sorted order, and a member whose
    value is undefined is left out. *)
Example stringify_sorts_keys :
  replace_all_double_quotes
    (default "" (stringify (JObject [("url", JString "a.js"); ("size", JNumber 12);
                                     ("integrity", JUndefined); ("revision", JNull)]))) =
  "{'revision':null,'size':12,'url':'a.js'}".
Proof. reflexivity. Qed.

(** Scenario 3 of the spec: the patterns of a templated URL match nothing. *)
Example scenario_no_dependencies :
  BuildExamples.run
    (BuildExamples.options []
       (Some [("/shell", Build.DependencyPatterns ["partials/*.html"])]) false) =
  (Threw (new_Error "There was an issue using one of the provided templatedURLs. The glob pattern 'partials/*.html' did not match anything."),
   [Build.CallGetFileDetails "partials/*.html"]).
Proof. reflexivity. Qed.

(** Scenario 1 of the spec, with the two files of the example project. *)
Example scenario_two_files :
  (BuildExamples.run (BuildExamples.options ["**/*"] None false)).1 =
  Returned (Build.GetManifestResult.mk 2
    (Some [Build.ManifestEntry.mk "index.html" (Some "0cc175b9c0f1b6a831c399e269772661") None;
           Build.ManifestEntry.mk "app.js" (Some "92eb5ffee6ae2fec3ad71c777531578f") None])
    30 []).
Proof. reflexivity. Qed.

(** Scenario 4 of the spec: the injection point occurs twice. *)
Example scenario_two_injection_points :
  (WebpackExamples.run_addAssets
     (WebpackExamples.world WebpackExamples.twice WebpackExamples.entries false)).1 =
  Threw (new_Error "Multiple instances of self.__SW_MANIFEST were found in your SW source. Include it only once. For more info, see https://github.com/GoogleChrome/workbox/issues/2681").
Proof. reflexivity. Qed.

(** One injection point: the manifest takes its place in the asset. *)
Example scenario_injection :
  Webpack.Compilation.getAsset
    (Webpack.compilation
       (WebpackExamples.run_addAssets
          (WebpackExamples.world WebpackExamples.once WebpackExamples.entries false)).2)
    "sw.js" =
  Some "precacheAndRoute([{'revision':'92eb5ffee6ae2fec3ad71c777531578f','url':'app.js'},{'revision':null,'url':'index.0cc175b9.html'}]);".
Proof. reflexivity. Qed.
End Scenarios.
(** ** Facts about the [Map] of file details *)

Module FileMapFacts.
Import Build.

Lemma has_get m key : FileMap.has m key = bool_decide (is_Some (FileMap.get m key)).
Proof.
  unfold FileMap.has, FileMap.get.
  induction m as [|kv m IH]; simpl.
  - done.
  - destruct (String.eqb kv.1 key); simpl; [done|exact IH].
Qed.

Lemma has_false_get m key : FileMap.has m key = false -> FileMap.get m key = None.
Proof.
  rewrite has_get. intros H%bool_decide_eq_false.
  destruct (FileMap.get m key); [|done]. destruct H; eauto.
Qed.

Lemma has_keys m key : FileMap.has m key = true <-> key ∈ FileMap.keys m.
Proof.
  unfold FileMap.has, FileMap.keys.
  induction m as [|kv m IH]; simpl.
  - split; [done|]. intros H. inversion H.
  - rewrite elem_of_cons, orb_true_iff, IH, String.eqb_eq.
    split; (intros [H|H]; [left; congruence|by right]).
Qed.

Lemma get_set_eq m key value : FileMap.get (FileMap.set m key value) key = Some value.
Proof.
  unfold FileMap.get.
  induction m as [|kv m IH]; simpl.
  - by rewrite String.eqb_refl.
  - destruct (String.eqb kv.1 key) eqn:E; simpl.
    + by rewrite String.eqb_refl.
    + by rewrite E.
Qed.

Lemma get_set_ne m key value key' :
  key <> key' -> FileMap.get (FileMap.set m key value) key' = FileMap.get m key'.
Proof.
  intros Hne. unfold FileMap.get.
  induction m as [|kv m IH]; simpl.
  - by apply String.eqb_neq in Hne as ->.
  - destruct (String.eqb kv.1 key) eqn:E; simpl.
    + apply String.eqb_eq in E. subst key.
      by apply String.eqb_neq in Hne as ->.
    + destruct (String.eqb kv.1 key'); [done|exact IH].
Qed.

Lemma keys_set_new m key value :
  FileMap.has m key = false -> FileMap.keys (FileMap.set m key value) = FileMap.keys m ++ [key].
Proof.
  unfold FileMap.has, FileMap.keys.
  induction m as [|kv m IH]; simpl; [done|].
  destruct (String.eqb kv.1 key); simpl; [done|].
  intros H. f_equal. by apply IH.
Qed.

Lemma NoDup_keys_set m key value :
  NoDup (FileMap.keys m) -> NoDup (FileMap.keys (FileMap.set m key value)).
Proof.
  unfold FileMap.keys.
  induction m as [|kv m IH]; simpl.
  - intros _. apply NoDup_singleton.
  - rewrite !NoDup_cons. intros [Hnotin Hnd].
    destruct (String.eqb kv.1 key) eqn:E; simpl.
    + apply String.eqb_eq in E. subst key. by rewrite NoDup_cons.
    + apply String.eqb_neq in E. rewrite NoDup_cons. split; [|by apply IH].
      intros Hin. apply Hnotin.
      apply (has_keys (FileMap.set m key value)) in Hin.
      apply has_keys. rewrite has_get in *.
      by rewrite get_set_ne in Hin.
Qed.

Lemma get_register m d key :
  FileMap.get (FileMap.register m d) key =
  match FileMap.get m key with
  | Some d' => Some d'
  | None => if String.eqb (FileDetails.file d) key then Some d else None
  end.
Proof.
  unfold FileMap.register.
  destruct (FileMap.has m (FileDetails.file d)) eqn:Hhas; simpl.
  - destruct (FileMap.get m key) eqn:Hget; [done|].
    destruct (String.eqb_spec (FileDetails.file d) key) as [Heq|]; [|done].
    rewrite Heq, has_get, Hget in Hhas.
    apply bool_decide_eq_true in Hhas as [? ?]; done.
  - destruct (String.eqb_spec (FileDetails.file d) key) as [Heq|Hne].
    + subst key. by rewrite get_set_eq, (has_false_get _ _ Hhas).
    + rewrite get_set_ne by done. by destruct (FileMap.get m key).
Qed.

Lemma get_fold_register ds : forall m key,
  FileMap.get (fold_left FileMap.register ds m) key =
  match FileMap.get m key with
  | Some d => Some d
  | None => List.find (fun d => String.eqb (FileDetails.file d) key) ds
  end.
Proof.
  induction ds as [|d ds IH]; intros m key; simpl.
  - by destruct (FileMap.get m key).
  - rewrite IH, get_register.
    destruct (FileMap.get m key); [done|].
    by destruct (String.eqb (FileDetails.file d) key).
Qed.

Lemma NoDup_keys_fold_register ds : forall m,
  NoDup (FileMap.keys m) -> NoDup (FileMap.keys (fold_left FileMap.register ds m)).
Proof.
  induction ds as [|d ds IH]; intros m Hm; simpl; [done|].
  apply IH. unfold FileMap.register. destruct (negb _); [by apply NoDup_keys_set|done].
Qed.
End FileMapFacts.

(** ** Facts about [getFileManifestEntries] *)

Module BuildFacts.
Import Js Build FileMapFacts.

Section ManifestFacts.
Context {RegExp ManifestTransform : Type}.
Variable getFileDetails : GlobOptions -> string -> Completion GlobbedFiles.t.
Variable getCompositeDetails : string -> list FileDetails.t -> FileDetails.t.
Variable getStringDetails : string -> string -> FileDetails.t.
Variable transformManifest :
  @TransformOptions RegExp ManifestTransform -> list FileDetails.t -> bool ->
  Completion GetManifestResult.t.
Variable errors_templated_url_matches_glob : string.
Variable errors_bad_template_urls_asset : string.
Variable JSON_stringify_debugObj : string -> list string -> string.
Variable options : @GetManifestOptions RegExp ManifestTransform.

Local Abbreviation globLoop := (globLoop getFileDetails options).
Local Abbreviation globPhase := (globPhase getFileDetails options).
Local Abbreviation registeredDetails := (registeredDetails getFileDetails options).
Local Abbreviation reduceDependencies :=
  (reduceDependencies getFileDetails errors_bad_template_urls_asset
     JSON_stringify_debugObj options).
Local Abbreviation templatedURL :=
  (templatedURL getFileDetails getCompositeDetails getStringDetails
     errors_templated_url_matches_glob errors_bad_template_urls_asset
     JSON_stringify_debugObj options).
Local Abbreviation templatedLoop :=
  (templatedLoop getFileDetails getCompositeDetails getStringDetails
     errors_templated_url_matches_glob errors_bad_template_urls_asset
     JSON_stringify_debugObj options).
Local Abbreviation templatedPhase :=
  (templatedPhase getFileDetails getCompositeDetails getStringDetails
     errors_templated_url_matches_glob errors_bad_template_urls_asset
     JSON_stringify_debugObj options).

Local Abbreviation expands := (expands getFileDetails options).
Local Abbreviation resolvesNothing := (resolvesNothing getFileDetails options).

(** *** The loop over the glob patterns *)

Lemma fold_registerDetails ds : forall st,
  fold_left registerDetails ds st =
  State.mk (State.warnings st)
           (fold_left FileMap.register ds (State.allFileDetails st))
           (State.calls st).
Proof.
  induction ds as [|d ds IH]; intros st; simpl.
  - by destruct st.
  - by rewrite IH.
Qed.

Lemma globLoop_app pre rest : forall st,
  globLoop (pre ++ rest) st =
  match globLoop pre st with
  | (st', None) => globLoop rest st'
  | (st', Some error) => (st', Some error)
  end.
Proof.
  induction pre as [|p pre IH]; intros st; simpl; [done|].
  destruct (getFileDetails _ p); [apply IH|done].
Qed.

Lemma globLoop_expands pre : forall st,
  Forall expands pre -> (globLoop pre st).2 = None.
Proof.
  induction pre as [|p pre IH]; intros st Hpre; simpl; [done|].
  apply Forall_cons in Hpre as [[r Hr] Hpre]. rewrite Hr. by apply IH.
Qed.

Lemma globLoop_allFileDetails ps : forall st,
  State.allFileDetails (globLoop ps st).1 =
  fold_left FileMap.register (registeredDetails ps) (State.allFileDetails st).
Proof.
  induction ps as [|p ps IH]; intros st; simpl; [done|].
  destruct (getFileDetails _ p) as [r|e]; simpl; [|done].
  rewrite IH, fold_registerDetails, fold_left_app. simpl.
  by destruct (truthy _).
Qed.

Lemma globLoop_calls_expands ps : forall st,
  Forall expands ps ->
  State.calls (globLoop ps st).1 = State.calls st ++ (CallGetFileDetails <$> ps).
Proof.
  induction ps as [|p ps IH]; intros st Hps; simpl.
  - by rewrite app_nil_r.
  - apply Forall_cons in Hps as [[r Hr] Hps]. rewrite Hr.
    rewrite IH, fold_registerDetails by done. simpl.
    destruct (truthy _); simpl; by rewrite <- app_assoc.
Qed.

(** What the loop leaves when the pattern after [pre] throws. *)
Lemma globLoop_throws pre p post error st :
  Forall expands pre ->
  getFileDetails (globOptions options) p = Threw error ->
  globLoop (pre ++ p :: post) st =
  (State.log (CallGetFileDetails p) (globLoop pre st).1, Some error).
Proof.
  intros Hpre Hp. rewrite globLoop_app.
  pose proof (globLoop_expands pre st Hpre) as Hnone.
  destruct (globLoop pre st) as [st' o]; simpl in *; subst o.
  by rewrite Hp.
Qed.

Lemma registeredDetails_throws pre p post error :
  Forall expands pre ->
  getFileDetails (globOptions options) p = Threw error ->
  registeredDetails (pre ++ p :: post) = registeredDetails pre.
Proof.
  intros Hpre Hp.
  induction pre as [|q pre IH]; simpl.
  - by rewrite Hp.
  - apply Forall_cons in Hpre as [[r Hr] Hpre]. rewrite Hr. f_equal. by apply IH.
Qed.

Lemma globLoop_no_transform ps : forall st,
  Forall (fun c => isTransformCall c = false) (State.calls st) ->
  Forall (fun c => isTransformCall c = false) (State.calls (globLoop ps st).1).
Proof.
  induction ps as [|p ps IH]; intros st Hst; simpl; [done|].
  destruct (getFileDetails _ p) as [r|e]; simpl.
  - apply IH. rewrite fold_registerDetails. simpl.
    destruct (truthy _); simpl; apply Forall_app; split; auto.
  - apply Forall_app; split; auto.
Qed.


Lemma has_globPhase_registered url :
  FileMap.has (State.allFileDetails (globPhase State.init)) url = true <->
  url ∈ FileDetails.file <$> registeredDetails (default [] (globPatterns options)).
Proof.
  assert (State.allFileDetails (globPhase State.init) =
          fold_left FileMap.register
            (registeredDetails (default [] (globPatterns options))) FileMap.empty) as ->.
  { unfold Build.globPhase.
    pose proof (globLoop_allFileDetails (default [] (globPatterns options)) State.init) as H.
    destruct (globLoop _ State.init) as [st [e|]]; simpl in *; [|done].
    by destruct (_ && _). }
  rewrite has_get, bool_decide_eq_true, get_fold_register. simpl.
  generalize (registeredDetails (default [] (globPatterns options))) as ds.
  induction ds as [|d ds IH]; simpl.
  - split; [intros [? ?]; done|]. intros H; inversion H.
  - rewrite elem_of_cons.
    destruct (String.eqb_spec (FileDetails.file d) url) as [Heq|Hne].
    + split; eauto.
    + rewrite IH. split; [by right|]. intros [H|H]; [congruence|done].
Qed.

(** *** The templated URLs *)

Lemma reduceDependencies_data url deps remaining : forall previous st,
  State.allFileDetails (reduceDependencies url deps remaining previous st).1 =
  State.allFileDetails st /\
  exists ws, State.warnings (reduceDependencies url deps remaining previous st).1 =
             State.warnings st ++ ws.
Proof.
  induction remaining as [|p remaining IH]; intros previous st; simpl.
  - split; [done|]. exists []. by rewrite app_nil_r.
  - destruct (getFileDetails _ p) as [r|e]; simpl.
    + destruct (IH (previous ++ GlobbedFiles.globbedFileDetails r)
                  (if truthy (GlobbedFiles.warning r)
                   then State.push_warning (GlobbedFiles.warning r)
                          (State.log (CallGetFileDetails p) st)
                   else State.log (CallGetFileDetails p) st)) as [-> [ws ->]].
      destruct (truthy _); simpl; split; try done.
      * eexists. by rewrite <- app_assoc.
      * by exists ws.
    + split; [done|]. exists []. by rewrite app_nil_r.
Qed.

Lemma reduceDependencies_no_transform url deps remaining : forall previous st,
  Forall (fun c => isTransformCall c = false) (State.calls st) ->
  Forall (fun c => isTransformCall c = false)
         (State.calls (reduceDependencies url deps remaining previous st).1).
Proof.
  induction remaining as [|p remaining IH]; intros previous st Hst; simpl; [done|].
  destruct (getFileDetails _ p) as [r|e]; simpl.
  - apply IH. destruct (truthy _); simpl; apply Forall_app; split; auto.
  - apply Forall_app; split; auto.
Qed.

Lemma reduceDependencies_nothing url deps remaining : forall previous st,
  Forall resolvesNothing remaining ->
  match (reduceDependencies url deps remaining previous st).2 with
  | Returned details => details = previous
  | Threw _ => True
  end.
Proof.
  induction remaining as [|p remaining IH]; intros previous st Hall; simpl; [done|].
  apply Forall_cons in Hall as [Hp Hall]. unfold Build.resolvesNothing in Hp.
  destruct (getFileDetails _ p) as [r|e]; simpl; [|done].
  rewrite Hp, app_nil_r. by apply IH.
Qed.

Lemma reduceDependencies_same_data url deps remaining : forall previous st st',
  same_data st st' ->
  same_data (reduceDependencies url deps remaining previous st).1
            (reduceDependencies url deps remaining previous st').1 /\
  (reduceDependencies url deps remaining previous st).2 =
  (reduceDependencies url deps remaining previous st').2.
Proof.
  induction remaining as [|p remaining IH]; intros previous st st' Hsame; simpl; [done|].
  destruct (getFileDetails _ p) as [r|e]; simpl.
  - apply IH. destruct Hsame as [Hw Hm].
    destruct (truthy _); split; simpl; congruence.
  - split; [|done]. destruct Hsame. by split.
Qed.

Lemma templatedURL_get st url dependencies key details :
  FileMap.get (State.allFileDetails st) key = Some details ->
  FileMap.get (State.allFileDetails (templatedURL st url dependencies).1) key =
  Some details.
Proof.
  intros Hget. unfold Build.templatedURL.
  destruct (FileMap.has (State.allFileDetails st) url) eqn:Hhas; [done|].
  assert (url <> key) as Hne.
  { intros ->. by rewrite (has_false_get _ _ Hhas) in Hget. }
  destruct dependencies as [patterns|revision]; simpl.
  - pose proof (reduceDependencies_data url patterns patterns [] st) as [Hm _].
    destruct (reduceDependencies url patterns patterns [] st) as [st1 [ds|e]];
      simpl in *; [|congruence].
    destruct (_ =? 0)%nat; simpl; [congruence|].
    rewrite get_set_ne by done. congruence.
  - by rewrite get_set_ne.
Qed.

Lemma templatedURL_NoDup st url dependencies :
  NoDup (FileMap.keys (State.allFileDetails st)) ->
  NoDup (FileMap.keys (State.allFileDetails (templatedURL st url dependencies).1)).
Proof.
  intros Hnd. unfold Build.templatedURL.
  destruct (FileMap.has (State.allFileDetails st) url); [done|].
  destruct dependencies as [patterns|revision]; simpl.
  - pose proof (reduceDependencies_data url patterns patterns [] st) as [Hm _].
    destruct (reduceDependencies url patterns patterns [] st) as [st1 [ds|e]];
      simpl in *; [|congruence].
    destruct (_ =? 0)%nat; simpl; [congruence|].
    apply NoDup_keys_set. congruence.
  - by apply NoDup_keys_set.
Qed.

Lemma templatedURL_warnings st url dependencies :
  exists ws, State.warnings (templatedURL st url dependencies).1 = State.warnings st ++ ws.
Proof.
  unfold Build.templatedURL.
  destruct (FileMap.has (State.allFileDetails st) url).
  { exists []. by rewrite app_nil_r. }
  destruct dependencies as [patterns|revision]; simpl.
  - pose proof (reduceDependencies_data url patterns patterns [] st) as [_ [ws Hw]].
    destruct (reduceDependencies url patterns patterns [] st) as [st1 [ds|e]];
      simpl in *; [|by exists ws].
    destruct (_ =? 0)%nat; simpl; by exists ws.
  - exists []. by rewrite app_nil_r.
Qed.

Lemma templatedURL_no_transform st url dependencies :
  Forall (fun c => isTransformCall c = false) (State.calls st) ->
  Forall (fun c => isTransformCall c = false)
         (State.calls (templatedURL st url dependencies).1).
Proof.
  intros Hst. unfold Build.templatedURL.
  destruct (FileMap.has (State.allFileDetails st) url); [done|].
  destruct dependencies as [patterns|revision]; simpl.
  - pose proof (reduceDependencies_no_transform url patterns patterns [] st Hst) as H.
    destruct (reduceDependencies url patterns patterns [] st) as [st1 [ds|e]];
      simpl in *; [|done].
    destruct (_ =? 0)%nat; simpl; [done|]. apply Forall_app; split; auto.
  - apply Forall_app; split; auto.
Qed.

Lemma templatedURL_same_data st st' url dependencies :
  same_data st st' ->
  same_data (templatedURL st url dependencies).1 (templatedURL st' url dependencies).1 /\
  (templatedURL st url dependencies).2 = (templatedURL st' url dependencies).2.
Proof.
  intros Hsame. unfold Build.templatedURL.
  destruct Hsame as [Hw Hm]. rewrite <- Hm.
  destruct (FileMap.has (State.allFileDetails st) url); [by repeat split|].
  destruct dependencies as [patterns|revision]; simpl.
  - destruct (reduceDependencies_same_data url patterns patterns [] st st')
      as [[Hw1 Hm1] Hc]; [by split|].
    destruct (reduceDependencies url patterns patterns [] st) as [st1 c1],
             (reduceDependencies url patterns patterns [] st') as [st1' c1'].
    simpl in *. subst c1'. destruct c1 as [ds|e]; [|by repeat split].
    destruct (_ =? 0)%nat; simpl; [by repeat split|].
    repeat split; simpl; congruence.
  - repeat split; simpl; congruence.
Qed.

(** A templated URL that cannot be registered: it is among the keys
    already, or its patterns resolve to nothing. *)
Lemma templatedURL_fatal st url dependencies :
  FileMap.has (State.allFileDetails st) url = true \/
  (exists patterns, dependencies = DependencyPatterns patterns /\
                    Forall resolvesNothing patterns) ->
  is_Some (templatedURL st url dependencies).2.
Proof.
  unfold Build.templatedURL.
  destruct (FileMap.has (State.allFileDetails st) url); [by eauto|].
  intros [?|(patterns & -> & Hall)]; [done|].
  pose proof (reduceDependencies_nothing url patterns patterns [] st Hall) as H.
  destruct (reduceDependencies url patterns patterns [] st) as [st1 [ds|e]];
    simpl in *; [subst ds; simpl|]; eauto.
Qed.

Lemma templatedLoop_get entries : forall st key details,
  FileMap.get (State.allFileDetails st) key = Some details ->
  FileMap.get (State.allFileDetails (templatedLoop entries st).1) key = Some details.
Proof.
  induction entries as [|[url dependencies] entries IH]; intros st key details Hget;
    simpl; [done|].
  pose proof (templatedURL_get st url dependencies key details Hget) as H.
  destruct (templatedURL st url dependencies) as [st1 [e|]]; simpl in *; [done|].
  by apply IH.
Qed.

Lemma templatedLoop_NoDup entries : forall st,
  NoDup (FileMap.keys (State.allFileDetails st)) ->
  NoDup (FileMap.keys (State.allFileDetails (templatedLoop entries st).1)).
Proof.
  induction entries as [|[url dependencies] entries IH]; intros st Hnd; simpl; [done|].
  pose proof (templatedURL_NoDup st url dependencies Hnd) as H.
  destruct (templatedURL st url dependencies) as [st1 [e|]]; simpl in *; [done|].
  by apply IH.
Qed.

Lemma templatedLoop_warnings entries : forall st,
  exists ws, State.warnings (templatedLoop entries st).1 = State.warnings st ++ ws.
Proof.
  induction entries as [|[url dependencies] entries IH]; intros st; simpl.
  { exists []. by rewrite app_nil_r. }
  destruct (templatedURL_warnings st url dependencies) as [ws Hws].
  destruct (templatedURL st url dependencies) as [st1 [e|]]; simpl in *; [by exists ws|].
  destruct (IH st1) as [ws' ->]. rewrite Hws, <- app_assoc. by eexists.
Qed.

Lemma templatedLoop_no_transform entries : forall st,
  Forall (fun c => isTransformCall c = false) (State.calls st) ->
  Forall (fun c => isTransformCall c = false)
         (State.calls (templatedLoop entries st).1).
Proof.
  induction entries as [|[url dependencies] entries IH]; intros st Hst; simpl; [done|].
  pose proof (templatedURL_no_transform st url dependencies Hst) as H.
  destruct (templatedURL st url dependencies) as [st1 [e|]]; simpl in *; [done|].
  by apply IH.
Qed.

Lemma templatedLoop_same_data entries : forall st st',
  same_data st st' ->
  same_data (templatedLoop entries st).1 (templatedLoop entries st').1 /\
  (templatedLoop entries st).2 = (templatedLoop entries st').2.
Proof.
  induction entries as [|[url dependencies] entries IH]; intros st st' Hsame;
    simpl; [done|].
  destruct (templatedURL_same_data st st' url dependencies Hsame) as [Hs Ho].
  destruct (templatedURL st url dependencies) as [st1 o1],
           (templatedURL st' url dependencies) as [st1' o1'].
  simpl in *. subst o1'. destruct o1 as [e|]; [done|]. by apply IH.
Qed.

Lemma templatedLoop_fatal entries : forall st url dependencies,
  (url, dependencies) ∈ entries ->
  FileMap.has (State.allFileDetails st) url = true \/
  (exists patterns, dependencies = DependencyPatterns patterns /\
                    Forall resolvesNothing patterns) ->
  is_Some (templatedLoop entries st).2.
Proof.
  induction entries as [|[u d] entries IH]; intros st url dependencies Hin Hfatal.
  { inversion Hin. }
  simpl. apply elem_of_cons in Hin as [Heq|Hin].
  - injection Heq as <- <-.
    destruct (templatedURL_fatal st url dependencies Hfatal) as [e He].
    destruct (templatedURL st url dependencies) as [st1 o]; simpl in *; subst o; eauto.
  - destruct (templatedURL st u d) as [st1 [e|]] eqn:Hstep; simpl; [by eauto|].
    apply (IH st1 url dependencies Hin).
    destruct Hfatal as [Hhas|Hnothing]; [left|by right].
    rewrite has_get in *. apply bool_decide_eq_true in Hhas as [x Hx].
    apply bool_decide_eq_true. exists x.
    pose proof (templatedURL_get st u d url x Hx) as H. by rewrite Hstep in H.
Qed.

(** The loop stops at the first templated URL that collides. *)
Lemma templatedLoop_collision pre url dependencies post st st' :
  templatedLoop pre st = (st', None) ->
  FileMap.has (State.allFileDetails st) url = true ->
  (templatedLoop (pre ++ (url, dependencies) :: post) st).2 =
  Some (AssertionError errors_templated_url_matches_glob).
Proof.
  revert st. induction pre as [|[u d] pre IH]; intros st Hpre Hhas; simpl.
  - unfold Build.templatedURL. by rewrite Hhas.
  - simpl in Hpre.
    destruct (templatedURL st u d) as [st1 [e|]] eqn:Hstep; [done|].
    apply IH; [done|].
    rewrite has_get in *. apply bool_decide_eq_true in Hhas as [x Hx].
    apply bool_decide_eq_true. exists x.
    pose proof (templatedURL_get st u d url x Hx) as H. by rewrite Hstep in H.
Qed.

Lemma templatedLoop_app pre rest : forall st,
  templatedLoop (pre ++ rest) st =
  match templatedLoop pre st with
  | (st', None) => templatedLoop rest st'
  | (st', Some error) => (st', Some error)
  end.
Proof.
  induction pre as [|[u d] pre IH]; intros st; simpl; [done|].
  destruct (templatedURL st u d) as [st1 [e|]]; [done|apply IH].
Qed.

Lemma reduceDependencies_empty url deps remaining : forall previous st,
  Forall expands remaining ->
  Forall resolvesNothing remaining ->
  (reduceDependencies url deps remaining previous st).2 = Returned previous.
Proof.
  induction remaining as [|p remaining IH]; intros previous st Hexp Hnothing;
    simpl; [done|].
  apply Forall_cons in Hexp as [[r Hr] Hexp].
  apply Forall_cons in Hnothing as [Hp Hnothing].
  unfold Build.resolvesNothing in Hp. rewrite Hr in *. simpl.
  rewrite Hp, app_nil_r. by apply IH.
Qed.

(** The loop stops at the first templated URL whose patterns all expand
    to nothing. *)
Lemma templatedLoop_no_dependencies pre url patterns post st st' :
  templatedLoop pre st = (st', None) ->
  FileMap.has (State.allFileDetails st') url = false ->
  Forall expands patterns ->
  Forall resolvesNothing patterns ->
  (templatedLoop (pre ++ (url, DependencyPatterns patterns) :: post) st).2 =
  Some (new_Error (errors_bad_template_urls_asset +:+ " The glob pattern '" +:+
                   Array_toString patterns +:+ "' did not match anything.")).
Proof.
  intros Hpre Hhas Hexp Hnothing. rewrite templatedLoop_app, Hpre. simpl.
  unfold Build.templatedURL. rewrite Hhas.
  pose proof (reduceDependencies_empty url patterns patterns [] st' Hexp Hnothing) as H.
  destruct (reduceDependencies url patterns patterns [] st') as [st1 c].
  simpl in H. subst c. reflexivity.
Qed.

Lemma get_values (m : FileMap.t) key details :
  FileMap.get m key = Some details -> details ∈ FileMap.values m.
Proof.
  unfold FileMap.get, FileMap.values.
  induction m as [|[k d] m IH]; simpl; [done|].
  destruct (String.eqb k key); simpl.
  - intros [= ->]. apply list_elem_of_here.
  - intros H. apply list_elem_of_further. by apply IH.
Qed.

(** *** The whole of the collection *)

Local Abbreviation collectFileDetails :=
  (collectFileDetails getFileDetails getCompositeDetails getStringDetails
     errors_templated_url_matches_glob errors_bad_template_urls_asset
     JSON_stringify_debugObj options).
Local Abbreviation getFileManifestEntries :=
  (getFileManifestEntries getFileDetails getCompositeDetails getStringDetails
     transformManifest errors_templated_url_matches_glob
     errors_bad_template_urls_asset JSON_stringify_debugObj options).

Lemma globPhase_no_transform :
  Forall (fun c => isTransformCall c = false) (State.calls (globPhase State.init)).
Proof.
  unfold Build.globPhase.
  pose proof (globLoop_no_transform (default [] (globPatterns options)) State.init) as H.
  destruct (globLoop _ State.init) as [st [e|]]; simpl in *.
  - destruct (_ && _); simpl; apply H; constructor.
  - apply H; constructor.
Qed.

Lemma collectFileDetails_no_transform :
  Forall (fun c => isTransformCall c = false) (State.calls collectFileDetails.1).
Proof.
  unfold Build.collectFileDetails, Build.templatedPhase.
  destruct (templatedURLs options) as [entries|]; simpl.
  - apply templatedLoop_no_transform, globPhase_no_transform.
  - apply globPhase_no_transform.
Qed.

(** When the collection completes, the values of the map are handed to
    the transform pipeline. *)
Lemma collection_handed_over :
  collectFileDetails.2 = None ->
  CallTransformManifest (FileMap.values (State.allFileDetails collectFileDetails.1))
    ∈ getFileManifestEntries.2.
Proof.
  intros Hnone. unfold Build.getFileManifestEntries.
  destruct collectFileDetails as [st o]; simpl in *; subst o.
  destruct (transformManifest _ _ _); simpl; apply elem_of_app; right;
    apply list_elem_of_here.
Qed.

(** A fatal error of the collection is the completion of the whole
    call, and the transform pipeline is never entered. *)
Lemma collection_error_aborts error :
  collectFileDetails.2 = Some error ->
  getFileManifestEntries.1 = Threw error /\
  Forall (fun c => isTransformCall c = false) getFileManifestEntries.2.
Proof.
  intros Herr. unfold Build.getFileManifestEntries.
  pose proof collectFileDetails_no_transform as Hcalls.
  destruct collectFileDetails as [st o]; simpl in *; subst o. by split.
Qed.

Lemma globPhase_throws pre p post error :
  globPatterns options = Some (pre ++ p :: post) ->
  Forall expands pre ->
  getFileDetails (globOptions options) p = Threw error ->
  globPhase State.init =
  (if instanceof_Error error && truthy (message error)
   then State.push_warning (message error)
   else id) (State.log (CallGetFileDetails p) (globLoop pre State.init).1).
Proof.
  intros Hpatterns Hpre Hp. unfold Build.globPhase.
  rewrite Hpatterns. simpl.
  rewrite (globLoop_throws pre p post error State.init Hpre Hp).
  by destruct (_ && _).
Qed.

Lemma collectFileDetails_warnings :
  exists ws, State.warnings collectFileDetails.1 =
             State.warnings (globPhase State.init) ++ ws.
Proof.
  unfold Build.collectFileDetails, Build.templatedPhase.
  destruct (templatedURLs options) as [entries|]; simpl.
  - apply templatedLoop_warnings.
  - exists []. by rewrite app_nil_r.
Qed.

Lemma returned_warnings r :
  getFileManifestEntries.1 = Returned r ->
  forall w, w ∈ State.warnings collectFileDetails.1 -> w ∈ GetManifestResult.warnings r.
Proof.
  unfold Build.getFileManifestEntries.
  destruct collectFileDetails as [st [e|]]; simpl; [done|].
  destruct (transformManifest _ _ _) as [t|e]; simpl; [|done].
  intros [= <-] w Hw. simpl. apply elem_of_app. by right.
Qed.

(** C3 (amended).  When a templated URL equals a URL that direct glob
    expansion has registered, [getFileManifestEntries] aborts with a
    fatal error and the transform pipeline is never entered.  The error
    is the collision error (the assertion with the message
    templated-url-matches-glob) whenever the templated URLs listed
    before the colliding one were resolved without a fatal error. *)
Theorem templated_url_collision_aborts entries url dependencies :
  templatedURLs options = Some entries ->
  (url, dependencies) ∈ entries ->
  url ∈ FileDetails.file <$> registeredDetails (default [] (globPatterns options)) ->
  (exists error, getFileManifestEntries.1 = Threw error) /\
  Forall (fun c => isTransformCall c = false) getFileManifestEntries.2 /\
  (forall pre post st,
     entries = pre ++ (url, dependencies) :: post ->
     templatedLoop pre (globPhase State.init) = (st, None) ->
     getFileManifestEntries.1 =
     Threw (AssertionError errors_templated_url_matches_glob)).
Proof.
  intros Hentries Hin Hglob. apply has_globPhase_registered in Hglob.
  assert (forall error, collectFileDetails.2 = Some error ->
            (exists error, getFileManifestEntries.1 = Threw error) /\
            Forall (fun c => isTransformCall c = false) getFileManifestEntries.2)
    as Habort.
  { intros error Herr. destruct (collection_error_aborts error Herr). eauto. }
  assert (is_Some collectFileDetails.2) as [error Herr].
  { unfold Build.collectFileDetails, Build.templatedPhase. rewrite Hentries.
    eapply templatedLoop_fatal; eauto. }
  destruct (Habort error Herr) as [H1 H2]. repeat split; [done..|].
  intros pre post st -> Hpre.
  apply collection_error_aborts.
  unfold Build.collectFileDetails, Build.templatedPhase. rewrite Hentries.
  by eapply templatedLoop_collision.
Qed.

(** C4.  When the patterns of a templated URL resolve to no file details
    at all, [getFileManifestEntries] aborts with a fatal error: no
    manifest is returned and the transform pipeline is never entered.
    The error is the one that says that the patterns did not match
    anything whenever the loop reaches that URL (the templated URLs
    listed before it were resolved, it is not among the keys) and each
    of its patterns expands, to nothing. *)
Theorem templated_url_without_dependencies_aborts entries url patterns :
  templatedURLs options = Some entries ->
  (url, DependencyPatterns patterns) ∈ entries ->
  Forall resolvesNothing patterns ->
  (exists error, getFileManifestEntries.1 = Threw error) /\
  Forall (fun c => isTransformCall c = false) getFileManifestEntries.2 /\
  (forall pre post st,
     entries = pre ++ (url, DependencyPatterns patterns) :: post ->
     templatedLoop pre (globPhase State.init) = (st, None) ->
     FileMap.has (State.allFileDetails st) url = false ->
     Forall expands patterns ->
     getFileManifestEntries.1 =
     Threw (new_Error (errors_bad_template_urls_asset +:+ " The glob pattern '" +:+
                       Array_toString patterns +:+ "' did not match anything."))).
Proof.
  intros Hentries Hin Hnothing.
  assert (is_Some collectFileDetails.2) as [error Herr].
  { unfold Build.collectFileDetails, Build.templatedPhase. rewrite Hentries.
    eapply templatedLoop_fatal; eauto. }
  destruct (collection_error_aborts error Herr). repeat split; [by eauto|done|].
  intros pre post st -> Hpre Hhas Hexp.
  apply collection_error_aborts.
  unfold Build.collectFileDetails, Build.templatedPhase. rewrite Hentries.
  by eapply templatedLoop_no_dependencies.
Qed.

(** C5 (amended).  When the expansion of a direct glob pattern throws,
    the run is not aborted: the loop over the patterns ends there, the
    file details registered by the patterns before it are kept, no later
    pattern is expanded, and the message of a thrown [Error], when it is
    not empty, is recorded as a warning that every returned result
    carries.  Without templated URLs the transform pipeline is handed
    the file details of the patterns before the failing one, and what
    it returns is returned, with the warnings added. *)
Theorem glob_failure_ends_expansion pre p post error :
  globPatterns options = Some (pre ++ p :: post) ->
  Forall expands pre ->
  getFileDetails (globOptions options) p = Threw error ->
  State.calls (globPhase State.init) = CallGetFileDetails <$> (pre ++ [p]) /\
  State.allFileDetails (globPhase State.init) =
    fold_left FileMap.register (registeredDetails pre) FileMap.empty /\
  State.warnings (globPhase State.init) =
    State.warnings (globLoop pre State.init).1 ++
    (if instanceof_Error error && truthy (message error) then [message error] else []) /\
  (forall r, getFileManifestEntries.1 = Returned r ->
             instanceof_Error error && truthy (message error) = true ->
             message error ∈ GetManifestResult.warnings r) /\
  (forall t,
     templatedURLs options = None ->
     transformManifest (transformOptions options)
       (FileMap.values (fold_left FileMap.register (registeredDetails pre) FileMap.empty))
       (disablePrecacheManifest options) = Returned t ->
     getFileManifestEntries.1 =
     Returned (GetManifestResult.mk
       (GetManifestResult.count t) (GetManifestResult.manifestEntries t)
       (GetManifestResult.size t)
       (GetManifestResult.warnings t ++ State.warnings (globPhase State.init)))).
Proof.
  intros Hpatterns Hpre Hp.
  pose proof (globPhase_throws pre p post error Hpatterns Hpre Hp) as Hphase.
  assert (State.allFileDetails (globPhase State.init) =
          fold_left FileMap.register (registeredDetails pre) FileMap.empty) as Hdetails.
  { rewrite Hphase.
    pose proof (globLoop_allFileDetails pre State.init) as Hmap.
    destruct (_ && _); simpl; by rewrite Hmap. }
  repeat split.
  - rewrite Hphase.
    pose proof (globLoop_calls_expands pre State.init Hpre) as Hcalls.
    destruct (_ && _); simpl; rewrite Hcalls; simpl; by rewrite fmap_app.
  - exact Hdetails.
  - rewrite Hphase. destruct (_ && _); simpl; [done|by rewrite app_nil_r].
  - intros r Hr Herror. apply (returned_warnings r Hr).
    destruct collectFileDetails_warnings as [ws ->].
    rewrite Hphase, Herror. simpl. set_solver.
  - intros t Hnone Ht.
    unfold Build.getFileManifestEntries, Build.collectFileDetails, Build.templatedPhase.
    rewrite Hnone. simpl. by rewrite Hdetails, Ht.
Qed.

(** C6.  The entry set is a first-write-wins map keyed by URL: a URL
    that the glob patterns produce is mapped to the first file details
    registered for it, in pattern-list order and then in match order;
    later details with the same key change nothing, the templated URLs
    leave the entry as it is, no key occurs twice, and these first
    details are among the values handed to the transform pipeline when
    the collection completes. *)
Theorem first_registration_wins url details :
  List.find (fun d => String.eqb (FileDetails.file d) url)
            (registeredDetails (default [] (globPatterns options))) = Some details ->
  FileMap.get (State.allFileDetails (globPhase State.init)) url = Some details /\
  FileMap.get (State.allFileDetails collectFileDetails.1) url = Some details /\
  NoDup (FileMap.keys (State.allFileDetails collectFileDetails.1)) /\
  (collectFileDetails.2 = None ->
   exists fileDetails,
     CallTransformManifest fileDetails ∈ getFileManifestEntries.2 /\
     fileDetails = FileMap.values (State.allFileDetails collectFileDetails.1) /\
     details ∈ fileDetails).
Proof.
  intros Hfind.
  cut (FileMap.get (State.allFileDetails (globPhase State.init)) url = Some details /\
       FileMap.get (State.allFileDetails collectFileDetails.1) url = Some details /\
       NoDup (FileMap.keys (State.allFileDetails collectFileDetails.1))).
  { intros (H1 & H2 & H3). repeat split; [done..|].
    intros Hnone. eexists. split; [by apply collection_handed_over|].
    split; [done|]. by eapply get_values. }
  assert (State.allFileDetails (globPhase State.init) =
          fold_left FileMap.register
            (registeredDetails (default [] (globPatterns options))) FileMap.empty)
    as Hglob.
  { unfold Build.globPhase.
    pose proof (globLoop_allFileDetails (default [] (globPatterns options)) State.init) as H.
    destruct (globLoop _ State.init) as [st [e|]]; simpl in *; [|done].
    by destruct (_ && _). }
  assert (FileMap.get (State.allFileDetails (globPhase State.init)) url = Some details)
    as Hget.
  { by rewrite Hglob, get_fold_register. }
  assert (NoDup (FileMap.keys (State.allFileDetails (globPhase State.init)))) as Hnd.
  { rewrite Hglob. apply NoDup_keys_fold_register. constructor. }
  split; [done|].
  unfold Build.collectFileDetails, Build.templatedPhase.
  destruct (templatedURLs options) as [entries|]; simpl; [|done].
  split; [by apply templatedLoop_get|by apply templatedLoop_NoDup].
Qed.

Lemma templatedPhase_same_data st st' :
  same_data st st' ->
  same_data (templatedPhase st).1 (templatedPhase st').1 /\
  (templatedPhase st).2 = (templatedPhase st').2.
Proof.
  intros Hsame. unfold Build.templatedPhase.
  destruct (templatedURLs options) as [entries|]; [|done].
  by apply templatedLoop_same_data.
Qed.

(** The templated URLs do not look at the list of glob patterns. *)
Lemma templatedPhase_with_globPatterns patterns st :
  Build.templatedPhase getFileDetails getCompositeDetails getStringDetails
    errors_templated_url_matches_glob errors_bad_template_urls_asset
    JSON_stringify_debugObj (with_globPatterns options patterns) st =
  templatedPhase st.
Proof. reflexivity. Qed.

(** With another list of glob patterns that leaves the same warnings and
    the same map, the call completes in the same way. *)
Lemma outcome_with_globPatterns patterns :
  same_data (Build.globPhase getFileDetails (with_globPatterns options patterns)
               State.init)
            (globPhase State.init) ->
  (Build.getFileManifestEntries getFileDetails getCompositeDetails getStringDetails
     transformManifest errors_templated_url_matches_glob
     errors_bad_template_urls_asset JSON_stringify_debugObj
     (with_globPatterns options patterns)).1 =
  getFileManifestEntries.1.
Proof.
  intros Hsame.
  unfold Build.getFileManifestEntries, Build.collectFileDetails.
  rewrite templatedPhase_with_globPatterns.
  destruct (templatedPhase_same_data _ _ Hsame) as [[Hw Hm] Ho].
  destruct (templatedPhase (Build.globPhase _ _ _)) as [s' o'],
           (templatedPhase (globPhase State.init)) as [s o].
  simpl in *. subst o'. destruct o as [e|]; [done|].
  rewrite Hm. destruct (transformManifest _ _ _); simpl; [|done].
  by rewrite Hw.
Qed.

(** C10.  When the expansion of a direct glob pattern throws a value
    that is not an [Error], or an [Error] whose message is empty, no
    warning is recorded for it: the warnings are those of the patterns
    before it, and the call completes exactly as it does when the list
    of patterns ends before the failing one. *)
Theorem silent_glob_failure_leaves_no_warning pre p post error :
  globPatterns options = Some (pre ++ p :: post) ->
  Forall expands pre ->
  getFileDetails (globOptions options) p = Threw error ->
  instanceof_Error error && truthy (message error) = false ->
  State.warnings (globPhase State.init) = State.warnings (globLoop pre State.init).1 /\
  getFileManifestEntries.1 =
  (Build.getFileManifestEntries getFileDetails getCompositeDetails getStringDetails
     transformManifest errors_templated_url_matches_glob
     errors_bad_template_urls_asset JSON_stringify_debugObj
     (with_globPatterns options pre)).1.
Proof.
  intros Hpatterns Hpre Hp Hsilent.
  pose proof (globPhase_throws pre p post error Hpatterns Hpre Hp) as Hphase.
  rewrite Hsilent in Hphase. simpl in Hphase.
  split; [by rewrite Hphase|].
  symmetry. apply outcome_with_globPatterns.
  rewrite Hphase. unfold Build.globPhase. simpl.
  change (Build.globLoop getFileDetails (with_globPatterns options pre) pre State.init)
    with (globLoop pre State.init).
  pose proof (globLoop_expands pre State.init Hpre) as Hnone.
  destruct (globLoop pre State.init) as [st o]; simpl in *; subst o. by split.
Qed.

(** With the transform pipeline of the specification, a run whose
    collection completes under [disablePrecacheManifest] returns the
    empty manifest together with the warnings collected. *)
Lemma disabled_manifest_keeps_warnings stages st :
  disablePrecacheManifest options = true ->
  collectFileDetails = (st, None) ->
  (Build.getFileManifestEntries getFileDetails getCompositeDetails getStringDetails
     (transformManifest_spec stages) errors_templated_url_matches_glob
     errors_bad_template_urls_asset JSON_stringify_debugObj options).1 =
  Returned (GetManifestResult.mk 0 None 0 (State.warnings st)).
Proof.
  intros Hdisabled Hcollect. unfold Build.getFileManifestEntries.
  rewrite Hcollect, Hdisabled. reflexivity.
Qed.
End ManifestFacts.
End BuildFacts.

(** ** The build on the example project *)

Module BuildChecks.
Import Js Build BuildExamples BuildFacts.

Lemma templated_url_collision_aborts_witness :
  let o := options ["**/*"]
             (Some [("/shell", DependencyPatterns ["**/*.js"]);
                    ("index.html", DependencyString "v1")]) false in
  (exists error, (run o).1 = Threw error) /\
  Forall (fun c => isTransformCall c = false) (run o).2 /\
  (forall pre post st,
     [("/shell", DependencyPatterns ["**/*.js"]); ("index.html", DependencyString "v1")] =
     pre ++ ("index.html", DependencyString "v1") :: post ->
     templatedLoop getFileDetails getCompositeDetails getStringDetails
       errors_templated_url_matches_glob errors_bad_template_urls_asset
       JSON_stringify_debugObj o pre (globPhase getFileDetails o State.init) = (st, None) ->
     (run o).1 = Threw (AssertionError errors_templated_url_matches_glob)).
Proof.
  apply (templated_url_collision_aborts getFileDetails getCompositeDetails
           getStringDetails (transformManifest_spec stages)
           errors_templated_url_matches_glob errors_bad_template_urls_asset
           JSON_stringify_debugObj
           (options ["**/*"]
              (Some [("/shell", DependencyPatterns ["**/*.js"]);
                     ("index.html", DependencyString "v1")]) false)
           [("/shell", DependencyPatterns ["**/*.js"]); ("index.html", DependencyString "v1")]
           "index.html" (DependencyString "v1")).
  - reflexivity.
  - apply list_elem_of_further, list_elem_of_here.
  - apply list_elem_of_here.
Defined.

(** C3, as stated, fails: with the glob pattern producing [index.html]
    and the templated URLs [/shell] (whose patterns match nothing) and
    [index.html], in this order, the call aborts with the error of
    [/shell], not with the collision error. *)
Lemma templated_url_collision_other_error :
  ~ (forall (getFileDetails : GlobOptions -> string -> Completion GlobbedFiles.t)
            (getCompositeDetails : string -> list FileDetails.t -> FileDetails.t)
            (getStringDetails : string -> string -> FileDetails.t)
            (transformManifest : @TransformOptions unit unit -> list FileDetails.t ->
                                 bool -> Completion GetManifestResult.t)
            (errors_templated_url_matches_glob errors_bad_template_urls_asset : string)
            (JSON_stringify_debugObj : string -> list string -> string)
            (options : @GetManifestOptions unit unit) entries url dependencies,
       templatedURLs options = Some entries ->
       (url, dependencies) ∈ entries ->
       url ∈ FileDetails.file <$>
             registeredDetails getFileDetails options (default [] (globPatterns options)) ->
       (getFileManifestEntries getFileDetails getCompositeDetails getStringDetails
          transformManifest errors_templated_url_matches_glob
          errors_bad_template_urls_asset JSON_stringify_debugObj options).1 =
       Threw (AssertionError errors_templated_url_matches_glob)).
Proof.
  intros Hevery.
  specialize (Hevery getFileDetails getCompositeDetails getStringDetails
                (transformManifest_spec stages)
                errors_templated_url_matches_glob errors_bad_template_urls_asset
                JSON_stringify_debugObj
                (options ["**/*"]
                   (Some [("/shell", DependencyPatterns ["partials/*.html"]);
                          ("index.html", DependencyString "v1")]) false)
                [("/shell", DependencyPatterns ["partials/*.html"]);
                 ("index.html", DependencyString "v1")]
                "index.html" (DependencyString "v1") eq_refl).
  assert ((run (options ["**/*"]
                  (Some [("/shell", DependencyPatterns ["partials/*.html"]);
                         ("index.html", DependencyString "v1")]) false)).1 =
          Threw (new_Error
            "There was an issue using one of the provided templatedURLs. The glob pattern 'partials/*.html' did not match anything."))
    as Hrun by reflexivity.
  unfold run in Hrun. rewrite Hevery in Hrun.
  - discriminate Hrun.
  - apply list_elem_of_further, list_elem_of_here.
  - apply list_elem_of_here.
Qed.

Lemma templated_url_without_dependencies_aborts_witness :
  let o := options ["**/*"] (Some [("/shell", DependencyPatterns ["partials/*.html"])]) false in
  Forall (resolvesNothing getFileDetails o) ["partials/*.html"] /\
  (exists error, (run o).1 = Threw error) /\
  Forall (fun c => isTransformCall c = false) (run o).2 /\
  (forall pre post st,
     [("/shell", DependencyPatterns ["partials/*.html"])] =
     pre ++ ("/shell", DependencyPatterns ["partials/*.html"]) :: post ->
     templatedLoop getFileDetails getCompositeDetails getStringDetails
       errors_templated_url_matches_glob errors_bad_template_urls_asset
       JSON_stringify_debugObj o pre (globPhase getFileDetails o State.init) = (st, None) ->
     FileMap.has (State.allFileDetails st) "/shell" = false ->
     Forall (expands getFileDetails o) ["partials/*.html"] ->
     (run o).1 =
     Threw (new_Error (errors_bad_template_urls_asset +:+ " The glob pattern '" +:+
                       Array_toString ["partials/*.html"] +:+ "' did not match anything."))).
Proof.
  assert (Forall (resolvesNothing getFileDetails
                    (options ["**/*"]
                       (Some [("/shell", DependencyPatterns ["partials/*.html"])]) false))
                 ["partials/*.html"]) as Hnothing.
  { repeat constructor. }
  split; [exact Hnothing|].
  apply (templated_url_without_dependencies_aborts getFileDetails getCompositeDetails
           getStringDetails (transformManifest_spec stages)
           errors_templated_url_matches_glob errors_bad_template_urls_asset
           JSON_stringify_debugObj _
           [("/shell", DependencyPatterns ["partials/*.html"])]
           "/shell" ["partials/*.html"]).
  - reflexivity.
  - apply list_elem_of_here.
  - exact Hnothing.
Defined.

Lemma glob_failure_ends_expansion_witness :
  let o := options ["*.html"; "{unreadable"; "**/*.js"] None false in
  getFileDetails (globOptions o) "{unreadable" =
    Threw (new_Error "Unable to glob files: EACCES") /\
  State.calls (globPhase getFileDetails o State.init) =
    CallGetFileDetails <$> (["*.html"] ++ ["{unreadable"]) /\
  State.allFileDetails (globPhase getFileDetails o State.init) =
    fold_left FileMap.register (registeredDetails getFileDetails o ["*.html"])
              FileMap.empty /\
  State.warnings (globPhase getFileDetails o State.init) =
    State.warnings (globLoop getFileDetails o ["*.html"] State.init).1 ++
    ["Unable to glob files: EACCES"] /\
  (forall r, (run o).1 = Returned r ->
             true = true ->
             "Unable to glob files: EACCES" ∈ GetManifestResult.warnings r) /\
  (forall t,
     templatedURLs o = None ->
     transformManifest_spec stages (transformOptions o) [index_html_rewritten] false =
       Returned t ->
     (run o).1 =
     Returned (GetManifestResult.mk
       (GetManifestResult.count t) (GetManifestResult.manifestEntries t)
       (GetManifestResult.size t)
       (GetManifestResult.warnings t ++ ["Unable to glob files: EACCES"]))).
Proof.
  split; [reflexivity|].
  apply (glob_failure_ends_expansion getFileDetails getCompositeDetails
           getStringDetails (transformManifest_spec stages)
           errors_templated_url_matches_glob errors_bad_template_urls_asset
           JSON_stringify_debugObj
           (options ["*.html"; "{unreadable"; "**/*.js"] None false)
           ["*.html"] "{unreadable" ["**/*.js"]
           (new_Error "Unable to glob files: EACCES")).
  - reflexivity.
  - repeat constructor. eexists. reflexivity.
  - reflexivity.
Defined.

(** C5, as stated, fails: of the patterns [*.html], [{unreadable] and
    [**/*.js], the second cannot be expanded, and the third is then never
    handed to [getFileDetails]. *)
Lemma glob_failure_skips_remaining_patterns :
  ~ (forall (getFileDetails : GlobOptions -> string -> Completion GlobbedFiles.t)
            (getCompositeDetails : string -> list FileDetails.t -> FileDetails.t)
            (getStringDetails : string -> string -> FileDetails.t)
            (transformManifest : @TransformOptions unit unit -> list FileDetails.t ->
                                 bool -> Completion GetManifestResult.t)
            (errors_templated_url_matches_glob errors_bad_template_urls_asset : string)
            (JSON_stringify_debugObj : string -> list string -> string)
            (options : @GetManifestOptions unit unit) pre p post error,
       globPatterns options = Some (pre ++ p :: post) ->
       getFileDetails (globOptions options) p = Threw error ->
       forall q, q ∈ post ->
         CallGetFileDetails q ∈
           (getFileManifestEntries getFileDetails getCompositeDetails getStringDetails
              transformManifest errors_templated_url_matches_glob
              errors_bad_template_urls_asset JSON_stringify_debugObj options).2).
Proof.
  intros Hevery.
  specialize (Hevery getFileDetails getCompositeDetails getStringDetails
                (transformManifest_spec stages)
                errors_templated_url_matches_glob errors_bad_template_urls_asset
                JSON_stringify_debugObj
                (options ["*.html"; "{unreadable"; "**/*.js"] None false)
                ["*.html"] "{unreadable" ["**/*.js"]
                (new_Error "Unable to glob files: EACCES")
                eq_refl eq_refl "**/*.js" (list_elem_of_here _ _)).
  assert ((run (options ["*.html"; "{unreadable"; "**/*.js"] None false)).2 =
          [CallGetFileDetails "*.html"; CallGetFileDetails "{unreadable";
           CallTransformManifest [index_html_rewritten]]) as Hrun by reflexivity.
  unfold run in Hrun. rewrite Hrun in Hevery.
  repeat (apply elem_of_cons in Hevery as [Hevery|Hevery]; [discriminate Hevery|]).
  inversion Hevery.
Qed.

Lemma first_registration_wins_witness :
  let o := options ["**/*"; "*.html"] (Some [("/shell", DependencyPatterns ["**/*.js"])])
             false in
  registeredDetails getFileDetails o ["**/*"; "*.html"] =
    [index_html; app_js; index_html_rewritten] /\
  FileMap.get (State.allFileDetails (globPhase getFileDetails o State.init)) "index.html" =
    Some index_html /\
  FileMap.get (State.allFileDetails
                 (collectFileDetails getFileDetails getCompositeDetails getStringDetails
                    errors_templated_url_matches_glob errors_bad_template_urls_asset
                    JSON_stringify_debugObj o).1) "index.html" = Some index_html /\
  NoDup (FileMap.keys (State.allFileDetails
                 (collectFileDetails getFileDetails getCompositeDetails getStringDetails
                    errors_templated_url_matches_glob errors_bad_template_urls_asset
                    JSON_stringify_debugObj o).1)) /\
  ((collectFileDetails getFileDetails getCompositeDetails getStringDetails
      errors_templated_url_matches_glob errors_bad_template_urls_asset
      JSON_stringify_debugObj o).2 = None ->
   exists fileDetails,
     CallTransformManifest fileDetails ∈ (run o).2 /\
     fileDetails = [index_html; app_js; getCompositeDetails "/shell" [app_js]] /\
     index_html ∈ fileDetails).
Proof.
  split; [reflexivity|].
  apply (first_registration_wins getFileDetails getCompositeDetails getStringDetails
           (transformManifest_spec stages)
           errors_templated_url_matches_glob errors_bad_template_urls_asset
           JSON_stringify_debugObj
           (options ["**/*"; "*.html"]
              (Some [("/shell", DependencyPatterns ["**/*.js"])]) false)
           "index.html" index_html).
  reflexivity.
Defined.

Lemma silent_glob_failure_leaves_no_warning_witness :
  let o := options ["*.html"; "{silent"; "**/*.js"] None false in
  getFileDetails (globOptions o) "{silent" = Threw (OtherValue "EACCES") /\
  State.warnings (globPhase getFileDetails o State.init) =
    State.warnings (globLoop getFileDetails o ["*.html"] State.init).1 /\
  (run o).1 = (run (with_globPatterns o ["*.html"])).1.
Proof.
  split; [reflexivity|].
  apply (silent_glob_failure_leaves_no_warning getFileDetails getCompositeDetails
           getStringDetails (transformManifest_spec stages)
           errors_templated_url_matches_glob errors_bad_template_urls_asset
           JSON_stringify_debugObj
           (options ["*.html"; "{silent"; "**/*.js"] None false)
           ["*.html"] "{silent" ["**/*.js"] (OtherValue "EACCES")).
  - reflexivity.
  - repeat constructor. eexists. reflexivity.
  - reflexivity.
  - reflexivity.
Defined.
End BuildChecks.

(** ** Facts about the serializer *)

Module StableStringifyFacts.
Import Js StableStringify.

(** Induction on a value, with the hypothesis for every item of an array
    and every property value of an object. *)
Lemma Json_induction (P : Json -> Prop) :
  P JUndefined -> P JNull -> (forall b, P (JBoolean b)) -> (forall n, P (JNumber n)) ->
  (forall s, P (JString s)) ->
  (forall items, Forall P items -> P (JArray items)) ->
  (forall fields, Forall (fun kv => P kv.2) fields -> P (JObject fields)) ->
  forall node, P node.
Proof.
  intros Hundefined Hnull Hboolean Hnumber Hstring Harray Hobject.
  fix IH 1. intros [ | | b | n | s | items | fields].
  - exact Hundefined.
  - exact Hnull.
  - apply Hboolean.
  - apply Hnumber.
  - apply Hstring.
  - apply Harray. induction items as [|item items IHitems]; constructor.
    + apply IH.
    + exact IHitems.
  - apply Hobject. induction fields as [|[key value] fields IHfields]; constructor.
    + apply IH.
    + exact IHfields.
Qed.

Lemma property_fmap {A B : Type} (f : A -> B) (fields : list (string * A)) key :
  property (List.map (fun kv => (kv.1, f kv.2)) fields) key = f <$> property fields key.
Proof.
  unfold property. induction fields as [|kv fields IH]; simpl; [done|].
  destruct (String.eqb kv.1 key); [done|exact IH].
Qed.

Lemma property_Some_elem {A : Type} (fields : list (string * A)) key value :
  property fields key = Some value -> (key, value) ∈ fields.
Proof.
  unfold property. induction fields as [|[k v] fields IH]; simpl; [done|].
  destruct (String.eqb_spec k key) as [->|Hne]; simpl.
  - intros [= ->]. apply list_elem_of_here.
  - intros H. apply list_elem_of_further. by apply IH.
Qed.

Lemma property_is_Some {A : Type} (fields : list (string * A)) key :
  key ∈ fields.*1 -> is_Some (property fields key).
Proof.
  unfold property. induction fields as [|[k v] fields IH]; simpl.
  - intros H. inversion H.
  - intros H. destruct (String.eqb_spec k key) as [->|Hne]; simpl; [by eauto|].
    apply IH. apply elem_of_cons in H as [H|H]; [congruence|done].
Qed.

(** The sorted keys depend on the set of keys only. *)
Lemma sorted_keys_unique {A B : Type} (f1 : list (string * A)) (f2 : list (string * B)) :
  NoDup (f1.*1) -> NoDup (f2.*1) -> (forall k, k ∈ f1.*1 <-> k ∈ f2.*1) ->
  sorted_keys f1 = sorted_keys f2.
Proof.
  intros Hnd1 Hnd2 Hsame. unfold sorted_keys.
  apply (Sorted_unique String.le).
  - apply Sorted_merge_sort, _.
  - apply Sorted_merge_sort, _.
  - rewrite !merge_sort_Permutation. by apply NoDup_Permutation.
Qed.

Lemma sorted_keys_elem {A : Type} (fields : list (string * A)) key :
  key ∈ sorted_keys fields <-> key ∈ fields.*1.
Proof. unfold sorted_keys. by rewrite merge_sort_Permutation. Qed.

Lemma fold_object_step_ext r1 r2 keys : forall out,
  (forall key, key ∈ keys -> property r1 key = property r2 key) ->
  fold_left (object_step r1) keys out = fold_left (object_step r2) keys out.
Proof.
  induction keys as [|key keys IH]; intros out Hsame; simpl; [done|].
  assert (object_step r1 out key = object_step r2 out key) as ->.
  { unfold object_step. by rewrite (Hsame key (list_elem_of_here _ _)). }
  apply IH. intros k Hk. apply Hsame. by apply list_elem_of_further.
Qed.

Lemma stringify_array items :
  stringify (JArray items) =
  Some ("[" +:+ String.concat "," (List.map (fun item => or_null (stringify item)) items)
        +:+ "]").
Proof. reflexivity. Qed.

Lemma stringify_object fields :
  stringify (JObject fields) =
  Some ("{" +:+ fold_left (object_step (List.map (fun kv => (kv.1, stringify kv.2)) fields))
                          (sorted_keys fields) "" +:+ "}").
Proof. reflexivity. Qed.

Lemma stringify_array_same l1 l2 :
  Forall2 (fun v1 v2 => stringify v1 = stringify v2) l1 l2 ->
  stringify (JArray l1) = stringify (JArray l2).
Proof.
  intros Hitems. rewrite !stringify_array.
  assert (List.map (fun item => or_null (stringify item)) l1 =
          List.map (fun item => or_null (stringify item)) l2) as ->; [|done].
  induction Hitems as [|x y l1 l2 Hxy _ IH]; [done|].
  cbn [List.map]. by rewrite Hxy, IH.
Qed.

Lemma stringify_object_same f1 f2 :
  NoDup (f1.*1) -> NoDup (f2.*1) ->
  (forall k, k ∈ f1.*1 <-> k ∈ f2.*1) ->
  (forall k v1 v2, property f1 k = Some v1 -> property f2 k = Some v2 ->
                   stringify v1 = stringify v2) ->
  stringify (JObject f1) = stringify (JObject f2).
Proof.
  intros Hnd1 Hnd2 Hkeys Hvalues. rewrite !stringify_object.
  assert (fold_left (object_step (List.map (fun kv => (kv.1, stringify kv.2)) f1))
                    (sorted_keys f1) "" =
          fold_left (object_step (List.map (fun kv => (kv.1, stringify kv.2)) f2))
                    (sorted_keys f2) "") as ->; [|done].
  rewrite <- (sorted_keys_unique f1 f2 Hnd1 Hnd2 Hkeys).
  apply fold_object_step_ext. intros key Hkey.
  apply sorted_keys_elem in Hkey.
  rewrite !property_fmap.
  destruct (property_is_Some f1 key Hkey) as [x1 Hx1].
  destruct (property_is_Some f2 key (proj1 (Hkeys key) Hkey)) as [x2 Hx2].
  rewrite Hx1, Hx2. simpl. f_equal. by eapply Hvalues.
Qed.

(** The serializer does not see the insertion order of keys. *)
Lemma stringify_same_value : forall v1 v2, same_value v1 v2 -> stringify v1 = stringify v2.
Proof.
  induction v1 as [ | | b | n | s | items IH | fields IH] using Json_induction;
    intros v2 Hsame; inversion Hsame; subst; try reflexivity.
  - apply stringify_array_same.
    match goal with H : Forall2 same_value _ _ |- _ => rename H into Hitems end.
    clear Hsame. revert IH.
    induction Hitems as [|x y l1 l2 Hxy _ IHrest]; intros IH; [constructor|].
    apply Forall_cons in IH as [Hx IH]. constructor; [by apply Hx|by apply IHrest].
  - apply stringify_object_same; try done.
    intros k v1 v2 Hv1 Hv2.
    apply property_Some_elem in Hv1 as Hin.
    rewrite Forall_forall in IH. apply (IH (k, v1) Hin). eauto.
Qed.
End StableStringifyFacts.

(** ** Facts about strings *)

Module JsFacts.
Import Js.

Lemma startsWith_app p s : startsWith p (p +:+ s) = true.
Proof.
  unfold startsWith. induction p as [|c p IH]; [by destruct s|].
  change (String c p +:+ s) with (String c (p +:+ s)). simpl.
  by destruct (ascii_dec c c).
Qed.

Lemma includes_unfold p s :
  includes p s =
  startsWith p s || match s with EmptyString => false | String _ t => includes p t end.
Proof. by destruct s. Qed.

(** A text names every string that is spliced into it. *)
Lemma includes_app a p b : includes p (a +:+ p +:+ b) = true.
Proof.
  induction a as [|c a IH].
  - change ("" +:+ p +:+ b) with (p +:+ b).
    by rewrite includes_unfold, startsWith_app.
  - change (String c a +:+ p +:+ b) with (String c (a +:+ p +:+ b)).
    rewrite includes_unfold, IH. apply orb_true_r.
Qed.
End JsFacts.

(** ** Facts about [InjectManifest] *)

Module WebpackFacts.
Import Js StableStringify Webpack JsFacts StableStringifyFacts.

Section PluginFacts.
Context {UserCondition OtherOptions : Type}.
Variable getManifestEntriesFromCompilation :
  gset string -> Compilation.t -> @WebpackInjectManifestOptions UserCondition OtherOptions ->
  Completion (Z * option (list Json)) * list Thrown.
Variable getSourcemapAssetName : Compilation.t -> string -> string -> option string.
Variable SourceMap : Type.
Variable JSON_parse : string -> Completion SourceMap.
Variable replaceAndUpdateSourceMap :
  string -> SourceMap -> string -> string -> string -> Completion (string * string).
Variable upath_resolve : string -> string.
Variable prettyBytes : Z -> string.

Local Abbreviation getManifestEntries :=
  (getManifestEntries getManifestEntriesFromCompilation).
Local Abbreviation warningsOfCollaborator :=
  (warningsOfCollaborator getManifestEntriesFromCompilation).
Local Abbreviation invocations := (invocations getManifestEntriesFromCompilation).
Local Abbreviation addAssets :=
  (addAssets getManifestEntriesFromCompilation getSourcemapAssetName SourceMap
     JSON_parse replaceAndUpdateSourceMap upath_resolve prettyBytes).
Local Abbreviation processAssets :=
  (processAssets getManifestEntriesFromCompilation getSourcemapAssetName SourceMap
     JSON_parse replaceAndUpdateSourceMap upath_resolve prettyBytes).
Local Abbreviation World := (@World UserCondition OtherOptions).
Local Abbreviation Options := (@WebpackInjectManifestOptions UserCondition OtherOptions).

(** *** [getManifestEntries] *)

Lemma checkAlreadyCalled_assets (w : World) :
  Compilation.assets (compilation (checkAlreadyCalled w)) =
  Compilation.assets (compilation w).
Proof.
  unfold checkAlreadyCalled.
  destruct (alreadyCalled (this w)); [|done]. by destruct (negb _).
Qed.

Lemma checkAlreadyCalled_warnings (w : World) :
  Compilation.warnings (compilation (checkAlreadyCalled w)) =
  Compilation.warnings (compilation w) ++
  (if alreadyCalled (this w) &&
      negb (existsb isWarningMessage (Compilation.warnings (compilation w)))
   then [new_Error warningMessage] else []).
Proof.
  unfold checkAlreadyCalled.
  destruct (alreadyCalled (this w)); simpl; [|by rewrite app_nil_r].
  destruct (negb _); simpl; [done|by rewrite app_nil_r].
Qed.

(** What a call with the manifest enabled leaves behind. *)
Lemma getManifestEntries_enabled (w : World) (config : Options) :
  disablePrecacheManifest config = false ->
  let w' := (getManifestEntries w config).2 in
  alreadyCalled (this w') = true /\
  disablePrecacheManifest (Webpack.config (this w')) =
    disablePrecacheManifest (Webpack.config (this w)) /\
  Compilation.warnings (compilation w') =
    Compilation.warnings (compilation (checkAlreadyCalled w)) ++
    warningsOfCollaborator w config.
Proof.
  intros Henabled. unfold Webpack.getManifestEntries, Webpack.warningsOfCollaborator.
  rewrite Henabled.
  assert (_generatedAssetNames (pushExclude (checkAlreadyCalled w)) =
          _generatedAssetNames w) as ->.
  { unfold checkAlreadyCalled. destruct (alreadyCalled (this w)); [|done].
    by destruct (negb _). }
  change (compilation (pushExclude (checkAlreadyCalled w)))
    with (compilation (checkAlreadyCalled w)).
  destruct (getManifestEntriesFromCompilation _ _ _) as [outcome pushed].
  assert (alreadyCalled (this (checkAlreadyCalled w)) = true /\
          disablePrecacheManifest (Webpack.config (this (checkAlreadyCalled w))) =
          disablePrecacheManifest (Webpack.config (this w))) as [Hflag Hdisable].
  { unfold checkAlreadyCalled. destruct (alreadyCalled (this w)) eqn:E; [|done].
    by destruct (negb _). }
  destruct outcome as [[size entries]|error]; simpl.
  - by destruct (serialize _ _).
  - done.
Qed.

Lemma getManifestEntries_assets (w : World) (config : Options) :
  Compilation.assets (compilation (getManifestEntries w config).2) =
  Compilation.assets (compilation w).
Proof.
  unfold Webpack.getManifestEntries.
  destruct (disablePrecacheManifest config); [done|].
  change (compilation (pushExclude (checkAlreadyCalled w)))
    with (compilation (checkAlreadyCalled w)).
  destruct (getManifestEntriesFromCompilation _ _ _) as [outcome pushed].
  destruct outcome as [[size entries]|error]; simpl.
  - destruct (serialize _ _); simpl; apply checkAlreadyCalled_assets.
  - apply checkAlreadyCalled_assets.
Qed.

Lemma getManifestEntries_replacesQuotes (w : World) (config : Options) :
  replacesQuotes (getManifestEntries w config).2 = replacesQuotes w.
Proof.
  unfold Webpack.getManifestEntries.
  destruct (disablePrecacheManifest config); [done|].
  assert (replacesQuotes (pushExclude (checkAlreadyCalled w)) = replacesQuotes w) as <-.
  { unfold checkAlreadyCalled. destruct (alreadyCalled (this w)); [|done].
    by destruct (negb _). }
  change (compilation (pushExclude (checkAlreadyCalled w)))
    with (compilation (checkAlreadyCalled w)).
  destruct (getManifestEntriesFromCompilation _ _ _) as [outcome pushed].
  destruct outcome as [[size entries]|error]; simpl; [|done].
  by destruct (serialize _ _).
Qed.

(** The manifest string of a returned result is the serialisation of its
    entries. *)
Lemma getManifestEntries_serialize (w w' : World) (config : Options) m :
  getManifestEntries w config = (Returned m, w') ->
  is_Some (sortedEntries m) ->
  serialize (replacesQuotes w') (sortedEntries m) = Returned (manifestString m).
Proof.
  unfold Webpack.getManifestEntries.
  destruct (disablePrecacheManifest config).
  { intros [= <- <-] [? ?]. done. }
  destruct (getManifestEntriesFromCompilation _ _ _) as [outcome pushed].
  destruct outcome as [[size entries]|error]; [|done].
  destruct (serialize _ entries) as [s|e] eqn:Hser; [|done].
  intros [= <- <-] _. exact Hser.
Qed.

Lemma serialize_same_value q es1 es2 :
  Forall2 same_value es1 es2 -> serialize q (Some es1) = serialize q (Some es2).
Proof.
  intros Hsame. unfold serialize.
  by rewrite (stringify_same_value (JArray es1) (JArray es2) (same_array _ _ Hsame)).
Qed.

(** C9.  Two calls that return the same logical entries, whatever the
    insertion order of the keys of each entry, under configurations
    that agree on the replacement of quotes, return the same
    [manifestString]. *)
Theorem manifestString_deterministic (w1 w2 w1' w2' : World) (config1 config2 : Options)
    m1 m2 es1 es2 :
  getManifestEntries w1 config1 = (Returned m1, w1') ->
  getManifestEntries w2 config2 = (Returned m2, w2') ->
  sortedEntries m1 = Some es1 ->
  sortedEntries m2 = Some es2 ->
  Forall2 same_value es1 es2 ->
  replacesQuotes w1 = replacesQuotes w2 ->
  manifestString m1 = manifestString m2.
Proof.
  intros Hrun1 Hrun2 Hes1 Hes2 Hsame Hquotes.
  pose proof (getManifestEntries_serialize w1 w1' config1 m1 Hrun1) as Hs1.
  pose proof (getManifestEntries_serialize w2 w2' config2 m2 Hrun2) as Hs2.
  pose proof (getManifestEntries_replacesQuotes w1 config1) as Hq1.
  pose proof (getManifestEntries_replacesQuotes w2 config2) as Hq2.
  rewrite Hrun1 in Hq1. rewrite Hrun2 in Hq2. simpl in Hq1, Hq2.
  rewrite Hes1, Hq1 in Hs1. rewrite Hes2, Hq2, <- Hquotes in Hs2.
  rewrite (serialize_same_value _ es1 es2 Hsame) in Hs1.
  specialize (Hs1 (mk_is_Some _ _ eq_refl)). specialize (Hs2 (mk_is_Some _ _ eq_refl)).
  congruence.
Qed.

(** *** The sequence of invocations *)

Lemma isWarningMessage_new_Error : isWarningMessage (new_Error warningMessage) = true.
Proof.
  unfold isWarningMessage, new_Error, instanceof_Error, message.
  by rewrite String.eqb_refl.
Qed.

Lemma invocations_lookup compilations : forall (w : World) i before after,
  disablePrecacheManifest (config (this w)) = false ->
  invocations w compilations !! i = Some (before, after) ->
  disablePrecacheManifest (config (this before)) = false /\
  after = (getManifestEntries before (config (this before))).2 /\
  alreadyCalled (this before) =
    match i with O => alreadyCalled (this w) | S _ => true end.
Proof.
  induction compilations as [|c compilations IH]; intros w i before after Henabled Hi;
    [done|].
  destruct i as [|i]; simpl in Hi.
  - injection Hi as <- <-. done.
  - pose proof (getManifestEntries_enabled (with_compilation c w)
                  (config (this (with_compilation c w))) Henabled) as (Hflag & Hdis & _).
    simpl in Hflag, Hdis.
    destruct (IH _ i before after (eq_trans Hdis Henabled) Hi) as (H1 & H2 & H3).
    repeat split; [done..|]. rewrite H3. by destruct i.
Qed.

(** C7 (amended).  In a sequence of calls of [getManifestEntries] by
    one instance with the manifest enabled, the first call pushes no
    staleness warning; every later call leaves the staleness warning in
    the warnings of its compilation: it pushes one unless an [Error]
    with that message is there already, in which case it pushes none. *)
Theorem repeated_invocation_warning (w : World) compilations i before after :
  alreadyCalled (this w) = false ->
  disablePrecacheManifest (config (this w)) = false ->
  invocations w compilations !! i = Some (before, after) ->
  alreadyCalled (this after) = true /\
  (i = 0%nat ->
     Compilation.warnings (compilation after) =
     Compilation.warnings (compilation before) ++
     warningsOfCollaborator before (config (this before))) /\
  ((0 < i)%nat ->
     Compilation.warnings (compilation after) =
     Compilation.warnings (compilation before) ++
     (if existsb isWarningMessage (Compilation.warnings (compilation before))
      then [] else [new_Error warningMessage]) ++
     warningsOfCollaborator before (config (this before)) /\
     existsb isWarningMessage (Compilation.warnings (compilation after)) = true).
Proof.
  intros Hfirst Henabled Hi.
  destruct (invocations_lookup compilations w i before after Henabled Hi)
    as (Hdis & -> & Hflag).
  pose proof (getManifestEntries_enabled before (config (this before)) Hdis)
    as (Hcalled & _ & Hwarnings).
  simpl in Hcalled, Hwarnings.
  rewrite checkAlreadyCalled_warnings, Hflag in Hwarnings.
  split; [done|]. split.
  - intros ->. rewrite Hwarnings, Hfirst. simpl. by rewrite app_nil_r.
  - intros Hpos. destruct i as [|i]; [lia|]. simpl in Hwarnings.
    rewrite Hwarnings.
    destruct (existsb isWarningMessage (Compilation.warnings (compilation before)))
      eqn:Hthere; simpl.
    + split; [by rewrite app_nil_r|].
      rewrite app_nil_r, existsb_app, Hthere. done.
    + split; [by rewrite <- app_assoc|].
      rewrite !existsb_app. cbn [existsb].
      rewrite isWarningMessage_new_Error. simpl. by rewrite orb_true_r.
Qed.

(** *** [addAssets] *)

(** C1 (amended).  When the call for the manifest entries has returned
    and the service worker asset is there, [addAssets] fails with an
    [Error] if the injection point is matched no time, and with another
    [Error] if it is matched more than once; either message names the
    injection point, and the second is the same whatever the number of
    matches. *)
Theorem injection_point_errors (w w1 : World) m swAssetString :
  getManifestEntries w (config (this w)) = (Returned m, w1) ->
  Compilation.getAsset (compilation w1) (swDest (config (this w))) = Some swAssetString ->
  (List.length (match_scan (injectionPoint (config (this w))) swAssetString 0) = 0%nat ->
     (addAssets w).1 =
       Threw (new_Error ("Can't find " +:+ injectionPoint (config (this w)) +:+
                         " in your SW source.")) /\
     includes (injectionPoint (config (this w)))
       ("Can't find " +:+ injectionPoint (config (this w)) +:+ " in your SW source.")
     = true) /\
  ((1 < List.length (match_scan (injectionPoint (config (this w))) swAssetString 0))%nat ->
     (addAssets w).1 =
       Threw (new_Error ("Multiple instances of " +:+ injectionPoint (config (this w)) +:+
         " were found in your SW source. Include it only once. For more info, see https://github.com/GoogleChrome/workbox/issues/2681")) /\
     includes (injectionPoint (config (this w)))
       ("Multiple instances of " +:+ injectionPoint (config (this w)) +:+
        " were found in your SW source. Include it only once. For more info, see https://github.com/GoogleChrome/workbox/issues/2681")
     = true).
Proof.
  intros Hentries Hasset.
  split; intros Hcount; (split; [|apply includes_app]);
    unfold Webpack.addAssets; rewrite Hentries; simpl;
    unfold Compilation.getAsset in *; simpl; rewrite Hasset;
    unfold checkInjectionPoint, match_global;
    destruct (match_scan _ swAssetString 0) as [|x [|y l]]; simpl in *;
    try done; lia.
Qed.

(** C2.  When the injection point is not matched exactly once in the
    service worker asset, [addAssets] fails and no asset is updated: the
    assets of the compilation, the service worker and its source map
    among them, are the ones it started with, also after the failure has
    been pushed onto [compilation.errors]. *)
Theorem injection_failure_writes_nothing (w : World) swAssetString :
  Compilation.getAsset (compilation w) (swDest (config (this w))) = Some swAssetString ->
  List.length (match_scan (injectionPoint (config (this w))) swAssetString 0) <> 1%nat ->
  (exists error, (addAssets w).1 = Threw error) /\
  Compilation.assets (compilation (addAssets w).2) = Compilation.assets (compilation w) /\
  Compilation.assets (compilation (processAssets w)) = Compilation.assets (compilation w).
Proof.
  intros Hasset Hcount.
  assert ((exists error, (addAssets w).1 = Threw error) /\
          Compilation.assets (compilation (addAssets w).2) =
          Compilation.assets (compilation w)) as [[error Herror] Hassets].
  { unfold Webpack.addAssets.
    pose proof (getManifestEntries_assets w (config (this w))) as Hsame.
    destruct (getManifestEntries w (config (this w))) as [[m|e] w1]; simpl in *;
      [|by eauto].
    unfold Compilation.getAsset in *. simpl. rewrite Hsame, Hasset.
    unfold checkInjectionPoint, match_global.
    destruct (match_scan _ swAssetString 0) as [|x [|y l]]; simpl in *;
      try done; eauto. }
  split; [by eauto|]. split; [done|].
  unfold Webpack.processAssets.
  destruct (addAssets w) as [[u|e] w2]; simpl in *; done.
Qed.

(** With [disablePrecacheManifest] set, [getManifestEntries] returns at
    once and touches nothing. *)
Lemma disabled_getManifestEntries (w : World) (config : Options) :
  disablePrecacheManifest config = true ->
  getManifestEntries w config =
  (Returned {| size := 0; sortedEntries := None; manifestString := Some "undefined" |}, w).
Proof. intros Hdisabled. unfold Webpack.getManifestEntries. by rewrite Hdisabled. Qed.
End PluginFacts.
End WebpackFacts.

(** ** The plugin on the example compilation *)

Module WebpackChecks.
Import Js StableStringify Webpack WebpackExamples WebpackFacts.

Lemma entries_same_value : Forall2 same_value entries entries_reordered.
Proof.
  unfold entries, entries_reordered.
  assert (NoDup ["revision"; "url"]) as Hnd1.
  { apply NoDup_cons. split; [|apply NoDup_singleton].
    intros H. apply elem_of_cons in H as [H|H]; [discriminate|inversion H]. }
  assert (NoDup ["url"; "revision"]) as Hnd2.
  { apply NoDup_cons. split; [|apply NoDup_singleton].
    intros H. apply elem_of_cons in H as [H|H]; [discriminate|inversion H]. }
  assert (forall k : string, k ∈ ["revision"; "url"] <-> k ∈ ["url"; "revision"]) as Hkeys.
  { intros k. rewrite !elem_of_cons, !elem_of_nil. tauto. }
  apply List.Forall2_cons; [|apply List.Forall2_cons; [|apply List.Forall2_nil]].
  - apply same_object; [exact Hnd1|exact Hnd2|exact Hkeys|].
    intros k v1 v2. unfold property. cbn [List.find fst snd].
    destruct (String.eqb_spec "revision" k) as [<-|_];
      [|destruct (String.eqb_spec "url" k) as [<-|_]];
      simpl; intros H1 H2; simplify_eq; constructor.
  - apply same_object; [exact Hnd1|exact Hnd2|exact Hkeys|].
    intros k v1 v2. unfold property. cbn [List.find fst snd].
    destruct (String.eqb_spec "revision" k) as [<-|_];
      [|destruct (String.eqb_spec "url" k) as [<-|_]];
      simpl; intros H1 H2; simplify_eq; constructor.
Qed.

Lemma manifestString_deterministic_witness :
  manifestString
    {| size := 30; sortedEntries := Some entries;
       manifestString := Some "[{'revision':'92eb5ffee6ae2fec3ad71c777531578f','url':'app.js'},{'revision':null,'url':'index.0cc175b9.html'}]" |} =
  manifestString
    {| size := 30; sortedEntries := Some entries_reordered;
       manifestString := Some "[{'revision':'92eb5ffee6ae2fec3ad71c777531578f','url':'app.js'},{'revision':null,'url':'index.0cc175b9.html'}]" |}.
Proof.
  apply (manifestString_deterministic getManifestEntriesFromCompilation
           (world once entries false) (world once entries_reordered false)
           (run_getManifestEntries (world once entries false)).2
           (run_getManifestEntries (world once entries_reordered false)).2
           (config entries false) (config entries_reordered false)
           _ _ entries entries_reordered).
  - reflexivity.
  - reflexivity.
  - reflexivity.
  - reflexivity.
  - exact entries_same_value.
  - reflexivity.
Defined.

Lemma repeated_invocation_warning_witness :
  let steps := invocations getManifestEntriesFromCompilation (world once entries false)
                 [compilationOf once []; compilationOf once []] in
  exists before after,
    steps !! 1%nat = Some (before, after) /\
    Compilation.warnings (compilation before) = [] /\
    Compilation.warnings (compilation after) =
      [new_Error warningMessage;
       new_Error "vendor.js is 4 MB, and won't be precached."] /\
    existsb isWarningMessage (Compilation.warnings (compilation after)) = true.
Proof.
  pose proof (repeated_invocation_warning getManifestEntriesFromCompilation
                (world once entries false)
                [compilationOf once []; compilationOf once []] 1%nat
                _ _ eq_refl eq_refl eq_refl) as (_ & _ & Hlater).
  destruct (Hlater (Nat.lt_0_succ 0)) as [Hwarnings Hstale].
  eexists _, _. split; [reflexivity|]. split; [reflexivity|].
  split; [exact Hwarnings|exact Hstale].
Defined.

(** C7, as stated, fails: the second call of an instance, on a compilation
    whose warnings already hold the staleness warning (another instance
    of the plugin pushed it), adds none. *)
Lemma later_invocation_adds_no_warning :
  ~ (forall (getManifestEntriesFromCompilation :
               gset string -> Compilation.t -> @WebpackInjectManifestOptions unit (list Json) ->
               Completion (Z * option (list Json)) * list Thrown)
            (w : @World unit (list Json)) compilations i before after,
       alreadyCalled (this w) = false ->
       disablePrecacheManifest (Webpack.config (this w)) = false ->
       invocations getManifestEntriesFromCompilation w compilations !! i =
         Some (before, after) ->
       (0 < i)%nat ->
       List.length (List.filter isWarningMessage (Compilation.warnings (compilation after))) =
       S (List.length (List.filter isWarningMessage
                         (Compilation.warnings (compilation before))))).
Proof.
  intros Hevery.
  specialize (Hevery getManifestEntriesFromCompilation (world once entries false)
                [compilationOf once []; compilationOf once [new_Error warningMessage]]
                1%nat _ _ eq_refl eq_refl eq_refl (Nat.lt_0_succ 0)).
  vm_compute in Hevery. discriminate Hevery.
Qed.

Lemma injection_point_errors_witness :
  (run_addAssets (world never entries false)).1 =
    Threw (new_Error "Can't find self.__SW_MANIFEST in your SW source.") /\
  (run_addAssets (world twice entries false)).1 =
    Threw (new_Error "Multiple instances of self.__SW_MANIFEST were found in your SW source. Include it only once. For more info, see https://github.com/GoogleChrome/workbox/issues/2681").
Proof.
  split.
  - apply (injection_point_errors getManifestEntriesFromCompilation getSourcemapAssetName
             string JSON_parse replaceAndUpdateSourceMap upath_resolve prettyBytes
             (world never entries false) _ _ never eq_refl eq_refl).
    reflexivity.
  - apply (injection_point_errors getManifestEntriesFromCompilation getSourcemapAssetName
             string JSON_parse replaceAndUpdateSourceMap upath_resolve prettyBytes
             (world twice entries false) _ _ twice eq_refl eq_refl).
    vm_compute. lia.
Defined.

(** C1, as stated, fails: with the injection point three times in the
    service worker, the message of the error does not hold the number of
    matches. *)
Lemma ambiguous_message_omits_count :
  ~ (forall (getManifestEntriesFromCompilation :
               gset string -> Compilation.t -> @WebpackInjectManifestOptions unit (list Json) ->
               Completion (Z * option (list Json)) * list Thrown)
            (getSourcemapAssetName : Compilation.t -> string -> string -> option string)
            (JSON_parse : string -> Completion string)
            (replaceAndUpdateSourceMap :
               string -> string -> string -> string -> string -> Completion (string * string))
            (upath_resolve : string -> string) (prettyBytes : Z -> string)
            (w w1 : @World unit (list Json)) m swAssetString,
       getManifestEntries getManifestEntriesFromCompilation w (Webpack.config (this w)) =
         (Returned m, w1) ->
       Compilation.getAsset (compilation w1) (swDest (Webpack.config (this w))) =
         Some swAssetString ->
       (1 < List.length (match_scan (injectionPoint (Webpack.config (this w)))
                           swAssetString 0))%nat ->
       exists msg,
         (addAssets getManifestEntriesFromCompilation getSourcemapAssetName string
            JSON_parse replaceAndUpdateSourceMap upath_resolve prettyBytes w).1 =
           Threw (new_Error msg) /\
         includes (injectionPoint (Webpack.config (this w))) msg = true /\
         includes (pretty (List.length (match_scan (injectionPoint (Webpack.config (this w)))
                                          swAssetString 0))) msg = true).
Proof.
  intros Hevery.
  destruct (Hevery getManifestEntriesFromCompilation getSourcemapAssetName JSON_parse
              replaceAndUpdateSourceMap upath_resolve prettyBytes
              (world thrice entries false) _ _ thrice eq_refl eq_refl)
    as (msg & Hmsg & _ & Hcount).
  { vm_compute. lia. }
  vm_compute in Hmsg. injection Hmsg as <-.
  vm_compute in Hcount. discriminate Hcount.
Qed.

Lemma injection_failure_writes_nothing_witness :
  (exists error, (run_addAssets (world twice entries false)).1 = Threw error) /\
  Compilation.assets (compilation (run_addAssets (world twice entries false)).2) =
    Compilation.assets (compilation (world twice entries false)) /\
  Compilation.assets
    (compilation
       (processAssets getManifestEntriesFromCompilation getSourcemapAssetName string
          JSON_parse replaceAndUpdateSourceMap upath_resolve prettyBytes
          (world twice entries false))) =
    Compilation.assets (compilation (world twice entries false)).
Proof.
  apply (injection_failure_writes_nothing getManifestEntriesFromCompilation
           getSourcemapAssetName string JSON_parse replaceAndUpdateSourceMap
           upath_resolve prettyBytes (world twice entries false) twice).
  - reflexivity.
  - vm_compute. lia.
Defined.
End WebpackChecks.

(** ** The manifest switched off *)

Module DisabledManifest.
Import Js.

(** C8.  With [disablePrecacheManifest] set, [getManifestEntries] returns
    at once the undefined manifest of size 0 and leaves the compilation,
    its warnings included, as it is; and [getFileManifestEntries], once
    its collection of file details has completed, gets from the transform
    pipeline of the specification the empty, undefined manifest, to which
    it adds the warnings collected during the run. *)
Theorem disabled_manifest_short_circuits
    {UserCondition OtherOptions RegExp ManifestTransform : Type}
    (getManifestEntriesFromCompilation :
       gset string -> Webpack.Compilation.t ->
       @Webpack.WebpackInjectManifestOptions UserCondition OtherOptions ->
       Completion (Z * option (list StableStringify.Json)) * list Thrown)
    (w : @Webpack.World UserCondition OtherOptions)
    (config : @Webpack.WebpackInjectManifestOptions UserCondition OtherOptions)
    (getFileDetails : Build.GlobOptions -> string -> Completion Build.GlobbedFiles.t)
    (getCompositeDetails : string -> list Build.FileDetails.t -> Build.FileDetails.t)
    (getStringDetails : string -> string -> Build.FileDetails.t)
    (stages : @Build.TransformOptions RegExp ManifestTransform ->
              list Build.FileDetails.t -> Completion Build.GetManifestResult.t)
    (errors_templated_url_matches_glob errors_bad_template_urls_asset : string)
    (JSON_stringify_debugObj : string -> list string -> string)
    (options : @Build.GetManifestOptions RegExp ManifestTransform)
    (st : Build.State.t) :
  Webpack.disablePrecacheManifest config = true ->
  Build.disablePrecacheManifest options = true ->
  Build.collectFileDetails getFileDetails getCompositeDetails getStringDetails
    errors_templated_url_matches_glob errors_bad_template_urls_asset
    JSON_stringify_debugObj options = (st, None) ->
  Webpack.getManifestEntries getManifestEntriesFromCompilation w config =
    (Returned {| Webpack.size := 0; Webpack.sortedEntries := None;
                 Webpack.manifestString := Some "undefined" |}, w) /\
  (Build.getFileManifestEntries getFileDetails getCompositeDetails getStringDetails
     (Build.transformManifest_spec stages) errors_templated_url_matches_glob
     errors_bad_template_urls_asset JSON_stringify_debugObj options).1 =
    Returned (Build.GetManifestResult.mk 0 None 0 (Build.State.warnings st)).
Proof.
  intros Hwebpack Hbuild Hcollect. split.
  - by apply WebpackFacts.disabled_getManifestEntries.
  - by apply BuildFacts.disabled_manifest_keeps_warnings.
Qed.

Lemma disabled_manifest_short_circuits_witness :
  WebpackExamples.run_getManifestEntries
    (WebpackExamples.world WebpackExamples.once WebpackExamples.entries true) =
    (Returned {| Webpack.size := 0; Webpack.sortedEntries := None;
                 Webpack.manifestString := Some "undefined" |},
     WebpackExamples.world WebpackExamples.once WebpackExamples.entries true) /\
  (BuildExamples.run (BuildExamples.options ["*.html"; "{unreadable"; "**/*.js"] None true)).1 =
    Returned (Build.GetManifestResult.mk 0 None 0 ["Unable to glob files: EACCES"]).
Proof.
  apply (disabled_manifest_short_circuits
           WebpackExamples.getManifestEntriesFromCompilation
           (WebpackExamples.world WebpackExamples.once WebpackExamples.entries true)
           (WebpackExamples.config WebpackExamples.entries true)
           BuildExamples.getFileDetails BuildExamples.getCompositeDetails
           BuildExamples.getStringDetails BuildExamples.stages
           BuildExamples.errors_templated_url_matches_glob
           BuildExamples.errors_bad_template_urls_asset
           BuildExamples.JSON_stringify_debugObj
           (BuildExamples.options ["*.html"; "{unreadable"; "**/*.js"] None true)
           (Build.State.mk ["Unable to glob files: EACCES"]
              [("index.html", BuildExamples.index_html_rewritten)]
              [Build.CallGetFileDetails "*.html"; Build.CallGetFileDetails "{unreadable"])).
  - reflexivity.
  - reflexivity.
  - reflexivity.
Defined.
End DisabledManifest.


(** ** Facts about strings, continued *)

Module StringFacts.
Import Js.

Lemma string_app_cons c (s t : string) : String c s +:+ t = String c (s +:+ t).
Proof. reflexivity. Qed.

Lemma string_app_nil_l (s : string) : "" +:+ s = s.
Proof. reflexivity. Qed.

Lemma string_app_nil_r (s : string) : s +:+ "" = s.
Proof. induction s as [|c s IH]; [done|]. by rewrite string_app_cons, IH. Qed.

Lemma string_app_assoc (a b c : string) : (a +:+ b) +:+ c = a +:+ b +:+ c.
Proof. induction a as [|x a IH]; [done|]. by rewrite !string_app_cons, IH. Qed.

Lemma string_length_app (a b : string) :
  String.length (a +:+ b) = (String.length a + String.length b)%nat.
Proof. induction a as [|x a IH]; [done|]. rewrite string_app_cons. simpl. by rewrite IH. Qed.

Lemma substring_prefix (a b : string) : String.substring 0 (String.length a) (a +:+ b) = a.
Proof.
  induction a as [|x a IH]; [by destruct b|].
  rewrite string_app_cons. simpl. by rewrite IH.
Qed.

Lemma startsWith_iff p s : startsWith p s = true <-> exists t, s = p +:+ t.
Proof.
  unfold startsWith. revert s. induction p as [|c p IH]; intros s.
  - split; [by exists s|]. by destruct s.
  - destruct s as [|c' s]; simpl.
    + split; [done|]. by intros [t Ht].
    + destruct (ascii_dec c c') as [->|Hne].
      * rewrite IH. split; intros [t Ht]; exists t.
        -- by rewrite string_app_cons, Ht.
        -- rewrite string_app_cons in Ht. by injection Ht.
      * split; [done|]. intros [t Ht]. rewrite string_app_cons in Ht. by injection Ht.
Qed.
End StringFacts.

(** ** Facts about the path helpers *)

Module PathsFacts.
Import Js Paths StringFacts JsFacts.

(** *** The matcher on the expression of [isAbsolute] *)

Lemma exec_plus_class accepts k fuel : forall n s mandatory,
  (String.length s < n)%nat ->
  (fix repeat (n : nat) (s : string) (mandatory : bool) : option string :=
     match n with
     | O => None
     | S n' =>
         exec (Class accepts) fuel s (fun s1 =>
           if negb mandatory && (String.length s1 =? String.length s)%nat
           then None
           else match repeat n' s1 false with
                | Some remaining => Some remaining
                | None => k s1
                end)
     end) n s mandatory = plus_class accepts k s.
Proof.
  induction n as [|n IH]; intros s mandatory Hlt; [lia|].
  destruct s as [|c s]; [done|]. cbn [exec plus_class String.length] in *.
  destruct (accepts c); [|done].
  assert ((String.length s =? S (String.length s))%nat = false) as ->.
  { apply Nat.eqb_neq. lia. }
  rewrite andb_false_r. rewrite IH by lia. done.
Qed.

Lemma exec_Lit c0 fuel s k :
  exec (Lit c0) fuel s k =
  match s with
  | String c rest => if Ascii.eqb c0 c then k rest else None
  | EmptyString => None
  end.
Proof. by destruct s. Qed.

Lemma exec_Seq first second fuel s k :
  exec (Seq first second) fuel s k = exec first fuel s (fun s1 => exec second fuel s1 k).
Proof. reflexivity. Qed.

Lemma exec_slashes fuel s remaining :
  exec (Seq (Lit "/") (Lit "/")) fuel s Some = Some remaining <-> s = "//" +:+ remaining.
Proof.
  change ("//" +:+ remaining) with (String "/" (String "/" remaining)).
  rewrite exec_Seq, exec_Lit.
  destruct s as [|c s]; [done|].
  destruct (Ascii.eqb_spec "/" c) as [<-|Hc]; [|split; [done|by inversion 1]].
  rewrite exec_Lit. destruct s as [|c' s]; [done|].
  destruct (Ascii.eqb_spec "/" c') as [<-|Hc']; [|split; [done|by inversion 1]].
  split; by intros [= ->].
Qed.

Lemma exec_colon_slashes fuel s remaining :
  exec (Lit ":") fuel s (fun s1 => exec (Seq (Lit "/") (Lit "/")) fuel s1 Some)
    = Some remaining <-> s = "://" +:+ remaining.
Proof.
  change ("://" +:+ remaining) with (String ":" ("//" +:+ remaining)).
  rewrite exec_Lit. destruct s as [|c s]; [done|].
  destruct (Ascii.eqb_spec ":" c) as [<-|Hc]; [|split; [done|by inversion 1]].
  rewrite exec_slashes. split; [by intros ->|by intros [= ->]].
Qed.

(** One or more letters, then a colon and two slashes. *)
Lemma plus_class_scheme (k : string -> option string) :
  (forall t remaining, k t = Some remaining <-> t = "://" +:+ remaining) ->
  forall s remaining,
    plus_class isLetter k s = Some remaining <->
    exists scheme, scheme <> "" /\ all_letters scheme = true /\
                   s = scheme +:+ "://" +:+ remaining.
Proof.
  intros Hk. induction s as [|c s IH]; intros remaining.
  - split; [done|]. intros (scheme & Hne & _ & Hs). by destruct scheme.
  - simpl. destruct (isLetter c) eqn:Hc.
    + destruct (plus_class isLetter k s) as [x|].
      * split.
        -- intros [= ->]. destruct (proj1 (IH remaining) eq_refl) as (scheme & _ & Hl & ->).
           exists (String c scheme). repeat split; [done|by simpl; rewrite Hc].
        -- intros (scheme & Hne & Hletters & Hs).
           destruct scheme as [|c0 scheme]; [done|].
           rewrite string_app_cons in Hs. injection Hs as <- ->.
           simpl in Hletters. apply andb_true_iff in Hletters as [_ Hletters].
           destruct scheme as [|c1 scheme].
           ++ destruct (proj1 (IH x) eq_refl) as (scheme & Hne' & Hl & Hs).
              destruct scheme as [|c2 scheme]; [done|].
              rewrite string_app_nil_l, string_app_cons in Hs. injection Hs as <- _.
              simpl in Hl. done.
           ++ apply (proj2 (IH remaining)). by exists (String c1 scheme).
      * rewrite Hk. split.
        -- intros ->. exists (String c ""). repeat split; [done|by simpl; rewrite Hc].
        -- intros (scheme & Hne & Hletters & Hs).
           destruct scheme as [|c0 scheme]; [done|].
           rewrite string_app_cons in Hs. injection Hs as <- ->.
           simpl in Hletters. apply andb_true_iff in Hletters as [_ Hletters].
           destruct scheme as [|c1 scheme]; [done|].
           assert (None = Some remaining) as Habsurd; [|done].
           apply (proj2 (IH remaining)). by exists (String c1 scheme).
    + split; [done|]. intros (scheme & Hne & Hletters & Hs).
      destruct scheme as [|c0 scheme]; [done|].
      rewrite string_app_cons in Hs. injection Hs as <- ->.
      simpl in Hletters. by rewrite Hc in Hletters.
Qed.

(** What is left of the input after a match of the expression. *)
Lemma exec_absolutePattern url remaining :
  exec absolutePattern (S (String.length url)) url Some = Some remaining <->
  url = "//" +:+ remaining \/
  exists scheme, scheme <> "" /\ all_letters scheme = true /\
                 url = scheme +:+ "://" +:+ remaining.
Proof.
  set (fuel := S (String.length url)).
  set (k2 := fun s1 => exec (Seq (Lit "/") (Lit "/")) fuel s1 Some).
  set (k1 := fun s1 => exec (Lit ":") fuel s1 k2).
  assert (exec absolutePattern fuel url Some =
          match plus_class isLetter k1 url with
          | Some x => Some x
          | None => k2 url
          end) as ->.
  { unfold absolutePattern.
    change (exec (Seq (Opt (Seq (Plus (Class isLetter)) (Lit ":")))
                      (Seq (Lit "/") (Lit "/"))) fuel url Some)
      with (match exec (Plus (Class isLetter)) fuel url k1 with
            | Some x => Some x
            | None => k2 url
            end).
    assert (exec (Plus (Class isLetter)) fuel url k1 = plus_class isLetter k1 url) as ->;
      [|done].
    apply (exec_plus_class isLetter k1 fuel fuel url true). unfold fuel. lia. }
  pose proof (plus_class_scheme k1 (exec_colon_slashes fuel)) as Hscheme.
  destruct (plus_class isLetter k1 url) as [x|] eqn:Hplus.
  - split.
    + intros [= ->]. right. by apply Hscheme.
    + intros [->|Hs].
      * simpl in Hplus. discriminate Hplus.
      * apply Hscheme in Hs. congruence.
  - unfold k2. rewrite exec_slashes. split; [by left|].
    intros [->|Hs]; [done|]. apply Hscheme in Hs. congruence.
Qed.

Lemma matched_text (m remaining : string) :
  String.substring 0 (String.length (m +:+ remaining) - String.length remaining)
                   (m +:+ remaining) = m.
Proof.
  rewrite string_length_app.
  replace (String.length m + String.length remaining - String.length remaining)%nat
    with (String.length m) by lia.
  apply substring_prefix.
Qed.

Lemma isAbsolute_of_shape url remaining :
  url = "//" +:+ remaining \/
  (exists scheme, scheme <> "" /\ all_letters scheme = true /\
                  url = scheme +:+ "://" +:+ remaining) ->
  is_Some (isAbsolute url).
Proof.
  intros Hshape. apply exec_absolutePattern in Hshape.
  unfold isAbsolute, match_at_start. rewrite Hshape. by eexists.
Qed.

(** X1.  [isAbsolute] accepts a URL that starts with two slashes, and a URL
    that starts with one or more ASCII letters, a colon and two slashes;
    it accepts nothing else, and the match is that start of the URL. *)
Theorem isAbsolute_accepts url m :
  isAbsolute url = Some m <->
  (exists rest, m = "//" /\ url = m +:+ rest) \/
  (exists scheme rest, scheme <> "" /\ all_letters scheme = true /\
                       m = scheme +:+ "://" /\ url = m +:+ rest).
Proof.
  unfold isAbsolute, match_at_start.
  destruct (exec absolutePattern (S (String.length url)) url Some) as [remaining|] eqn:Hexec.
  - apply exec_absolutePattern in Hexec as Hshape. split.
    + intros [= <-]. destruct Hshape as [->|(scheme & Hne & Hletters & ->)].
      * left. exists remaining. by rewrite (matched_text "//" remaining).
      * right. exists scheme, remaining. rewrite <- string_app_assoc.
        by rewrite (matched_text (scheme +:+ "://") remaining).
    + intros [(rest & -> & Hurl)|(scheme & rest & Hne & Hletters & -> & Hurl)].
      * assert (exec absolutePattern (S (String.length url)) url Some = Some rest) as H.
        { apply exec_absolutePattern. by left. }
        rewrite Hexec in H. injection H as ->. subst url.
        by rewrite (matched_text "//" rest).
      * assert (exec absolutePattern (S (String.length url)) url Some = Some rest) as H.
        { apply exec_absolutePattern. right. exists scheme. by rewrite <- string_app_assoc. }
        rewrite Hexec in H. injection H as ->. subst url.
        by rewrite (matched_text (scheme +:+ "://") rest).
  - split; [done|].
    intros [(rest & -> & Hurl)|(scheme & rest & Hne & Hletters & -> & Hurl)].
    + assert (exec absolutePattern (S (String.length url)) url Some = Some rest) as H.
      { apply exec_absolutePattern. by left. }
      congruence.
    + assert (exec absolutePattern (S (String.length url)) url Some = Some rest) as H.
      { apply exec_absolutePattern. right. exists scheme. by rewrite <- string_app_assoc. }
      congruence.
Qed.

(** *** [slash] and [normalizePath] *)

Lemma includes_backslash_cons c s :
  includes (String "092"%char "") (String c s) = Ascii.eqb c "092"%char || includes (String "092"%char "") s.
Proof.
  rewrite includes_unfold.
  destruct (Ascii.eqb_spec c "092"%char) as [->|Hne].
  - change (String "092"%char s) with (String "092"%char "" +:+ s).
    by rewrite (startsWith_app (String "092"%char "") s).
  - destruct (startsWith (String "092"%char "") (String c s)) eqn:Hstarts; [|done].
    apply startsWith_iff in Hstarts as [t Ht]. rewrite string_app_cons in Ht.
    injection Ht as -> _. done.
Qed.

(** X2.  [slash] keeps the length of its argument, leaves no backslash in it,
    keeps every other code unit where it is, and does nothing to a text
    without backslash, so that applying it twice is applying it once;
    [normalizePath] is the same function. *)
Theorem slash_replaces_every_backslash s :
  String.length (slash s) = String.length s /\
  includes (String "092"%char "") (slash s) = false /\
  (forall i, String.get i (slash s) =
             (fun c => if Ascii.eqb c "092"%char then "/"%char else c) <$> String.get i s) /\
  slash (slash s) = slash s /\
  normalizePath s = slash s.
Proof.
  unfold slash, normalizePath. repeat split.
  - induction s as [|c s IH]; simpl; [done|]. by rewrite IH.
  - induction s as [|c s IH]; [done|]. cbn [replace_all_backslashes].
    rewrite includes_backslash_cons, IH.
    by destruct (Ascii.eqb_spec c "092"%char) as [->|Hne]; [|apply Ascii.eqb_neq in Hne; rewrite Hne].
  - induction s as [|c s IH]; intros i; [by destruct i|].
    destruct i as [|i]; simpl; [done|apply IH].
  - induction s as [|c s IH]; simpl; [done|]. rewrite IH. f_equal.
    by destruct (Ascii.eqb_spec c "092"%char) as [->|Hne]; [|apply Ascii.eqb_neq in Hne; rewrite Hne].
Qed.

(** *** [resolveBasePath] *)

Lemma rooted_slash base : rooted ("/" +:+ base) = true.
Proof.
  unfold rooted. assert (startsWith "/" ("/" +:+ base) = true) as ->.
  { apply startsWith_app. }
  by rewrite orb_true_r.
Qed.

(** X3.  [resolveBasePath] returns a base that is absolute or starts with a
    slash or with a dot and a slash: it returns such a base as it is and
    puts a slash before any other, so that applying it twice is applying
    it once.  A base with a scheme, and a base that starts with two
    slashes, are returned as they are. *)
Theorem resolveBasePath_roots base :
  rooted (resolveBasePath base) = true /\
  resolveBasePath base = (if rooted base then base else "/" +:+ base) /\
  resolveBasePath (resolveBasePath base) = resolveBasePath base /\
  (forall scheme rest, scheme <> "" -> all_letters scheme = true ->
     resolveBasePath (scheme +:+ "://" +:+ rest) = scheme +:+ "://" +:+ rest) /\
  (forall rest, resolveBasePath ("//" +:+ rest) = "//" +:+ rest).
Proof.
  assert (forall b, resolveBasePath b = (if rooted b then b else "/" +:+ b)) as Hshape.
  { intros b. unfold resolveBasePath, rooted.
    destruct (bool_decide _); [done|].
    by destruct (startsWith "/" b), (startsWith "./" b). }
  assert (forall b, rooted (resolveBasePath b) = true) as Hrooted.
  { intros b. rewrite Hshape. destruct (rooted b) eqn:Hb; [done|apply rooted_slash]. }
  assert (forall url, is_Some (isAbsolute url) -> resolveBasePath url = url) as Habsolute.
  { intros url Hm. unfold resolveBasePath. by rewrite bool_decide_eq_true_2. }
  split; [|split; [|split; [|split]]].
  - apply Hrooted.
  - apply Hshape.
  - rewrite (Hshape (resolveBasePath base)). by rewrite Hrooted.
  - intros scheme rest Hne Hletters.
    apply Habsolute, (isAbsolute_of_shape _ rest). right. by exists scheme.
  - intros rest. apply Habsolute, (isAbsolute_of_shape _ rest). by left.
Qed.
End PathsFacts.


(** ** More facts about [getFileManifestEntries] *)

Module BuildMoreFacts.
Import Js Build BuildWarnings FileMapFacts BuildFacts StringFacts JsFacts.

Section MoreManifestFacts.
Context {RegExp ManifestTransform : Type}.
Variable getFileDetails : GlobOptions -> string -> Completion GlobbedFiles.t.
Variable getCompositeDetails : string -> list FileDetails.t -> FileDetails.t.
Variable getStringDetails : string -> string -> FileDetails.t.
Variable transformManifest :
  @TransformOptions RegExp ManifestTransform -> list FileDetails.t -> bool ->
  Completion GetManifestResult.t.
Variable errors_templated_url_matches_glob : string.
Variable errors_bad_template_urls_asset : string.
Variable JSON_stringify_debugObj : string -> list string -> string.
Variable options : @GetManifestOptions RegExp ManifestTransform.

Local Abbreviation globLoop := (globLoop getFileDetails options).
Local Abbreviation globPhase := (globPhase getFileDetails options).
Local Abbreviation registeredDetails := (registeredDetails getFileDetails options).
Local Abbreviation expansionWarnings := (expansionWarnings getFileDetails options).
Local Abbreviation templatedWarnings := (templatedWarnings getFileDetails options).
Local Abbreviation expands := (expands getFileDetails options).
Local Abbreviation reduceDependencies :=
  (reduceDependencies getFileDetails errors_bad_template_urls_asset
     JSON_stringify_debugObj options).
Local Abbreviation templatedURL :=
  (templatedURL getFileDetails getCompositeDetails getStringDetails
     errors_templated_url_matches_glob errors_bad_template_urls_asset
     JSON_stringify_debugObj options).
Local Abbreviation templatedLoop :=
  (templatedLoop getFileDetails getCompositeDetails getStringDetails
     errors_templated_url_matches_glob errors_bad_template_urls_asset
     JSON_stringify_debugObj options).
Local Abbreviation collectFileDetails :=
  (collectFileDetails getFileDetails getCompositeDetails getStringDetails
     errors_templated_url_matches_glob errors_bad_template_urls_asset
     JSON_stringify_debugObj options).
Local Abbreviation getFileManifestEntries :=
  (getFileManifestEntries getFileDetails getCompositeDetails getStringDetails
     transformManifest errors_templated_url_matches_glob
     errors_bad_template_urls_asset JSON_stringify_debugObj options).

(** *** The order of the entries *)

Lemma reduceDependencies_allFileDetails url deps remaining previous st :
  State.allFileDetails (reduceDependencies url deps remaining previous st).1 =
  State.allFileDetails st.
Proof.
  apply (reduceDependencies_data getFileDetails errors_bad_template_urls_asset
           JSON_stringify_debugObj options).
Qed.

Lemma templatedURL_keys st url dependencies st' :
  templatedURL st url dependencies = (st', None) ->
  FileMap.keys (State.allFileDetails st') =
  FileMap.keys (State.allFileDetails st) ++ [url].
Proof.
  unfold Build.templatedURL.
  destruct (FileMap.has (State.allFileDetails st) url) eqn:Hhas; [done|].
  destruct dependencies as [patterns|revision].
  - pose proof (reduceDependencies_allFileDetails url patterns patterns [] st) as Hm.
    destruct (reduceDependencies url patterns patterns [] st) as [st1 [ds|e]];
      simpl in *; [|done].
    destruct (_ =? 0)%nat; [done|]. intros [= <-]. simpl.
    rewrite Hm. by apply keys_set_new.
  - intros [= <-]. simpl. by apply keys_set_new.
Qed.

Lemma templatedLoop_keys entries : forall st st',
  templatedLoop entries st = (st', None) ->
  FileMap.keys (State.allFileDetails st') =
  FileMap.keys (State.allFileDetails st) ++ entries.*1.
Proof.
  induction entries as [|[url dependencies] entries IH]; intros st st'; simpl.
  - intros [= <-]. by rewrite app_nil_r.
  - destruct (templatedURL st url dependencies) as [st1 [e|]] eqn:Hstep; [done|].
    intros Hrest. rewrite (IH _ _ Hrest), (templatedURL_keys _ _ _ _ Hstep).
    by rewrite <- app_assoc.
Qed.

(** X4.  When the collection completes, the templated URLs come after the
    files of the glob patterns, in the order of the keys of
    [templatedURLs]; no URL occurs twice, and the values are handed to
    the transform pipeline in this order. *)
Theorem templated_urls_come_last entries st :
  templatedURLs options = Some entries ->
  collectFileDetails = (st, None) ->
  FileMap.keys (State.allFileDetails st) =
    FileMap.keys (State.allFileDetails (globPhase State.init)) ++ entries.*1 /\
  NoDup (FileMap.keys (State.allFileDetails (globPhase State.init)) ++ entries.*1) /\
  CallTransformManifest (FileMap.values (State.allFileDetails st))
    ∈ getFileManifestEntries.2.
Proof.
  intros Hentries Hcollect.
  assert (FileMap.keys (State.allFileDetails st) =
          FileMap.keys (State.allFileDetails (globPhase State.init)) ++ entries.*1) as Hkeys.
  { apply templatedLoop_keys. revert Hcollect.
    unfold Build.collectFileDetails, Build.templatedPhase. by rewrite Hentries. }
  split; [done|]. split.
  - rewrite <- Hkeys.
    pose proof (templatedLoop_NoDup getFileDetails getCompositeDetails getStringDetails
                  errors_templated_url_matches_glob errors_bad_template_urls_asset
                  JSON_stringify_debugObj options entries (globPhase State.init)) as Hnd.
    revert Hcollect. unfold Build.collectFileDetails, Build.templatedPhase.
    rewrite Hentries. intros Hloop. rewrite Hloop in Hnd. apply Hnd.
    assert (State.allFileDetails (globPhase State.init) =
            fold_left FileMap.register
              (registeredDetails (default [] (globPatterns options))) FileMap.empty) as ->.
    { unfold Build.globPhase.
      pose proof (globLoop_allFileDetails getFileDetails options
                    (default [] (globPatterns options)) State.init) as H.
      destruct (globLoop _ State.init) as [s [e|]]; simpl in *; [|done].
      by destruct (_ && _). }
    apply NoDup_keys_fold_register. constructor.
  - pose proof (collection_handed_over getFileDetails getCompositeDetails
                  getStringDetails transformManifest errors_templated_url_matches_glob
                  errors_bad_template_urls_asset JSON_stringify_debugObj options) as H.
    rewrite Hcollect in H. by apply H.
Qed.

(** *** The dependencies of a templated URL *)

Lemma reduceDependencies_expands url deps remaining : forall previous st,
  Forall expands remaining ->
  (reduceDependencies url deps remaining previous st).2 =
  Returned (previous ++ registeredDetails remaining).
Proof.
  induction remaining as [|p remaining IH]; intros previous st Hall; simpl.
  - by rewrite app_nil_r.
  - apply Forall_cons in Hall as [[r Hr] Hall]. rewrite Hr.
    rewrite IH by done. by rewrite <- app_assoc.
Qed.

Lemma reduceDependencies_throws url deps before p after error : forall previous st,
  Forall expands before ->
  getFileDetails (globOptions options) p = Threw error ->
  (reduceDependencies url deps (before ++ p :: after) previous st).2 =
  Threw (new_Error (
    errors_bad_template_urls_asset +:+ " " +:+ "'" +:+ p +:+ "' from '" +:+
    JSON_stringify_debugObj url deps +:+ "':" +:+ String "010"%char "" +:+
    (if instanceof_Error error then Error_toString error else ""))).
Proof.
  induction before as [|q before IH]; intros previous st Hall Hp; simpl.
  - by rewrite Hp.
  - apply Forall_cons in Hall as [[r Hr] Hall]. rewrite Hr. by apply IH.
Qed.

Lemma reduceDependencies_calls url deps remaining : forall previous st,
  exists cs, State.calls (reduceDependencies url deps remaining previous st).1 =
             State.calls st ++ cs.
Proof.
  induction remaining as [|p remaining IH]; intros previous st; simpl.
  - exists []. by rewrite app_nil_r.
  - destruct (getFileDetails _ p) as [r|e]; simpl.
    + destruct (IH (previous ++ GlobbedFiles.globbedFileDetails r)
                  (if truthy (GlobbedFiles.warning r)
                   then State.push_warning (GlobbedFiles.warning r)
                          (State.log (CallGetFileDetails p) st)
                   else State.log (CallGetFileDetails p) st)) as [cs ->].
      destruct (truthy _); simpl; rewrite <- app_assoc; by eexists.
    + by eexists.
Qed.

Lemma templatedURL_calls st url dependencies :
  exists cs, State.calls (templatedURL st url dependencies).1 = State.calls st ++ cs.
Proof.
  unfold Build.templatedURL.
  destruct (FileMap.has (State.allFileDetails st) url).
  { exists []. by rewrite app_nil_r. }
  destruct dependencies as [patterns|revision]; simpl.
  - destruct (reduceDependencies_calls url patterns patterns [] st) as [cs Hcs].
    destruct (reduceDependencies url patterns patterns [] st) as [st1 [ds|e]];
      simpl in *; [|by exists cs].
    destruct (_ =? 0)%nat; simpl; [by exists cs|].
    rewrite Hcs, <- app_assoc. by eexists.
  - by eexists.
Qed.

Lemma templatedLoop_calls entries : forall st,
  exists cs, State.calls (templatedLoop entries st).1 = State.calls st ++ cs.
Proof.
  induction entries as [|[url dependencies] entries IH]; intros st; simpl.
  { exists []. by rewrite app_nil_r. }
  destruct (templatedURL_calls st url dependencies) as [cs Hcs].
  destruct (templatedURL st url dependencies) as [st1 [e|]]; simpl in *; [by exists cs|].
  destruct (IH st1) as [cs' ->]. rewrite Hcs, <- app_assoc. by eexists.
Qed.

(** The loop over the templated URLs, up to the URL it works on. *)
Lemma templatedLoop_reaches pre url dependencies post st :
  templatedLoop pre (globPhase State.init) = (st, None) ->
  templatedLoop (pre ++ (url, dependencies) :: post) (globPhase State.init) =
  match templatedURL st url dependencies with
  | (st1, Some error) => (st1, Some error)
  | (st1, None) => templatedLoop post st1
  end.
Proof.
  intros Hpre.
  rewrite (templatedLoop_app getFileDetails getCompositeDetails getStringDetails
             errors_templated_url_matches_glob errors_bad_template_urls_asset
             JSON_stringify_debugObj options), Hpre.
  reflexivity.
Qed.

(** X5.  The revision of a templated URL with patterns is made of the file
    details of all its patterns, in the order of the patterns and, for
    each, in match order; a file that two patterns match is there twice.
    The entry stays in the map whatever happens to later URLs. *)
Theorem composite_of_all_patterns pre url patterns post st :
  templatedURLs options = Some (pre ++ (url, DependencyPatterns patterns) :: post) ->
  templatedLoop pre (globPhase State.init) = (st, None) ->
  FileMap.has (State.allFileDetails st) url = false ->
  Forall expands patterns ->
  registeredDetails patterns <> [] ->
  FileMap.get (State.allFileDetails collectFileDetails.1) url =
    Some (getCompositeDetails url (registeredDetails patterns)) /\
  CallGetCompositeDetails url (registeredDetails patterns)
    ∈ State.calls collectFileDetails.1.
Proof.
  intros Hentries Hpre Hhas Hall Hsome.
  unfold Build.collectFileDetails, Build.templatedPhase. rewrite Hentries.
  rewrite (templatedLoop_reaches pre url _ post st Hpre).
  unfold Build.templatedURL. rewrite Hhas.
  pose proof (reduceDependencies_expands url patterns patterns [] st Hall) as Hred.
  pose proof (reduceDependencies_allFileDetails url patterns patterns [] st) as Hmap.
  destruct (reduceDependencies url patterns patterns [] st) as [st1 c].
  simpl in Hred, Hmap. subst c. simpl.
  destruct (registeredDetails patterns) as [|d ds] eqn:Hds; [done|]. simpl.
  set (st2 := State.set_details url (getCompositeDetails url (d :: ds))
                (State.log (CallGetCompositeDetails url (d :: ds)) st1)).
  split.
  - apply (templatedLoop_get getFileDetails getCompositeDetails getStringDetails
             errors_templated_url_matches_glob errors_bad_template_urls_asset
             JSON_stringify_debugObj options).
    unfold st2. simpl. apply get_set_eq.
  - destruct (templatedLoop_calls post st2) as [cs ->].
    unfold st2. simpl. set_solver.
Qed.

(** X6.  A templated URL with a revision string gets the details that
    [getStringDetails] makes of the URL and the string; no pattern is
    expanded for it, and the entry stays in the map whatever happens
    to later URLs. *)
Theorem templated_string_is_registered pre url revision post st :
  templatedURLs options = Some (pre ++ (url, DependencyString revision) :: post) ->
  templatedLoop pre (globPhase State.init) = (st, None) ->
  FileMap.has (State.allFileDetails st) url = false ->
  FileMap.get (State.allFileDetails collectFileDetails.1) url =
    Some (getStringDetails url revision) /\
  (exists later,
     State.calls collectFileDetails.1 =
     State.calls st ++ CallGetStringDetails url revision :: later) /\
  (exists later,
     State.warnings collectFileDetails.1 = State.warnings st ++ later).
Proof.
  intros Hentries Hpre Hhas.
  unfold Build.collectFileDetails, Build.templatedPhase. rewrite Hentries.
  rewrite (templatedLoop_reaches pre url _ post st Hpre).
  unfold Build.templatedURL. rewrite Hhas.
  set (st2 := State.set_details url (getStringDetails url revision)
                (State.log (CallGetStringDetails url revision) st)).
  split; [|split].
  - apply (templatedLoop_get getFileDetails getCompositeDetails getStringDetails
             errors_templated_url_matches_glob errors_bad_template_urls_asset
             JSON_stringify_debugObj options).
    unfold st2. simpl. apply get_set_eq.
  - destruct (templatedLoop_calls post st2) as [cs ->].
    unfold st2. simpl. rewrite <- app_assoc. by eexists.
  - destruct (templatedLoop_warnings getFileDetails getCompositeDetails
                getStringDetails errors_templated_url_matches_glob
                errors_bad_template_urls_asset JSON_stringify_debugObj options
                post st2) as [ws ->].
    unfold st2. simpl. by eexists.
Qed.

(** X7.  When the expansion of a pattern of a templated URL throws, the call
    aborts with an [Error] whose message names the pattern, the URL with
    its patterns, and, when the thrown value is an [Error], its text;
    the transform pipeline is never entered. *)
Theorem templated_pattern_failure_is_fatal pre url before p after post st error :
  templatedURLs options =
    Some (pre ++ (url, DependencyPatterns (before ++ p :: after)) :: post) ->
  templatedLoop pre (globPhase State.init) = (st, None) ->
  FileMap.has (State.allFileDetails st) url = false ->
  Forall expands before ->
  getFileDetails (globOptions options) p = Threw error ->
  exists msg,
    getFileManifestEntries.1 = Threw (new_Error msg) /\
    Forall (fun c => isTransformCall c = false) getFileManifestEntries.2 /\
    startsWith errors_bad_template_urls_asset msg = true /\
    includes p msg = true /\
    includes (JSON_stringify_debugObj url (before ++ p :: after)) msg = true /\
    (instanceof_Error error = true -> includes (Error_toString error) msg = true).
Proof.
  intros Hentries Hpre Hhas Hall Hp.
  set (debug := JSON_stringify_debugObj url (before ++ p :: after)).
  set (cause := if instanceof_Error error then Error_toString error else "").
  exists (errors_bad_template_urls_asset +:+ " " +:+ "'" +:+ p +:+ "' from '" +:+
          debug +:+ "':" +:+ String "010"%char "" +:+ cause).
  split; [|split]; [| |repeat split].
  - apply (collection_error_aborts getFileDetails getCompositeDetails getStringDetails
             transformManifest errors_templated_url_matches_glob
             errors_bad_template_urls_asset JSON_stringify_debugObj options).
    unfold Build.collectFileDetails, Build.templatedPhase. rewrite Hentries.
    rewrite (templatedLoop_reaches pre url _ post st Hpre).
    unfold Build.templatedURL. rewrite Hhas.
    pose proof (reduceDependencies_throws url (before ++ p :: after) before p after
                  error [] st Hall Hp) as Hred.
    destruct (reduceDependencies url _ _ [] st) as [st1 c]. simpl in Hred. by subst c.
  - assert (is_Some collectFileDetails.2) as [e He].
    { unfold Build.collectFileDetails, Build.templatedPhase. rewrite Hentries.
      rewrite (templatedLoop_reaches pre url _ post st Hpre).
      unfold Build.templatedURL. rewrite Hhas.
      pose proof (reduceDependencies_throws url (before ++ p :: after) before p after
                    error [] st Hall Hp) as Hred.
      destruct (reduceDependencies url _ _ [] st) as [st1 c]. simpl in Hred. subst c.
      by eexists. }
    by apply (collection_error_aborts getFileDetails getCompositeDetails
                getStringDetails transformManifest errors_templated_url_matches_glob
                errors_bad_template_urls_asset JSON_stringify_debugObj options e).
  - apply startsWith_app.
  - rewrite <- !(string_app_assoc errors_bad_template_urls_asset).
    rewrite <- (string_app_assoc _ "'"). apply includes_app.
  - rewrite <- !(string_app_assoc _ _ (debug +:+ _)).
    apply includes_app.
  - intros Herror. unfold cause. rewrite Herror.
    rewrite <- (string_app_nil_r (Error_toString error)) at 2.
    rewrite <- !(string_app_assoc _ _ (Error_toString error +:+ "")).
    apply includes_app.
Qed.

(** *** The warnings *)

Lemma globLoop_warnings patterns : forall st,
  State.warnings (globLoop patterns st).1 =
  State.warnings st ++ expansionWarnings patterns.
Proof.
  induction patterns as [|p patterns IH]; intros st; simpl.
  - by rewrite app_nil_r.
  - destruct (getFileDetails _ p) as [r|e]; simpl.
    + rewrite IH, (fold_registerDetails). simpl.
      destruct (truthy _); simpl; [by rewrite <- app_assoc|done].
    + by rewrite app_nil_r.
Qed.

Lemma globLoop_completes patterns : forall st,
  Forall expands patterns -> (globLoop patterns st).2 = None.
Proof.
  induction patterns as [|p patterns IH]; intros st Hall; simpl; [done|].
  apply Forall_cons in Hall as [[r Hr] Hall]. rewrite Hr. by apply IH.
Qed.

Lemma reduceDependencies_warnings url deps remaining : forall previous st,
  State.warnings (reduceDependencies url deps remaining previous st).1 =
  State.warnings st ++ expansionWarnings remaining.
Proof.
  induction remaining as [|p remaining IH]; intros previous st; simpl.
  - by rewrite app_nil_r.
  - destruct (getFileDetails _ p) as [r|e]; simpl.
    + rewrite IH. destruct (truthy _); simpl; [by rewrite <- app_assoc|done].
    + by rewrite app_nil_r.
Qed.

Lemma templatedURL_completed_warnings st url dependencies st' :
  templatedURL st url dependencies = (st', None) ->
  State.warnings st' = State.warnings st ++ templatedWarnings [(url, dependencies)].
Proof.
  unfold Build.templatedURL, BuildWarnings.templatedWarnings. simpl.
  destruct (FileMap.has (State.allFileDetails st) url); [done|].
  destruct dependencies as [patterns|revision]; simpl.
  - pose proof (reduceDependencies_warnings url patterns patterns [] st) as Hw.
    destruct (reduceDependencies url patterns patterns [] st) as [st1 [ds|e]];
      simpl in *; [|done].
    destruct (_ =? 0)%nat; [done|]. intros [= <-]. simpl.
    by rewrite Hw, !app_nil_r.
  - intros [= <-]. simpl. by rewrite app_nil_r.
Qed.

Lemma templatedLoop_completed_warnings entries : forall st st',
  templatedLoop entries st = (st', None) ->
  State.warnings st' = State.warnings st ++ templatedWarnings entries.
Proof.
  induction entries as [|[url dependencies] entries IH]; intros st st'; simpl.
  - intros [= <-]. by rewrite app_nil_r.
  - destruct (templatedURL st url dependencies) as [st1 [e|]] eqn:Hstep; [done|].
    intros Hrest. rewrite (IH _ _ Hrest), (templatedURL_completed_warnings _ _ _ _ Hstep).
    unfold BuildWarnings.templatedWarnings. simpl.
    by rewrite app_nil_r, <- app_assoc.
Qed.

(** X8.  A returned result carries the warnings of the transform pipeline
    first, then those of the glob phase, then those of the patterns of
    the templated URLs, each group in the order of the patterns; none
    is dropped or repeated.  When every glob pattern expands, the
    warnings of the glob phase are the non-empty warnings of the
    expansions, in pattern order. *)
Theorem returned_warnings_in_order r :
  getFileManifestEntries.1 = Returned r ->
  exists t,
    transformManifest (transformOptions options)
      (FileMap.values (State.allFileDetails collectFileDetails.1))
      (disablePrecacheManifest options) = Returned t /\
    GetManifestResult.warnings r =
      GetManifestResult.warnings t ++
      State.warnings (globPhase State.init) ++
      templatedWarnings (default [] (templatedURLs options)) /\
    (Forall expands (default [] (globPatterns options)) ->
     State.warnings (globPhase State.init) =
     expansionWarnings (default [] (globPatterns options))) /\
    GetManifestResult.count r = GetManifestResult.count t /\
    GetManifestResult.size r = GetManifestResult.size t /\
    GetManifestResult.manifestEntries r = GetManifestResult.manifestEntries t.
Proof.
  unfold Build.getFileManifestEntries.
  assert (forall st, collectFileDetails = (st, None) ->
          State.warnings st = State.warnings (globPhase State.init) ++
            templatedWarnings (default [] (templatedURLs options))) as Hw.
  { unfold Build.collectFileDetails, Build.templatedPhase.
    destruct (templatedURLs options) as [entries|]; simpl.
    - intros st. apply templatedLoop_completed_warnings.
    - intros st [= <-]. by rewrite app_nil_r. }
  destruct collectFileDetails as [st [e|]]; simpl; [done|].
  specialize (Hw st eq_refl).
  destruct (transformManifest _ _ _) as [t|e]; simpl; [|done].
  intros [= <-]. exists t. simpl. rewrite Hw.
  split; [done|]. split; [done|]. split; [|done].
  intros Hall. unfold Build.globPhase.
  pose proof (globLoop_warnings (default [] (globPatterns options)) State.init) as Hg.
  pose proof (globLoop_completes (default [] (globPatterns options)) State.init Hall) as Hc.
  destruct (globLoop _ State.init) as [s o]. simpl in *. by subst o.
Qed.

(** *** One entry per file *)

Lemma register_sound m d k d' :
  (k, d') ∈ FileMap.register m d -> (k, d') ∈ m \/ (k = FileDetails.file d /\ d' = d).
Proof.
  unfold FileMap.register.
  destruct (FileMap.has m (FileDetails.file d)) eqn:Hhas; simpl; [by left|].
  revert Hhas. unfold FileMap.has.
  induction m as [|kv m IH]; simpl.
  - intros _ [= -> ->]%list_elem_of_singleton. by right.
  - destruct (String.eqb kv.1 (FileDetails.file d)); simpl; [done|].
    intros Hhas [->|Hin]%elem_of_cons.
    + left. apply list_elem_of_here.
    + destruct (IH Hhas Hin) as [?|?]; [left; by apply list_elem_of_further|by right].
Qed.

Lemma fold_register_sound ds : forall m k d,
  (k, d) ∈ fold_left FileMap.register ds m ->
  (k, d) ∈ m \/ (k = FileDetails.file d /\ d ∈ ds).
Proof.
  induction ds as [|d0 ds IH]; intros m k d; simpl; [by left|].
  intros [Hin|[-> Hin]]%IH.
  - apply register_sound in Hin as [?|[-> ->]]; [by left|].
    right. split; [done|apply list_elem_of_here].
  - right. split; [done|by apply list_elem_of_further].
Qed.

Lemma keys_register m d :
  FileMap.keys (FileMap.register m d) =
  FileMap.keys m ++
  (if FileMap.has m (FileDetails.file d) then [] else [FileDetails.file d]).
Proof.
  unfold FileMap.register.
  destruct (FileMap.has m (FileDetails.file d)) eqn:Hhas; simpl.
  - by rewrite app_nil_r.
  - by apply keys_set_new.
Qed.

(** The keys after a run of registrations: the files in the order of
    their first occurrence, that is, the list without its later
    repetitions. *)
Lemma keys_fold_register ds :
  FileMap.keys (fold_left FileMap.register ds FileMap.empty) =
  reverse (remove_dups (reverse (FileDetails.file <$> ds))).
Proof.
  induction ds as [|d ds IH] using rev_ind; [done|].
  rewrite fold_left_app. simpl. rewrite keys_register, IH.
  rewrite fmap_app. simpl. rewrite reverse_snoc. cbn [remove_dups].
  assert (FileMap.has (fold_left FileMap.register ds FileMap.empty)
            (FileDetails.file d) = true <->
          FileDetails.file d ∈ reverse (FileDetails.file <$> ds)) as Hhas.
  { rewrite has_keys, IH, elem_of_reverse, elem_of_remove_dups. done. }
  destruct (decide_rel elem_of (FileDetails.file d)
              (reverse (FileDetails.file <$> ds))) as [Hin|Hnot].
  - rewrite (proj2 Hhas Hin). by rewrite app_nil_r.
  - destruct (FileMap.has _ (FileDetails.file d)); [by destruct Hnot; apply Hhas|].
    by rewrite reverse_cons.
Qed.

Lemma globPhase_allFileDetails :
  State.allFileDetails (globPhase State.init) =
  fold_left FileMap.register
    (registeredDetails (default [] (globPatterns options))) FileMap.empty.
Proof.
  unfold Build.globPhase.
  pose proof (globLoop_allFileDetails getFileDetails options
                (default [] (globPatterns options)) State.init) as H.
  destruct (globLoop _ State.init) as [s [e|]]; simpl in *; [|done].
  by destruct (_ && _).
Qed.

(** X9.  After the glob phase the map holds one entry for each file that
    the patterns matched and nothing else: every entry is keyed by the
    file of its details, which some pattern returned; every file that
    a pattern returned has an entry; no file has two; and the entries
    are in the order in which the files were first met: the files of
    the entries are the list of the files returned, without its later
    repetitions. *)
Theorem one_entry_per_matched_file :
  (forall url details,
     (url, details) ∈ State.allFileDetails (globPhase State.init) ->
     FileDetails.file details = url /\
     details ∈ registeredDetails (default [] (globPatterns options))) /\
  (forall details,
     details ∈ registeredDetails (default [] (globPatterns options)) ->
     FileMap.has (State.allFileDetails (globPhase State.init))
       (FileDetails.file details) = true) /\
  NoDup (FileDetails.file <$>
         FileMap.values (State.allFileDetails (globPhase State.init))) /\
  FileDetails.file <$> FileMap.values (State.allFileDetails (globPhase State.init)) =
  reverse (remove_dups (reverse
    (FileDetails.file <$> registeredDetails (default [] (globPatterns options))))).
Proof.
  rewrite globPhase_allFileDetails.
  set (matched := registeredDetails (default [] (globPatterns options))).
  assert (forall url details,
            (url, details) ∈ fold_left FileMap.register matched FileMap.empty ->
            FileDetails.file details = url /\ details ∈ matched) as Hsound.
  { intros url details [Hin|[-> Hin]]%fold_register_sound; [inversion Hin|done]. }
  assert (FileDetails.file <$> FileMap.values (fold_left FileMap.register matched FileMap.empty)
          = FileMap.keys (fold_left FileMap.register matched FileMap.empty)) as Hkeys.
  { unfold FileMap.values, FileMap.keys.
    induction (fold_left FileMap.register matched FileMap.empty) as [|[k d] m IH];
      [done|].
    simpl. f_equal.
    - apply (Hsound k d), list_elem_of_here.
    - apply IH. intros url details Hin. apply Hsound. by apply list_elem_of_further. }
  split; [exact Hsound|]. split; [|split].
  - intros details Hin. rewrite has_get, get_fold_register. simpl.
    apply bool_decide_eq_true.
    destruct (List.find _ matched) as [d|] eqn:Hfind; [by eexists|].
    apply list_elem_of_In in Hin.
    pose proof (find_none _ _ Hfind details Hin) as Hne. simpl in Hne.
    by rewrite String.eqb_refl in Hne.
  - rewrite Hkeys. apply NoDup_keys_fold_register. constructor.
  - rewrite Hkeys. apply keys_fold_register.
Qed.
End MoreManifestFacts.
End BuildMoreFacts.

(** ** More of the build on the example project *)

Module BuildMoreChecks.
Import Js Build BuildWarnings BuildExamples BuildMoreFacts.

Lemma templated_urls_come_last_witness :
  let o := options ["**/*"]
             (Some [("/shell", DependencyPatterns ["**/*.js"]);
                    ("/about", DependencyString "v1")]) false in
  let st := (collectFileDetails getFileDetails getCompositeDetails getStringDetails
               errors_templated_url_matches_glob errors_bad_template_urls_asset
               JSON_stringify_debugObj o).1 in
  FileMap.keys (State.allFileDetails st) =
    FileMap.keys (State.allFileDetails (globPhase getFileDetails o State.init)) ++
    [("/shell", DependencyPatterns ["**/*.js"]); ("/about", DependencyString "v1")].*1 /\
  NoDup (FileMap.keys (State.allFileDetails (globPhase getFileDetails o State.init)) ++
         [("/shell", DependencyPatterns ["**/*.js"]);
          ("/about", DependencyString "v1")].*1) /\
  CallTransformManifest (FileMap.values (State.allFileDetails st)) ∈ (run o).2.
Proof.
  apply (templated_urls_come_last getFileDetails getCompositeDetails getStringDetails
           (transformManifest_spec stages) errors_templated_url_matches_glob
           errors_bad_template_urls_asset JSON_stringify_debugObj
           (options ["**/*"]
              (Some [("/shell", DependencyPatterns ["**/*.js"]);
                     ("/about", DependencyString "v1")]) false)).
  - reflexivity.
  - reflexivity.
Defined.

Lemma composite_of_all_patterns_witness :
  let o := options ["**/*"]
             (Some [("/about", DependencyString "v1");
                    ("/shell", DependencyPatterns ["*.html"; "**/*.js"; "**/*"])]) false in
  let st := (collectFileDetails getFileDetails getCompositeDetails getStringDetails
               errors_templated_url_matches_glob errors_bad_template_urls_asset
               JSON_stringify_debugObj o).1 in
  registeredDetails getFileDetails o ["*.html"; "**/*.js"; "**/*"] =
    [index_html_rewritten; app_js; index_html; app_js] /\
  FileMap.get (State.allFileDetails st) "/shell" =
    Some (getCompositeDetails "/shell"
            (registeredDetails getFileDetails o ["*.html"; "**/*.js"; "**/*"])) /\
  CallGetCompositeDetails "/shell"
    (registeredDetails getFileDetails o ["*.html"; "**/*.js"; "**/*"]) ∈ State.calls st.
Proof.
  split; [reflexivity|].
  apply (composite_of_all_patterns getFileDetails getCompositeDetails getStringDetails
           errors_templated_url_matches_glob errors_bad_template_urls_asset
           JSON_stringify_debugObj
           (options ["**/*"]
              (Some [("/about", DependencyString "v1");
                     ("/shell", DependencyPatterns ["*.html"; "**/*.js"; "**/*"])]) false)
           [("/about", DependencyString "v1")] "/shell" ["*.html"; "**/*.js"; "**/*"] []
           (templatedLoop getFileDetails getCompositeDetails getStringDetails
              errors_templated_url_matches_glob errors_bad_template_urls_asset
              JSON_stringify_debugObj
              (options ["**/*"] None false)
              [("/about", DependencyString "v1")]
              (globPhase getFileDetails (options ["**/*"] None false) State.init)).1).
  - reflexivity.
  - reflexivity.
  - reflexivity.
  - repeat (apply List.Forall_cons; [eexists; reflexivity|]). apply List.Forall_nil.
  - discriminate.
Defined.

Lemma templated_string_is_registered_witness :
  let o := options ["**/*"]
             (Some [("/about", DependencyString "v1");
                    ("/shell", DependencyPatterns ["**/*.js"])]) false in
  let st := (collectFileDetails getFileDetails getCompositeDetails getStringDetails
               errors_templated_url_matches_glob errors_bad_template_urls_asset
               JSON_stringify_debugObj o).1 in
  FileMap.get (State.allFileDetails st) "/about" = Some (getStringDetails "/about" "v1") /\
  (exists later,
     State.calls st =
     State.calls (globPhase getFileDetails o State.init) ++
     CallGetStringDetails "/about" "v1" :: later) /\
  (exists later,
     State.warnings st =
     State.warnings (globPhase getFileDetails o State.init) ++ later).
Proof.
  apply (templated_string_is_registered getFileDetails getCompositeDetails
           getStringDetails errors_templated_url_matches_glob
           errors_bad_template_urls_asset JSON_stringify_debugObj
           (options ["**/*"]
              (Some [("/about", DependencyString "v1");
                     ("/shell", DependencyPatterns ["**/*.js"])]) false)
           [] "/about" "v1" [("/shell", DependencyPatterns ["**/*.js"])]).
  - reflexivity.
  - reflexivity.
  - reflexivity.
Defined.

Lemma templated_pattern_failure_is_fatal_witness :
  let o := options ["**/*"]
             (Some [("/shell", DependencyPatterns ["*.html"; "{unreadable"; "**/*.js"])])
             false in
  exists msg,
    (run o).1 = Threw (new_Error msg) /\
    Forall (fun c => isTransformCall c = false) (run o).2 /\
    startsWith errors_bad_template_urls_asset msg = true /\
    includes "{unreadable" msg = true /\
    includes (JSON_stringify_debugObj "/shell" (["*.html"] ++ "{unreadable" :: ["**/*.js"]))
      msg = true /\
    (instanceof_Error (new_Error "Unable to glob files: EACCES") = true ->
     includes (Error_toString (new_Error "Unable to glob files: EACCES")) msg = true).
Proof.
  apply (templated_pattern_failure_is_fatal getFileDetails getCompositeDetails
           getStringDetails (transformManifest_spec stages)
           errors_templated_url_matches_glob errors_bad_template_urls_asset
           JSON_stringify_debugObj
           (options ["**/*"]
              (Some [("/shell",
                      DependencyPatterns ["*.html"; "{unreadable"; "**/*.js"])]) false)
           [] "/shell" ["*.html"] "{unreadable" ["**/*.js"] []
           (globPhase getFileDetails (options ["**/*"] None false) State.init)).
  - reflexivity.
  - reflexivity.
  - reflexivity.
  - apply List.Forall_cons; [eexists; reflexivity|]. apply List.Forall_nil.
  - reflexivity.
Defined.

Lemma returned_warnings_in_order_witness :
  let o := options ["docs/*.md"; "**/*"]
             (Some [("/shell", DependencyPatterns ["partials/*.html"; "*.html"])]) false in
  exists r,
    (run o).1 = Returned r /\
    GetManifestResult.warnings r =
      ["No files matched docs/*.md"; "No files matched partials/*.html"] /\
    exists t,
      transformManifest_spec stages (transformOptions o)
        (FileMap.values
           (State.allFileDetails
              (collectFileDetails getFileDetails getCompositeDetails getStringDetails
                 errors_templated_url_matches_glob errors_bad_template_urls_asset
                 JSON_stringify_debugObj o).1))
        (disablePrecacheManifest o) = Returned t /\
      GetManifestResult.warnings r =
        GetManifestResult.warnings t ++
        State.warnings (globPhase getFileDetails o State.init) ++
        templatedWarnings getFileDetails o (default [] (templatedURLs o)) /\
      (Forall (expands getFileDetails o) (default [] (globPatterns o)) ->
       State.warnings (globPhase getFileDetails o State.init) =
       expansionWarnings getFileDetails o (default [] (globPatterns o))) /\
      GetManifestResult.count r = GetManifestResult.count t /\
      GetManifestResult.size r = GetManifestResult.size t /\
      GetManifestResult.manifestEntries r = GetManifestResult.manifestEntries t.
Proof.
  eexists. split; [reflexivity|]. split; [reflexivity|].
  apply (returned_warnings_in_order getFileDetails getCompositeDetails getStringDetails
           (transformManifest_spec stages) errors_templated_url_matches_glob
           errors_bad_template_urls_asset JSON_stringify_debugObj
           (options ["docs/*.md"; "**/*"]
              (Some [("/shell", DependencyPatterns ["partials/*.html"; "*.html"])])
              false)).
  reflexivity.
Defined.
End BuildMoreChecks.

(** ** Facts about matching and replacing *)

Module ReplaceFacts.
Import Js StringFacts JsFacts.

Lemma rev_app_app (s acc : string) :
  String.rev_app s acc = String.rev_app s "" +:+ acc.
Proof.
  revert acc. induction s as [|c s IH]; intros acc; simpl; [done|].
  rewrite (IH (String c acc)), (IH (String c "")).
  by rewrite string_app_assoc.
Qed.

Lemma rev_cons c (s : string) : String.rev (String c s) = String.rev s +:+ String c "".
Proof. unfold String.rev. simpl. apply rev_app_app. Qed.

Lemma drop_string_app (p a : string) : drop_string (String.length p) (p +:+ a) = a.
Proof. induction p as [|c p IH]; [by destruct a|]. exact IH. Qed.

Lemma replace_from_unfold before pattern replacement s :
  replace_from before pattern replacement s =
  if startsWith pattern s then
    String.rev before +:+
    GetSubstitution pattern (String.rev before)
      (drop_string (String.length pattern) s) replacement +:+
    drop_string (String.length pattern) s
  else
    match s with
    | EmptyString => String.rev before
    | String c t => replace_from (String c before) pattern replacement t
    end.
Proof. by destruct s. Qed.

(** A global match that finds something finds an occurrence. *)
Lemma match_scan_includes token : forall text skip,
  match_scan token text skip <> [] -> includes token text = true.
Proof.
  induction text as [|c text IH]; intros skip; rewrite includes_unfold;
    cbn [match_scan].
  - destruct skip; [|done]. destruct (startsWith token ""); [done|]. by intros [].
  - destruct skip as [|k].
    + destruct (startsWith token (String c text)); [done|].
      intros H. simpl. by apply (IH 0%nat).
    + intros H. rewrite (IH k H). apply orb_true_r.
Qed.

(** [replace] works on the first occurrence of the pattern. *)
Lemma replace_from_first pattern : forall s,
  includes pattern s = true ->
  exists before after,
    s = before +:+ pattern +:+ after /\
    (forall before' after', s = before' +:+ pattern +:+ after' ->
       (String.length before <= String.length before')%nat) /\
    forall acc replacement,
      replace_from acc pattern replacement s =
      String.rev acc +:+ before +:+
      GetSubstitution pattern (String.rev acc +:+ before) after replacement +:+ after.
Proof.
  induction s as [|c s IH]; intros Hin; rewrite includes_unfold in Hin.
  - rewrite orb_false_r in Hin.
    pose proof (proj1 (startsWith_iff _ _) Hin) as [t Ht].
    destruct pattern; [|done]. destruct t; [|done].
    exists "", "". split; [done|]. split; [intros; simpl; lia|].
    intros acc replacement. rewrite replace_from_unfold, Hin. simpl.
    by rewrite !string_app_nil_r.
  - destruct (startsWith pattern (String c s)) eqn:Hstart.
    + pose proof (proj1 (startsWith_iff _ _) Hstart) as [after Hafter].
      exists "", after. split; [done|]. split; [intros; simpl; lia|].
      intros acc replacement. rewrite replace_from_unfold, Hstart, Hafter.
      by rewrite drop_string_app, string_app_nil_r.
    + simpl in Hin. destruct (IH Hin) as (before & after & Hs & Hmin & Hrep).
      exists (String c before), after. split; [by rewrite Hs|]. split.
      * intros before' after' Hdec. destruct before' as [|c' before'].
        -- assert (startsWith pattern (String c s) = true) as Hyes
             by (apply startsWith_iff; by exists after').
           congruence.
        -- rewrite string_app_cons in Hdec. injection Hdec as -> Hdec.
           simpl. specialize (Hmin _ _ Hdec). lia.
      * intros acc replacement. rewrite replace_from_unfold, Hstart, Hrep, rev_cons.
        by rewrite !string_app_assoc.
Qed.

(** A text in which the global match finds the token once is cut at the
    first occurrence of the token, and [replace] works there. *)
Lemma replace_at_the_match token text :
  List.length (match_scan token text 0) = 1%nat ->
  exists before after,
    text = before +:+ token +:+ after /\
    (forall before' after', text = before' +:+ token +:+ after' ->
       (String.length before <= String.length before')%nat) /\
    forall replacement,
      replace text token replacement =
      before +:+ GetSubstitution token before after replacement +:+ after.
Proof.
  intros Hcount.
  assert (includes token text = true) as Hin.
  { apply (match_scan_includes _ _ 0%nat). intros Hnil. by rewrite Hnil in Hcount. }
  destruct (replace_from_first _ _ Hin) as (before & after & Hdec & Hmin & Hrep).
  exists before, after. split; [done|]. split; [done|].
  intros replacement. unfold replace. by rewrite Hrep.
Qed.

(** In a replacement text without dollar sign nothing is expanded. *)
Lemma GetSubstitution_plain matched before after : forall replacement,
  includes "$" replacement = false ->
  GetSubstitution matched before after replacement = replacement.
Proof.
  induction replacement as [|c r IH]; [done|].
  rewrite includes_unfold. intros [Hhere Hrest]%orb_false_iff.
  specialize (IH Hrest).
  destruct (Ascii.eqb_spec c "$") as [->|Hne].
  { by destruct r. }
  destruct c as [[] [] [] [] [] [] [] []]; try done; simpl; by rewrite IH.
Qed.

Lemma replace_all_double_quotes_none : forall s,
  includes (String "034"%char "") (replace_all_double_quotes s) = false.
Proof.
  induction s as [|c s IH]; [done|].
  simpl replace_all_double_quotes. rewrite includes_unfold, IH, orb_false_r.
  destruct (Ascii.eqb_spec c "034"%char) as [->|Hne]; [done|].
  unfold startsWith. cbn [String.prefix].
  destruct (ascii_dec "034" c) as [<-|]; [by destruct Hne|done].
Qed.

Lemma replace_all_double_quotes_length : forall s,
  String.length (replace_all_double_quotes s) = String.length s.
Proof. induction s as [|c s IH]; [done|]. simpl. by rewrite IH. Qed.
End ReplaceFacts.

(** ** More facts about [InjectManifest] *)

Module WebpackMoreFacts.
Import Js StableStringify Webpack Frame StringFacts JsFacts ReplaceFacts WebpackFacts.

Section MorePluginFacts.
Context {UserCondition OtherOptions : Type}.
Variable getManifestEntriesFromCompilation :
  gset string -> Compilation.t ->
  @WebpackInjectManifestOptions UserCondition OtherOptions ->
  Completion (Z * option (list Json)) * list Thrown.
Variable getSourcemapAssetName : Compilation.t -> string -> string -> option string.
Variable SourceMap : Type.
Variable JSON_parse : string -> Completion SourceMap.
Variable replaceAndUpdateSourceMap :
  string -> SourceMap -> string -> string -> string -> Completion (string * string).
Variable upath_resolve : string -> string.
Variable prettyBytes : Z -> string.

Local Abbreviation getManifestEntries :=
  (getManifestEntries getManifestEntriesFromCompilation).
Local Abbreviation inject :=
  (inject getSourcemapAssetName SourceMap JSON_parse replaceAndUpdateSourceMap).
Local Abbreviation injectWithSourcemap :=
  (injectWithSourcemap SourceMap JSON_parse replaceAndUpdateSourceMap).
Local Abbreviation addAssets :=
  (addAssets getManifestEntriesFromCompilation getSourcemapAssetName SourceMap
     JSON_parse replaceAndUpdateSourceMap upath_resolve prettyBytes).
Local Abbreviation processAssets :=
  (processAssets getManifestEntriesFromCompilation getSourcemapAssetName SourceMap
     JSON_parse replaceAndUpdateSourceMap upath_resolve prettyBytes).
Local Abbreviation World := (@World UserCondition OtherOptions).
Local Abbreviation Options := (@WebpackInjectManifestOptions UserCondition OtherOptions).

(** *** What each step leaves alone *)

Lemma same_but_assets_refl c : same_but_assets c c.
Proof. by repeat split. Qed.

Lemma same_but_assets_trans c1 c2 c3 :
  same_but_assets c1 c2 -> same_but_assets c2 c3 -> same_but_assets c1 c3.
Proof.
  unfold same_but_assets. intros (?&?&?&?&?&?&?) (?&?&?&?&?&?&?).
  repeat split; congruence.
Qed.

Lemma updateAsset_returned name source c c' :
  Compilation.updateAsset name source c = Returned c' ->
  is_Some (Compilation.assets c !! name) /\
  Compilation.assets c' = <[name := source]> (Compilation.assets c) /\
  same_but_assets c c'.
Proof.
  unfold Compilation.updateAsset.
  destruct (Compilation.assets c !! name) eqn:Hthere; [|done].
  intros [= <-]. split; [by eexists|]. split; [done|]. by repeat split.
Qed.

Lemma getManifestEntries_frame (w : World) (cfg : Options) :
  Compilation.assets (compilation (getManifestEntries w cfg).2) =
    Compilation.assets (compilation w) /\
  Compilation.errors (compilation (getManifestEntries w cfg).2) =
    Compilation.errors (compilation w) /\
  Compilation.fileDependencies (compilation (getManifestEntries w cfg).2) =
    Compilation.fileDependencies (compilation w) /\
  Compilation.hasLogger (compilation (getManifestEntries w cfg).2) =
    Compilation.hasLogger (compilation w) /\
  Compilation.logged (compilation (getManifestEntries w cfg).2) =
    Compilation.logged (compilation w) /\
  _generatedAssetNames (getManifestEntries w cfg).2 = _generatedAssetNames w /\
  config (this (getManifestEntries w cfg).2) =
    (if disablePrecacheManifest cfg then config (this w)
     else push_exclude ConditionGeneratedAssetNames (config (this w))).
Proof.
  unfold Webpack.getManifestEntries, checkAlreadyCalled, pushExclude.
  destruct (disablePrecacheManifest cfg); [done|].
  destruct (alreadyCalled (this w)); [destruct (negb _)|]; simpl;
    destruct (getManifestEntriesFromCompilation _ _ _) as [[[size entries]|e] pushed];
    simpl; try destruct (serialize _ _); done.
Qed.

Lemma logPrecache_frame (cfg : Options) m c :
  Compilation.assets (logPrecache prettyBytes cfg m c) = Compilation.assets c /\
  Compilation.warnings (logPrecache prettyBytes cfg m c) = Compilation.warnings c /\
  Compilation.errors (logPrecache prettyBytes cfg m c) = Compilation.errors c /\
  Compilation.fileDependencies (logPrecache prettyBytes cfg m c) =
    Compilation.fileDependencies c.
Proof. unfold logPrecache. by destruct (Compilation.hasLogger c). Qed.

(** The replacement: the instance is not touched, the compilation
    changes in its assets only, and there only at the service worker
    and at its source map, which were there before. *)
Lemma inject_frame (cfg : Options) m text (w : World) :
  this (inject cfg m text w).2 = this w /\
  same_but_assets (compilation w) (compilation (inject cfg m text w).2) /\
  dom (Compilation.assets (compilation (inject cfg m text w).2)) =
    dom (Compilation.assets (compilation w)) /\
  (forall name,
     Compilation.assets (compilation (inject cfg m text w).2) !! name <>
     Compilation.assets (compilation w) !! name ->
     name = swDest cfg \/
     getSourcemapAssetName (compilation w) text (swDest cfg) = Some name) /\
  _generatedAssetNames w ⊆ _generatedAssetNames (inject cfg m text w).2 /\
  (forall name, name ∈ _generatedAssetNames (inject cfg m text w).2 ->
     name ∈ _generatedAssetNames w \/
     getSourcemapAssetName (compilation w) text (swDest cfg) = Some name).
Proof.
  assert (forall w0 : World,
            let r := injectWithoutSourcemap cfg m text w0 in
            this r.2 = this w0 /\
            same_but_assets (compilation w0) (compilation r.2) /\
            dom (Compilation.assets (compilation r.2)) =
              dom (Compilation.assets (compilation w0)) /\
            (forall name,
               Compilation.assets (compilation r.2) !! name <>
               Compilation.assets (compilation w0) !! name -> name = swDest cfg) /\
            _generatedAssetNames r.2 = _generatedAssetNames w0) as Hplain.
  { intros w0. unfold injectWithoutSourcemap. simpl.
    destruct (Compilation.updateAsset _ _ _) as [c|e] eqn:Hupdate; simpl.
    - apply updateAsset_returned in Hupdate as (Hthere & Hassets & Hsame).
      split; [done|]. split; [done|]. rewrite Hassets. split; [|split; [|done]].
      + by apply dom_insert_lookup_L.
      + intros name Hname. destruct (decide (name = swDest cfg)) as [|Hne]; [done|].
        by rewrite lookup_insert_ne in Hname.
    - split; [done|]. split; [apply same_but_assets_refl|]. done. }
  unfold Webpack.inject.
  destruct (getSourcemapAssetName (compilation w) text (swDest cfg)) as [mapName|]
    eqn:Hmap.
  2: { destruct (Hplain w) as (H1 & H2 & H3 & H4 & H5).
       split; [done|]. split; [done|]. split; [done|]. split; [|split].
       - intros name Hname. left. by apply H4.
       - by rewrite H5.
       - intros name. rewrite H5. by left. }
  destruct (truthy mapName).
  2: { destruct (Hplain w) as (H1 & H2 & H3 & H4 & H5).
       split; [done|]. split; [done|]. split; [done|]. split; [|split].
       - intros name Hname. left. by apply H4.
       - by rewrite H5.
       - intros name. rewrite H5. by left. }
  assert (forall name : string,
            name ∈ ({[mapName]} ∪ _generatedAssetNames w : gset string) ->
            name ∈ _generatedAssetNames w \/ Some mapName = Some name) as Hnames.
  { intros name [->%elem_of_singleton|?]%elem_of_union; [by right|by left]. }
  unfold Webpack.injectWithSourcemap, Compilation.getAsset. simpl.
  destruct (Compilation.assets (compilation w) !! mapName) as [mapText|] eqn:HmapText;
    simpl.
  2: { split; [done|]. split; [apply same_but_assets_refl|]. split; [done|].
       split; [done|]. split; [apply union_subseteq_r|apply Hnames]. }
  destruct (JSON_parse mapText) as [originalMap|e]; simpl.
  2: { split; [done|]. split; [apply same_but_assets_refl|]. split; [done|].
       split; [done|]. split; [apply union_subseteq_r|apply Hnames]. }
  destruct (replaceAndUpdateSourceMap _ _ _ _ _) as [[source map]|e]; simpl.
  2: { split; [done|]. split; [apply same_but_assets_refl|]. split; [done|].
       split; [done|]. split; [apply union_subseteq_r|apply Hnames]. }
  destruct (Compilation.updateAsset mapName map (compilation w)) as [c1|e] eqn:Hup1;
    simpl.
  2: { split; [done|]. split; [apply same_but_assets_refl|]. split; [done|].
       split; [done|]. split; [apply union_subseteq_r|apply Hnames]. }
  apply updateAsset_returned in Hup1 as (Hthere1 & Hassets1 & Hsame1).
  assert (dom (Compilation.assets c1) = dom (Compilation.assets (compilation w)))
    as Hdom1 by (rewrite Hassets1; by apply dom_insert_lookup_L).
  assert (forall name,
            Compilation.assets c1 !! name <> Compilation.assets (compilation w) !! name ->
            Some mapName = Some name) as Hother1.
  { intros name Hname. rewrite Hassets1 in Hname.
    destruct (decide (mapName = name)) as [->|Hne]; [done|].
    by rewrite lookup_insert_ne in Hname. }
  destruct (Compilation.updateAsset (swDest cfg) source c1) as [c2|e] eqn:Hup2; simpl.
  2: { split; [done|]. split; [done|]. split; [done|]. split; [|split].
       - intros name Hname. right. by apply Hother1.
       - apply union_subseteq_r.
       - apply Hnames. }
  apply updateAsset_returned in Hup2 as (Hthere2 & Hassets2 & Hsame2).
  split; [done|]. split; [by eapply same_but_assets_trans|].
  split; [|split; [|split]].
  - rewrite Hassets2, <- Hdom1. by apply dom_insert_lookup_L.
  - intros name Hname. rewrite Hassets2 in Hname.
    destruct (decide (name = swDest cfg)) as [|Hne]; [by left|].
    rewrite lookup_insert_ne in Hname by done. right. by apply Hother1.
  - apply union_subseteq_r.
  - apply Hnames.
Qed.

(** [addAssets] as a whole, field by field. *)
Lemma addAssets_frame (w : World) :
  this (addAssets w).2 = this (getManifestEntries w (config (this w))).2 /\
  Compilation.warnings (compilation (addAssets w).2) =
    Compilation.warnings (compilation (getManifestEntries w (config (this w))).2) /\
  Compilation.errors (compilation (addAssets w).2) =
    Compilation.errors (compilation w) /\
  Compilation.fileDependencies (compilation (addAssets w).2) =
    match (getManifestEntries w (config (this w))).1 with
    | Returned _ =>
        {[upath_resolve (swSrc (config (this w)))]} ∪
        Compilation.fileDependencies (compilation w)
    | Threw _ => Compilation.fileDependencies (compilation w)
    end /\
  dom (Compilation.assets (compilation (addAssets w).2)) =
    dom (Compilation.assets (compilation w)) /\
  (forall name,
     Compilation.assets (compilation (addAssets w).2) !! name <>
     Compilation.assets (compilation w) !! name ->
     name = swDest (config (this w)) \/
     exists c text,
       getSourcemapAssetName c text (swDest (config (this w))) = Some name) /\
  _generatedAssetNames w ⊆ _generatedAssetNames (addAssets w).2 /\
  (forall name, name ∈ _generatedAssetNames (addAssets w).2 ->
     name ∈ _generatedAssetNames w \/
     exists c text,
       getSourcemapAssetName c text (swDest (config (this w))) = Some name) /\
  (forall error, (addAssets w).1 = Threw error ->
     Compilation.logged (compilation (addAssets w).2) =
     Compilation.logged (compilation w)).
Proof.
  unfold Webpack.addAssets.
  pose proof (getManifestEntries_frame w (config (this w)))
    as (Ha & He & Hf & Hl & Hg & Hn & _).
  destruct (getManifestEntries w (config (this w))) as [[m|e] w1]; simpl in *.
  2: { rewrite Ha, He, Hf, Hn, Hg. repeat split; try done. by left. }
  unfold Compilation.getAsset. simpl. rewrite Ha.
  destruct (Compilation.assets (compilation w) !! swDest (config (this w)))
    as [text|] eqn:Hsw; simpl.
  2: { rewrite Ha, He, Hf, Hn, Hg. repeat split; try done. by left. }
  destruct (checkInjectionPoint _ text) as [[]|e]; simpl.
  2: { rewrite Ha, He, Hf, Hn, Hg. repeat split; try done. by left. }
  set (w2 := with_compilation
               (Compilation.add_fileDependency
                  (upath_resolve (swSrc (config (this w)))) (compilation w1)) w1).
  pose proof (inject_frame (config (this w)) m text w2)
    as (Hthis & (Hw & Herr & Hfd & _ & _ & Hhas & Hlog) & Hdom & Hassets & Hsub & Hnames).
  destruct (inject _ m text w2) as [[[]|e] w3]; simpl in *.
  - destruct (logPrecache_frame (config (this w)) m (compilation w3))
      as (La & Lw & Le & Lf).
    rewrite La, Lw, Le, Lf, Hw, Herr, Hfd, Hdom, Ha, He, Hf.
    rewrite Hn in Hsub, Hnames. rewrite Ha in Hassets.
    split; [done|]. split; [done|]. split; [done|]. split; [done|]. split; [done|].
    split; [|split; [done|split]].
    + intros name Hname. destruct (Hassets name Hname) as [?|?]; [by left|].
      right. by eexists _, _.
    + intros name Hname. destruct (Hnames name Hname) as [?|?]; [by left|].
      right. by eexists _, _.
    + done.
  - rewrite Hw, Herr, Hfd, Hdom, Hlog, Ha, He, Hf, Hg.
    rewrite Hn in Hsub, Hnames. rewrite Ha in Hassets.
    split; [done|]. split; [done|]. split; [done|]. split; [done|]. split; [done|].
    split; [|split; [done|split]].
    + intros name Hname. destruct (Hassets name Hname) as [?|?]; [by left|].
      right. by eexists _, _.
    + intros name Hname. destruct (Hnames name Hname) as [?|?]; [by left|].
      right. by eexists _, _.
    + done.
Qed.

(** *** The assets *)


(** *** The errors *)

(** X11.  The [processAssets] tap pushes the rejection of [addAssets] onto
    the errors of the compilation, and nothing else: one error when
    [addAssets] fails, none when it succeeds; the errors that were
    there stay, in their order. *)
Theorem processAssets_reports_the_rejection (w : World) :
  Compilation.errors (compilation (processAssets w)) =
  Compilation.errors (compilation w) ++
  match (addAssets w).1 with
  | Threw error => [error]
  | Returned _ => []
  end.
Proof.
  destruct (addAssets_frame w) as (_ & _ & Herr & _).
  unfold Webpack.processAssets.
  destruct (addAssets w) as [[u|e] w1]; simpl in *.
  - by rewrite app_nil_r.
  - by rewrite Herr.
Qed.

(** *** The watched files *)

(** X12.  Once the manifest entries have been obtained, the resolved path
    of [swSrc] is among the file dependencies of the compilation,
    also when the injection fails afterwards; no other dependency is
    added and none is removed. *)
Theorem swSrc_becomes_a_file_dependency (w : World) :
  Compilation.fileDependencies (compilation (processAssets w)) =
  match (getManifestEntries w (config (this w))).1 with
  | Returned _ =>
      {[upath_resolve (swSrc (config (this w)))]} ∪
      Compilation.fileDependencies (compilation w)
  | Threw _ => Compilation.fileDependencies (compilation w)
  end.
Proof.
  destruct (addAssets_frame w) as (_ & _ & _ & Hfd & _).
  unfold Webpack.processAssets.
  destruct (addAssets w) as [[u|e] w1]; simpl in *; done.
Qed.

(** *** The names of the generated assets *)


(** *** The exclude conditions *)

(** X14.  A call of [addAssets] with the manifest enabled appends one
    condition, the test against the generated asset names, to the
    [exclude] array of the options of the instance, whatever the
    outcome of the call; the conditions of the user stay in front, in
    their order, and no other option changes.  With the manifest
    disabled the options are left as they are. *)
Theorem exclude_gains_one_condition (w : World) :
  config (this (processAssets w)) =
  (if disablePrecacheManifest (config (this w))
   then config (this w)
   else push_exclude ConditionGeneratedAssetNames (config (this w))) /\
  exclude (config (this (processAssets w))) =
  exclude (config (this w)) ++
  (if disablePrecacheManifest (config (this w))
   then [] else [ConditionGeneratedAssetNames]).
Proof.
  assert (config (this (processAssets w)) =
          (if disablePrecacheManifest (config (this w))
           then config (this w)
           else push_exclude ConditionGeneratedAssetNames (config (this w)))) as Hconfig.
  { destruct (addAssets_frame w) as (Hthis & _).
    pose proof (getManifestEntries_frame w (config (this w)))
      as (_ & _ & _ & _ & _ & _ & Hcfg).
    unfold Webpack.processAssets.
    destruct (addAssets w) as [[u|e] w1]; simpl in *; by rewrite Hthis. }
  split; [done|]. rewrite Hconfig.
  destruct (disablePrecacheManifest (config (this w))); simpl; [|done].
  by rewrite app_nil_r.
Qed.

(** *** The manifest string *)

(** X15.  When the service worker is compiled (and the compilation is not a
    minimized one with eval-cheap-source-map), the manifest string
    that [getManifestEntries] returns is the serialisation of the
    entries with every double quote turned into a single quote: it
    has the same length and holds no double quote. *)
Theorem manifestString_has_no_double_quote (w w' : World) (cfg : Options) m :
  getManifestEntries w cfg = (Returned m, w') ->
  disablePrecacheManifest cfg = false ->
  replacesQuotes w = true ->
  exists serialized,
    stringify (match sortedEntries m with
               | Some l => JArray l
               | None => JUndefined
               end) = Some serialized /\
    manifestString m = Some (replace_all_double_quotes serialized) /\
    includes (String "034"%char "") (String_of (manifestString m)) = false /\
    String.length (String_of (manifestString m)) = String.length serialized.
Proof.
  intros Hrun Henabled Hquotes.
  pose proof (getManifestEntries_replacesQuotes getManifestEntriesFromCompilation
                w cfg) as Hsame.
  rewrite Hrun in Hsame. simpl in Hsame. rewrite Hquotes in Hsame.
  revert Hrun. unfold Webpack.getManifestEntries. rewrite Henabled.
  destruct (getManifestEntriesFromCompilation _ _ _) as [[[size entries]|e] pushed];
    [|done].
  destruct (serialize _ entries) as [s|e] eqn:Hser; [|done].
  intros [= <- <-]. simpl.
  assert (serialize true entries = Returned s) as Hquoted
    by (rewrite <- Hsame; exact Hser).
  clear Hser. rename Hquoted into Hser.
  unfold serialize in Hser.
  destruct (stringify _) as [serialized|]; [|done].
  injection Hser as <-. exists serialized. simpl.
  split; [done|]. split; [done|].
  split; [apply replace_all_double_quotes_none|apply replace_all_double_quotes_length].
Qed.

(** *** A successful injection *)

(** With the injection point matched once and no source map,
    [addAssets] succeeds and the service worker asset is the result
    of [replace]. *)
Lemma addAssets_replaces (w w1 : World) m swAssetString :
  getManifestEntries w (config (this w)) = (Returned m, w1) ->
  Compilation.getAsset (compilation w) (swDest (config (this w))) = Some swAssetString ->
  List.length (match_scan (injectionPoint (config (this w))) swAssetString 0) = 1%nat ->
  (forall c, getSourcemapAssetName c swAssetString (swDest (config (this w))) = None) ->
  (addAssets w).1 = Returned tt /\
  Compilation.getAsset (compilation (addAssets w).2) (swDest (config (this w))) =
  Some (replace swAssetString (injectionPoint (config (this w)))
          (String_of (manifestString m))).
Proof.
  intros Hrun Hasset Hcount Hnomap.
  unfold Webpack.addAssets.
  pose proof (getManifestEntries_frame w (config (this w))) as (Ha & _).
  rewrite Hrun in Ha |- *. simpl in Ha. simpl.
  unfold Compilation.getAsset in *. simpl. rewrite Ha, Hasset.
  unfold checkInjectionPoint, match_global.
  destruct (match_scan _ swAssetString 0) as [|x [|y l]]; simpl in Hcount; [done| |done].
  simpl. unfold Webpack.inject. rewrite Hnomap.
  unfold injectWithoutSourcemap, Compilation.updateAsset. simpl.
  rewrite Ha, Hasset. simpl. split; [done|].
  destruct (Compilation.hasLogger (compilation w1)) eqn:Hlogger;
    unfold logPrecache; simpl; rewrite Hlogger; simpl; apply lookup_insert_eq.
Qed.

(** X16.  With the injection point matched once and no source map, the
    service worker asset becomes its text with the first occurrence
    of the injection point replaced by the manifest string, in which
    the dollar patterns of [String.prototype.replace] are expanded; a
    manifest string without dollar sign is spliced in as it is.
    Nothing before and nothing after the occurrence changes. *)
Theorem injection_splices_manifest (w w1 : World) m swAssetString :
  getManifestEntries w (config (this w)) = (Returned m, w1) ->
  Compilation.getAsset (compilation w) (swDest (config (this w))) = Some swAssetString ->
  List.length (match_scan (injectionPoint (config (this w))) swAssetString 0) = 1%nat ->
  (forall c, getSourcemapAssetName c swAssetString (swDest (config (this w))) = None) ->
  exists before after,
    swAssetString = before +:+ injectionPoint (config (this w)) +:+ after /\
    (forall before' after',
       swAssetString = before' +:+ injectionPoint (config (this w)) +:+ after' ->
       (String.length before <= String.length before')%nat) /\
    (addAssets w).1 = Returned tt /\
    Compilation.getAsset (compilation (addAssets w).2) (swDest (config (this w))) =
      Some (before +:+
            GetSubstitution (injectionPoint (config (this w))) before after
              (String_of (manifestString m)) +:+
            after) /\
    (includes "$" (String_of (manifestString m)) = false ->
     Compilation.getAsset (compilation (addAssets w).2) (swDest (config (this w))) =
       Some (before +:+ String_of (manifestString m) +:+ after)).
Proof.
  intros Hrun Hasset Hcount Hnomap.
  destruct (replace_at_the_match (injectionPoint (config (this w))) swAssetString
              Hcount) as (before & after & Hdec & Hmin & Hrep).
  destruct (addAssets_replaces w w1 m swAssetString Hrun Hasset Hcount Hnomap)
    as [Hdone Hnew].
  exists before, after. split; [done|]. split; [done|]. split; [done|].
  split; [by rewrite Hnew, Hrep|].
  intros Hplain. by rewrite Hnew, Hrep, GetSubstitution_plain.
Qed.

(** *** The log *)

(** X17.  A failed [addAssets] writes no log line.  A successful one, on a
    compilation with a logger, writes one line, which names the
    destination of the service worker, the number of entries and the
    size of the manifest. *)
Theorem precache_is_logged_on_success (w : World) :
  (forall error, (addAssets w).1 = Threw error ->
     Compilation.logged (compilation (processAssets w)) =
     Compilation.logged (compilation w)) /\
  ((addAssets w).1 = Returned tt ->
   Compilation.hasLogger (compilation w) = true ->
   exists m line,
     (getManifestEntries w (config (this w))).1 = Returned m /\
     Compilation.logged (compilation (processAssets w)) =
       Compilation.logged (compilation w) ++ [line] /\
     includes (swDest (config (this w))) line = true /\
     includes (pretty (from_option List.length 0%nat (sortedEntries m))) line = true /\
     includes (prettyBytes (size m)) line = true).
Proof.
  split.
  { intros error Herror.
    destruct (addAssets_frame w) as (_ & _ & _ & _ & _ & _ & _ & _ & Hlog).
    specialize (Hlog error Herror). unfold Webpack.processAssets.
    destruct (addAssets w) as [[u|e] w1]; simpl in *; [done|].
    by injection Herror as ->. }
  unfold Webpack.processAssets, Webpack.addAssets.
  pose proof (getManifestEntries_frame w (config (this w)))
    as (Ha & _ & _ & Hl & Hg & _).
  destruct (getManifestEntries w (config (this w))) as [[m|e] w1]; simpl in *; [|done].
  unfold Compilation.getAsset. simpl.
  destruct (Compilation.assets (compilation w1) !! swDest (config (this w)))
    as [text|]; simpl; [|done].
  destruct (checkInjectionPoint _ text) as [[]|e]; simpl; [|done].
  set (w2 := with_compilation
               (Compilation.add_fileDependency
                  (upath_resolve (swSrc (config (this w)))) (compilation w1)) w1).
  pose proof (inject_frame (config (this w)) m text w2)
    as (_ & (_ & _ & _ & _ & _ & Hhas & Hlog) & _).
  destruct (inject _ m text w2) as [[[]|e] w3]; simpl in *; [|done].
  intros _ Hlogger. exists m. eexists. split; [done|].
  unfold logPrecache. rewrite Hhas, Hl, Hlogger. simpl. rewrite Hlog, Hg.
  split; [done|]. split; [|split].
  - apply includes_app.
  - rewrite <- !(string_app_assoc _ _ (pretty _ +:+ _)). apply includes_app.
  - rewrite <- !(string_app_assoc _ _ (prettyBytes _ +:+ _)). apply includes_app.
Qed.
End MorePluginFacts.
End WebpackMoreFacts.

(** ** More of the plugin on the example compilation *)

Module WebpackMoreChecks.
Import Js StableStringify Webpack WebpackExamples WebpackMoreFacts.

Lemma manifestString_has_no_double_quote_witness :
  exists m serialized,
    (run_getManifestEntries (world once entries false)).1 = Returned m /\
    stringify (match sortedEntries m with
               | Some l => JArray l
               | None => JUndefined
               end) = Some serialized /\
    manifestString m = Some (replace_all_double_quotes serialized) /\
    includes (String "034"%char "") (String_of (manifestString m)) = false /\
    String.length (String_of (manifestString m)) = String.length serialized.
Proof.
  destruct (manifestString_has_no_double_quote getManifestEntriesFromCompilation
              (world once entries false)
              (run_getManifestEntries (world once entries false)).2
              (config entries false) _ eq_refl eq_refl eq_refl)
    as (serialized & Hser & Hstring & Hquote & Hlength).
  eexists _, serialized. split; [reflexivity|]. split; [exact Hser|].
  split; [exact Hstring|]. split; [exact Hquote|exact Hlength].
Defined.

Lemma injection_splices_manifest_witness :
  exists before after,
    once = before +:+ "self.__SW_MANIFEST" +:+ after /\
    (forall before' after',
       once = before' +:+ "self.__SW_MANIFEST" +:+ after' ->
       (String.length before <= String.length before')%nat) /\
    (run_addAssets (world once entries false)).1 = Returned tt /\
    Compilation.getAsset (compilation (run_addAssets (world once entries false)).2)
      "sw.js" =
      Some (before +:+
            GetSubstitution "self.__SW_MANIFEST" before after
              "[{'revision':'92eb5ffee6ae2fec3ad71c777531578f','url':'app.js'},{'revision':null,'url':'index.0cc175b9.html'}]" +:+
            after) /\
    (includes "$"
       "[{'revision':'92eb5ffee6ae2fec3ad71c777531578f','url':'app.js'},{'revision':null,'url':'index.0cc175b9.html'}]" = false ->
     Compilation.getAsset (compilation (run_addAssets (world once entries false)).2)
       "sw.js" =
       Some (before +:+
             "[{'revision':'92eb5ffee6ae2fec3ad71c777531578f','url':'app.js'},{'revision':null,'url':'index.0cc175b9.html'}]" +:+
             after)).
Proof.
  apply (injection_splices_manifest getManifestEntriesFromCompilation
           getSourcemapAssetName string JSON_parse replaceAndUpdateSourceMap
           upath_resolve prettyBytes
           (world once entries false)
           (run_getManifestEntries (world once entries false)).2
           {| size := 30; sortedEntries := Some entries;
              manifestString := Some "[{'revision':'92eb5ffee6ae2fec3ad71c777531578f','url':'app.js'},{'revision':null,'url':'index.0cc175b9.html'}]" |}
           once).
  - reflexivity.
  - reflexivity.
  - reflexivity.
  - intros c. reflexivity.
Defined.
End WebpackMoreChecks.

(** ** Facts about the options and the make hook *)

Module LifecycleFacts.
Import Js StableStringify Webpack Lifecycle Frame StringFacts JsFacts ReplaceFacts
       WebpackFacts WebpackMoreFacts.

Section PropagateFacts.
Context {Value : Type}.
Variable string_value : string -> Value.
Variable upath_parse_name : option Value -> Completion string.

Local Abbreviation Object := (gmap string Value).
Local Abbreviation propagateWebpackConfig :=
  (propagateWebpackConfig string_value upath_parse_name).

(** X18.  The options that the user has set win over the ones derived from
    the compiler: every property of the options keeps its value,
    [swDest] and [mode] are filled in only when they are absent, and
    no other property appears.  A second call changes nothing,
    whatever the mode of the compiler it is made for. *)
Theorem options_of_the_user_take_precedence (mode : Value) (config : gmap string Value) name :
  upath_parse_name (config !! "swSrc") = Returned name ->
  exists result,
    propagateWebpackConfig mode config = Returned result /\
    (forall key value, config !! key = Some value -> result !! key = Some value) /\
    (config !! "swDest" = None ->
     result !! "swDest" = Some (string_value (name +:+ ".js"))) /\
    (config !! "mode" = None -> result !! "mode" = Some mode) /\
    dom result = dom config ∪ {[ "mode"; "swDest" ]} /\
    (forall mode', propagateWebpackConfig mode' result = Returned result).
Proof.
  intros Hname. unfold Lifecycle.propagateWebpackConfig. rewrite Hname.
  eexists. split; [done|]. unfold Object_assign.
  split; [|split; [|split; [|split]]].
  - intros key value Hkey. by apply lookup_union_Some_l.
  - intros Habsent. rewrite lookup_union_r by done.
    rewrite lookup_insert_ne by done. apply lookup_singleton_eq.
  - intros Habsent. rewrite lookup_union_r by done. apply lookup_insert_eq.
  - by rewrite dom_union_L, dom_insert_L, dom_singleton_L.
  - intros mode'.
    assert ((config ∪ ({[ "mode" := mode; "swDest" := string_value (name +:+ ".js") ]}
                        : gmap string Value)) !! "swSrc" = config !! "swSrc") as ->.
    { destruct (config !! "swSrc") as [v|] eqn:Hsrc.
      - by apply lookup_union_Some_l.
      - rewrite lookup_union_r by done.
        by rewrite lookup_insert_ne, lookup_singleton_ne. }
    rewrite Hname. f_equal. apply map_eq. intros key.
    destruct ((config ∪ ({[ "mode" := mode;
                            "swDest" := string_value (name +:+ ".js") ]} : gmap string Value))
                !! key) as [v|] eqn:Hkey.
    + by apply lookup_union_Some_l.
    + rewrite lookup_union_r by done.
      apply lookup_union_None in Hkey as [_ Hderived].
      destruct (decide (key = "mode")) as [->|Hmode];
        [by rewrite lookup_insert_eq in Hderived|].
      rewrite lookup_insert_ne in Hderived |- * by done.
      destruct (decide (key = "swDest")) as [->|Hdest];
        [by rewrite lookup_singleton_eq in Hderived|].
      by rewrite lookup_singleton_ne.
Qed.
End PropagateFacts.

Section HandleMakeFacts.
Context {UserCondition OtherOptions Plugin : Type}.
Local Abbreviation Options := (@WebpackInjectManifestOptions UserCondition OtherOptions).
Local Abbreviation World := (@World UserCondition OtherOptions).

Variable validateWebpackInjectManifestOptions : Options -> Completion Options.
Variable relativeToOutputPath : Compilation.t -> string -> string.
Variable webpackCompilationPlugins : Options -> option (list Plugin).
Variable readFileSync : string -> Completion string.
Variable emitAsset : string -> string -> Compilation.t -> Compilation.t.
Variable runAsChild :
  Options -> Compilation.t -> Compilation.t * Completion (option ChildCompilation).
Variable getManifestEntriesFromCompilation :
  gset string -> Compilation.t -> Options ->
  Completion (Z * option (list Json)) * list Thrown.
Variable getSourcemapAssetName : Compilation.t -> string -> string -> option string.
Variable SourceMap : Type.
Variable JSON_parse : string -> Completion SourceMap.
Variable replaceAndUpdateSourceMap :
  string -> SourceMap -> string -> string -> string -> Completion (string * string).
Variable upath_resolve : string -> string.
Variable prettyBytes : Z -> string.

Local Abbreviation afterValidation :=
  (afterValidation relativeToOutputPath webpackCompilationPlugins readFileSync
     emitAsset runAsChild).
Local Abbreviation handleMake :=
  (handleMake validateWebpackInjectManifestOptions relativeToOutputPath
     webpackCompilationPlugins readFileSync emitAsset runAsChild).
Local Abbreviation makeTap :=
  (makeTap validateWebpackInjectManifestOptions relativeToOutputPath
     webpackCompilationPlugins readFileSync emitAsset runAsChild).
Local Abbreviation getManifestEntries :=
  (getManifestEntries getManifestEntriesFromCompilation).
Local Abbreviation addAssets :=
  (addAssets getManifestEntriesFromCompilation getSourcemapAssetName SourceMap
     JSON_parse replaceAndUpdateSourceMap upath_resolve prettyBytes).
Local Abbreviation processAssets :=
  (processAssets getManifestEntriesFromCompilation getSourcemapAssetName SourceMap
     JSON_parse replaceAndUpdateSourceMap upath_resolve prettyBytes).

Lemma set_config_same (w : World) : set_config (config (this w)) w = w.
Proof. by destruct w as [[cfg called] c names]. Qed.

(** What the part after the validation does to the instance and to
    the set of generated names, whatever its outcome. *)
Lemma afterValidation_registers (w : World) :
  config (this (afterValidation w).2) =
    set_swDest (relativeToOutputPath (compilation w) (swDest (config (this w))))
      (config (this w)) /\
  alreadyCalled (this (afterValidation w).2) = alreadyCalled (this w) /\
  _generatedAssetNames (afterValidation w).2 =
    {[relativeToOutputPath (compilation w) (swDest (config (this w)))]} ∪
    _generatedAssetNames w.
Proof.
  unfold Lifecycle.afterValidation. simpl.
  destruct (compileSrc (config (this w))).
  - unfold performChildCompilation. simpl.
    destruct (runAsChild _ _) as [c [child|e]]; done.
  - unfold addSrcToAssets. simpl.
    destruct (readFileSync _) as [source|e]; simpl; [|done].
    destruct (webpackCompilationPlugins _) as [[|plugin plugins]|]; done.
Qed.

(** *** Invalid options *)

(** X19.  When the validation of the options throws an [Error], the make
    hook does nothing but report it: [handleMake] rejects with an
    [Error] whose message is the message of the validation behind a
    fixed heading, the tap pushes this one error onto the errors of
    the compilation, and the instance, the assets, the warnings and
    the set of generated names stay as they were. *)
Theorem invalid_options_are_reported (w : World) error :
  validateWebpackInjectManifestOptions (config (this w)) = Threw error ->
  instanceof_Error error = true ->
  handleMake w = (Threw (new_Error (invalidOptionsMessage error)), w) /\
  startsWith "Please check your InjectManifest plugin configuration:"
    (invalidOptionsMessage error) = true /\
  includes (message error) (invalidOptionsMessage error) = true /\
  makeTap w =
    with_compilation
      (Compilation.push_error (new_Error (invalidOptionsMessage error)) (compilation w))
      w.
Proof.
  intros Hthrown Herror.
  assert (handleMake w = (Threw (new_Error (invalidOptionsMessage error)), w)) as Hmake.
  { unfold Lifecycle.handleMake. by rewrite Hthrown, Herror. }
  split; [done|]. split; [|split].
  - apply (startsWith_app "Please check your InjectManifest plugin configuration:").
  - unfold invalidOptionsMessage.
    rewrite <- (string_app_nil_r (message error)) at 2.
    rewrite <- !(string_app_assoc _ _ (message error +:+ "")).
    apply includes_app.
  - unfold Lifecycle.makeTap. by rewrite Hmake.
Qed.

(** X20.  When the validation throws a value that is not an [Error], the
    throw is dropped: the make hook goes on with the options that
    were not validated, as if the validation had returned them. *)
Theorem thrown_non_error_is_dropped (w : World) thrown :
  validateWebpackInjectManifestOptions (config (this w)) = Threw thrown ->
  instanceof_Error thrown = false ->
  handleMake w =
    Lifecycle.handleMake (fun config => Returned config) relativeToOutputPath
      webpackCompilationPlugins readFileSync emitAsset runAsChild w /\
  swDest (config (this (makeTap w))) =
    relativeToOutputPath (compilation w) (swDest (config (this w))) /\
  relativeToOutputPath (compilation w) (swDest (config (this w)))
    ∈ _generatedAssetNames (makeTap w).
Proof.
  intros Hthrown Hother.
  assert (handleMake w = afterValidation w) as Hmake.
  { unfold Lifecycle.handleMake. by rewrite Hthrown, Hother. }
  split.
  { rewrite Hmake. unfold Lifecycle.handleMake. by rewrite set_config_same. }
  destruct (afterValidation_registers w) as (Hconfig & _ & Hnames).
  unfold Lifecycle.makeTap. rewrite Hmake.
  destruct (afterValidation w) as [[u|e] w1]; simpl in *;
    rewrite Hconfig, Hnames; (split; [done|]); apply elem_of_union_l;
    by apply elem_of_singleton.
Qed.

(** *** The destination of the service worker *)

(** X21.  With valid options, the make hook rewrites [swDest] to its path
    relative to the output directory and adds that path to the set of
    generated asset names, also when the compilation of the child or
    the reading of the source fails afterwards; the other options are
    the validated ones, and no name leaves the set. *)
Theorem swDest_is_marked_as_generated (w : World) (validated : Options) :
  validateWebpackInjectManifestOptions (config (this w)) = Returned validated ->
  config (this (makeTap w)) =
    set_swDest (relativeToOutputPath (compilation w) (swDest validated)) validated /\
  _generatedAssetNames (makeTap w) =
    {[relativeToOutputPath (compilation w) (swDest validated)]} ∪
    _generatedAssetNames w /\
  alreadyCalled (this (makeTap w)) = alreadyCalled (this w).
Proof.
  intros Hvalid.
  destruct (afterValidation_registers (set_config validated w))
    as (Hconfig & Hcalled & Hnames).
  unfold Lifecycle.makeTap, Lifecycle.handleMake. rewrite Hvalid.
  destruct (afterValidation (set_config validated w)) as [[u|e] w1]; simpl in *;
    by rewrite Hconfig, Hnames, Hcalled.
Qed.

(** *** The source that is not compiled *)

(** X22.  With [compileSrc] off, the make hook emits the text of the source
    file, as it is, under the destination of the service worker, and
    adds one warning when [webpackCompilationPlugins] is a non-empty
    array; the child compiler is not run.  When the source cannot be
    read, nothing is emitted and the failure is the one error that
    the tap pushes. *)
Theorem source_is_emitted_uncompiled (w : World) (validated : Options) :
  validateWebpackInjectManifestOptions (config (this w)) = Returned validated ->
  compileSrc validated = false ->
  match readFileSync (swSrc validated) with
  | Returned source =>
      (handleMake w).1 = Returned tt /\
      compilation (makeTap w) =
        (match webpackCompilationPlugins
                 (set_swDest (relativeToOutputPath (compilation w) (swDest validated))
                    validated) with
         | Some (_ :: _) => Compilation.push_warnings [ignoredPluginsWarning]
         | _ => id
         end)
          (emitAsset (relativeToOutputPath (compilation w) (swDest validated)) source
             (compilation w))
  | Threw error =>
      (handleMake w).1 = Threw error /\
      compilation (makeTap w) = Compilation.push_error error (compilation w)
  end.
Proof.
  intros Hvalid Hcompile.
  unfold Lifecycle.makeTap, Lifecycle.handleMake. rewrite Hvalid.
  unfold Lifecycle.afterValidation. simpl. rewrite Hcompile.
  unfold addSrcToAssets. simpl.
  destruct (readFileSync (swSrc validated)) as [source|e]; simpl; [|done].
  by destruct (webpackCompilationPlugins _) as [[|plugin plugins]|].
Qed.

(** *** The compiled source *)

(** X23.  With [compileSrc] on, the make hook adds the warnings and the
    errors of the child compilation after those of the parent; an
    undefined child compilation adds nothing.  When the run of the
    child compiler fails, the failure is the one error that the tap
    pushes, and the warnings are left alone.  The source file is not
    read. *)
Theorem child_compilation_is_reported (w : World) (validated : Options) :
  validateWebpackInjectManifestOptions (config (this w)) = Returned validated ->
  compileSrc validated = true ->
  forall c outcome,
    runAsChild
      (set_swDest (relativeToOutputPath (compilation w) (swDest validated)) validated)
      (compilation w) = (c, outcome) ->
    Compilation.assets (compilation (makeTap w)) = Compilation.assets c /\
    Compilation.warnings (compilation (makeTap w)) =
      Compilation.warnings c ++
      match outcome with
      | Returned child => from_option childWarnings [] child
      | Threw _ => []
      end /\
    Compilation.errors (compilation (makeTap w)) =
      Compilation.errors c ++
      match outcome with
      | Returned child => from_option childErrors [] child
      | Threw error => [error]
      end.
Proof.
  intros Hvalid Hcompile c outcome Hrun.
  unfold Lifecycle.makeTap, Lifecycle.handleMake. rewrite Hvalid.
  unfold Lifecycle.afterValidation. simpl. rewrite Hcompile.
  unfold performChildCompilation. simpl. rewrite Hrun.
  destruct outcome as [child|error]; simpl; [done|].
  by rewrite app_nil_r.
Qed.

(** *** The two taps together *)

Lemma source_emitted (w : World) (validated : Options) source :
  validateWebpackInjectManifestOptions (config (this w)) = Returned validated ->
  compileSrc validated = false ->
  readFileSync (swSrc validated) = Returned source ->
  (forall name text c, Compilation.getAsset (emitAsset name text c) name = Some text) ->
  Compilation.getAsset (compilation (makeTap w))
    (relativeToOutputPath (compilation w) (swDest validated)) = Some source.
Proof.
  intros Hvalid Hcompile Hread Hemit.
  unfold Lifecycle.makeTap, Lifecycle.handleMake. rewrite Hvalid.
  unfold Lifecycle.afterValidation. simpl. rewrite Hcompile.
  unfold addSrcToAssets. simpl. rewrite Hread. simpl.
  destruct (webpackCompilationPlugins _) as [[|plugin plugins]|]; simpl;
    apply Hemit.
Qed.

(** X24.  The make tap and then the [processAssets] tap, with [compileSrc]
    off: when webpack keeps the emitted text under its name, the
    source file holds the injection point once and there is no source
    map, the service worker asset ends up as the text of the source
    file with the manifest string in the place of the injection
    point, under the destination relative to the output directory,
    which is among the generated asset names; the second tap reports
    no error. *)
Theorem uncompiled_service_worker_gets_the_manifest
    (w w1 : World) (validated : Options) source m :
  validateWebpackInjectManifestOptions (config (this w)) = Returned validated ->
  compileSrc validated = false ->
  readFileSync (swSrc validated) = Returned source ->
  (forall name text c, Compilation.getAsset (emitAsset name text c) name = Some text) ->
  getManifestEntries (makeTap w) (config (this (makeTap w))) = (Returned m, w1) ->
  List.length (match_scan (injectionPoint validated) source 0) = 1%nat ->
  (forall c, getSourcemapAssetName c source
               (relativeToOutputPath (compilation w) (swDest validated)) = None) ->
  exists before after,
    source = before +:+ injectionPoint validated +:+ after /\
    Compilation.getAsset (compilation (processAssets (makeTap w)))
      (relativeToOutputPath (compilation w) (swDest validated)) =
      Some (before +:+
            GetSubstitution (injectionPoint validated) before after
              (String_of (manifestString m)) +:+
            after) /\
    Compilation.errors (compilation (processAssets (makeTap w))) =
      Compilation.errors (compilation (makeTap w)) /\
    relativeToOutputPath (compilation w) (swDest validated)
      ∈ _generatedAssetNames (processAssets (makeTap w)).
Proof.
  intros Hvalid Hcompile Hread Hemit Hrun Hcount Hnomap.
  pose proof (source_emitted w validated source Hvalid Hcompile Hread Hemit) as Hasset.
  destruct (afterValidation_registers (set_config validated w))
    as (Hconfig0 & _ & Hnames0).
  assert (config (this (makeTap w)) =
          set_swDest (relativeToOutputPath (compilation w) (swDest validated)) validated /\
          relativeToOutputPath (compilation w) (swDest validated)
            ∈ _generatedAssetNames (makeTap w)) as [Hconfig Hnames].
  { unfold Lifecycle.makeTap, Lifecycle.handleMake. rewrite Hvalid.
    destruct (afterValidation (set_config validated w)) as [[u|e] w2]; simpl in *;
      rewrite Hconfig0, Hnames0; (split; [done|]); apply elem_of_union_l;
      by apply elem_of_singleton. }
  assert (swDest (config (this (makeTap w))) =
          relativeToOutputPath (compilation w) (swDest validated)) as Hdest
    by (by rewrite Hconfig).
  assert (injectionPoint (config (this (makeTap w))) = injectionPoint validated)
    as Hpoint by (by rewrite Hconfig).
  destruct (replace_at_the_match (injectionPoint validated) source Hcount)
    as (before & after & Hdec & _ & Hrep).
  destruct (addAssets_replaces getManifestEntriesFromCompilation getSourcemapAssetName
              SourceMap JSON_parse replaceAndUpdateSourceMap upath_resolve prettyBytes
              (makeTap w) w1 m source) as [Hdone Hnew].
  { exact Hrun. }
  { by rewrite Hdest. }
  { by rewrite Hpoint. }
  { by rewrite Hdest. }
  rewrite Hdest, Hpoint, Hrep in Hnew.
  exists before, after. split; [done|].
  pose proof (addAssets_frame getManifestEntriesFromCompilation getSourcemapAssetName
                SourceMap JSON_parse replaceAndUpdateSourceMap upath_resolve prettyBytes
                (makeTap w)) as (_ & _ & Herr & _ & _ & _ & Hsub & _).
  unfold Webpack.processAssets.
  destruct (addAssets (makeTap w)) as [[[]|e] w2]; simpl in *; [|done].
  split; [done|]. split; [done|]. by apply Hsub.
Qed.
End HandleMakeFacts.
End LifecycleFacts.

(** ** The make hook on the example project *)

Module LifecycleChecks.
Import Js StableStringify Webpack WebpackExamples Lifecycle LifecycleExamples
       LifecycleFacts.

Lemma options_of_the_user_take_precedence_witness :
  exists result,
    propagateWebpackConfig id upath_parse_name "development" userOptions =
      Returned result /\
    (forall key value, userOptions !! key = Some value -> result !! key = Some value) /\
    (userOptions !! "swDest" = None -> result !! "swDest" = Some (id ("sw" +:+ ".js"))) /\
    (userOptions !! "mode" = None -> result !! "mode" = Some "development") /\
    dom result = dom userOptions ∪ {[ "mode"; "swDest" ]} /\
    (forall mode', propagateWebpackConfig id upath_parse_name mode' result =
                   Returned result).
Proof.
  apply (options_of_the_user_take_precedence id upath_parse_name "development"
           userOptions "sw").
  reflexivity.
Defined.

Lemma invalid_options_are_reported_witness :
  run_handleMake (fresh (options false "")) =
    (Threw (new_Error
              (invalidOptionsMessage (new_Error "injectionPoint must not be empty"))),
     fresh (options false "")) /\
  startsWith "Please check your InjectManifest plugin configuration:"
    (invalidOptionsMessage (new_Error "injectionPoint must not be empty")) = true /\
  includes (message (new_Error "injectionPoint must not be empty"))
    (invalidOptionsMessage (new_Error "injectionPoint must not be empty")) = true /\
  run_makeTap (fresh (options false "")) =
    with_compilation
      (Compilation.push_error
         (new_Error
            (invalidOptionsMessage (new_Error "injectionPoint must not be empty")))
         (compilation (fresh (options false ""))))
      (fresh (options false "")).
Proof.
  apply (invalid_options_are_reported validate relativeToOutputPath
           webpackCompilationPlugins readFileSync emitAsset runAsChild
           (fresh (options false "")) (new_Error "injectionPoint must not be empty")).
  - reflexivity.
  - reflexivity.
Defined.

Lemma thrown_non_error_is_dropped_witness :
  run_handleMake (fresh (options false "?")) =
    handleMake (fun config => Returned config) relativeToOutputPath
      webpackCompilationPlugins readFileSync emitAsset runAsChild
      (fresh (options false "?")) /\
  swDest (Webpack.config (this (run_makeTap (fresh (options false "?"))))) =
    relativeToOutputPath (compilation (fresh (options false "?")))
      (swDest (Webpack.config (this (fresh (options false "?"))))) /\
  relativeToOutputPath (compilation (fresh (options false "?")))
    (swDest (Webpack.config (this (fresh (options false "?")))))
    ∈ _generatedAssetNames (run_makeTap (fresh (options false "?"))).
Proof.
  apply (thrown_non_error_is_dropped validate relativeToOutputPath
           webpackCompilationPlugins readFileSync emitAsset runAsChild
           (fresh (options false "?")) (OtherValue "invalid injectionPoint")).
  - reflexivity.
  - reflexivity.
Defined.

Lemma swDest_is_marked_as_generated_witness :
  Webpack.config (this (run_makeTap (fresh (options true "self.__SW_MANIFEST")))) =
    set_swDest "sw.js" (options true "self.__SW_MANIFEST") /\
  _generatedAssetNames (run_makeTap (fresh (options true "self.__SW_MANIFEST"))) =
    {[ "sw.js" ]} ∪ _generatedAssetNames (fresh (options true "self.__SW_MANIFEST")) /\
  alreadyCalled (this (run_makeTap (fresh (options true "self.__SW_MANIFEST")))) =
    alreadyCalled (this (fresh (options true "self.__SW_MANIFEST"))).
Proof.
  apply (swDest_is_marked_as_generated validate relativeToOutputPath
           webpackCompilationPlugins readFileSync emitAsset runAsChild
           (fresh (options true "self.__SW_MANIFEST"))
           (options true "self.__SW_MANIFEST")).
  reflexivity.
Defined.

Lemma source_is_emitted_uncompiled_witness :
  (run_handleMake (fresh (options false "self.__SW_MANIFEST"))).1 = Returned tt /\
  compilation (run_makeTap (fresh (options false "self.__SW_MANIFEST"))) =
    Compilation.push_warnings [ignoredPluginsWarning]
      (emitAsset "sw.js" once (compilation (fresh (options false "self.__SW_MANIFEST")))).
Proof.
  apply (source_is_emitted_uncompiled validate relativeToOutputPath
           webpackCompilationPlugins readFileSync emitAsset runAsChild
           (fresh (options false "self.__SW_MANIFEST"))
           (options false "self.__SW_MANIFEST")).
  - reflexivity.
  - reflexivity.
Defined.

Lemma child_compilation_is_reported_witness :
  Compilation.assets (compilation (run_makeTap (fresh (options true "self.__SW_MANIFEST"))))
    = {[ "sw.js" := once; "main.js" := "console.log(1)" ]} /\
  Compilation.warnings
    (compilation (run_makeTap (fresh (options true "self.__SW_MANIFEST")))) =
    [] ++ [new_Error "sw.js exceeds the recommended size."] /\
  Compilation.errors
    (compilation (run_makeTap (fresh (options true "self.__SW_MANIFEST")))) = [] ++ [].
Proof.
  apply (child_compilation_is_reported validate relativeToOutputPath
           webpackCompilationPlugins readFileSync emitAsset runAsChild
           (fresh (options true "self.__SW_MANIFEST"))
           (options true "self.__SW_MANIFEST") eq_refl eq_refl
           (emitAsset "sw.js" once
              (compilation (fresh (options true "self.__SW_MANIFEST"))))
           (Returned (Some {| childWarnings :=
                                [new_Error "sw.js exceeds the recommended size."];
                              childErrors := [] |}))).
  reflexivity.
Defined.

Lemma uncompiled_service_worker_gets_the_manifest_witness :
  exists before after m,
    (run_getManifestEntries
       (run_makeTap (fresh (options false "self.__SW_MANIFEST")))).1 = Returned m /\
    once = before +:+ "self.__SW_MANIFEST" +:+ after /\
    Compilation.getAsset
      (compilation
         (run_processAssets (run_makeTap (fresh (options false "self.__SW_MANIFEST")))))
      "sw.js" =
      Some (before +:+
            GetSubstitution "self.__SW_MANIFEST" before after
              (String_of (manifestString m)) +:+
            after) /\
    Compilation.errors
      (compilation
         (run_processAssets (run_makeTap (fresh (options false "self.__SW_MANIFEST"))))) =
      Compilation.errors
        (compilation (run_makeTap (fresh (options false "self.__SW_MANIFEST")))) /\
    "sw.js" ∈ _generatedAssetNames
                (run_processAssets
                   (run_makeTap (fresh (options false "self.__SW_MANIFEST")))).
Proof.
  destruct (uncompiled_service_worker_gets_the_manifest validate relativeToOutputPath
              webpackCompilationPlugins readFileSync emitAsset runAsChild
              getManifestEntriesFromCompilation getSourcemapAssetName string JSON_parse
              replaceAndUpdateSourceMap upath_resolve prettyBytes
              (fresh (options false "self.__SW_MANIFEST"))
              (run_getManifestEntries
                 (run_makeTap (fresh (options false "self.__SW_MANIFEST")))).2
              (options false "self.__SW_MANIFEST") once _
              eq_refl eq_refl eq_refl
              (fun name text c => lookup_insert_eq (Compilation.assets c) name text)
              eq_refl eq_refl (fun c => eq_refl))
    as (before & after & Hsource & Hasset & Herrors & Hnames).
  exists before, after. eexists. split; [reflexivity|].
  split; [exact Hsource|]. split; [exact Hasset|]. split; [exact Herrors|exact Hnames].
Defined.
End LifecycleChecks.
